(** * ansible-portainer: a shallow embedding of the reconciliation engine

    The development follows the layout of the collection:

    - Python values and dictionaries (the JSON payloads the modules handle);
    - [plugins/module_utils/portainer_module.py]: [IdempotencyManager],
      and [validate_text_content] of [PortainerModule] ([TextContent]);
    - the exceptions, the module object and the monad module code runs in;
    - [plugins/module_utils/portainer_client.py]: [PortainerClient]
      ([Client]);
    - [plugins/module_utils/portainer_fields.py]: [PortainerFields] ([PF]);
    - [plugins/module_utils/portainer_crud.py]: [BaseCRUD] and its
      subclasses, told apart by [crud_class] ([BaseCRUD]);
    - [plugins/modules/portainer_config.py]: [PortainerConfigManager]
      ([ConfigManager]);
    - [plugins/modules/portainer_stack.py]: [Stack], [StackConfig],
      [StackStateManager], [StackValidator], [StackDataBuilder],
      [StackRepository], [StackManager];
    - the vocabulary of the properties, sample inputs, and the properties. *)

From Stdlib Require Import List String Ascii ZArith Bool Lia.
From Stdlib Require Import DecimalString.
Import ListNotations.

Set Warnings "-register-all".
Set Implicit Arguments.

Local Open Scope Z_scope.

Notation "a ^^ b" := (String.append a b%string)
  (at level 60, right associativity) : string_scope.
Local Open Scope string_scope.
Local Open Scope list_scope.

(* ===================================================================== *)
(** * Python values *)
(* ===================================================================== *)

(** The values that travel through the modules: JSON data read from the API,
    module parameters, and the tuples and bytes of a file upload.  Python
    dictionaries keep insertion order, so a dictionary is an association
    list; the keys of the dictionaries handled here are strings.  The
    numbers of the API (identifiers, types, flags) are integers. *)
Inductive pyval : Type :=
| PNone
| PBool (b : bool)
| PInt (z : Z)
| PStr (s : string)
| PBytes (s : string)
| PList (l : list pyval)
| PTuple (l : list pyval)
| PDict (d : list (string * pyval)).

Definition dict : Type := list (string * pyval).

(** [k in d] *)
Fixpoint dict_contains {V : Type} (d : list (string * V)) (k : string) : bool :=
  match d with
  | [] => false
  | (k', _) :: r => if String.eqb k' k then true else dict_contains r k
  end.

(** [d[k]]; [None] stands for the [KeyError] of a missing key. *)
Fixpoint dict_lookup {V : Type} (d : list (string * V)) (k : string) : option V :=
  match d with
  | [] => None
  | (k', v) :: r => if String.eqb k' k then Some v else dict_lookup r k
  end.

(** [d.get(k)], with the default [None] of Python. *)
Definition dict_get (d : dict) (k : string) : pyval :=
  match dict_lookup d k with
  | Some v => v
  | None => PNone
  end.

(** [d.get(k, default)] *)
Definition dict_get_default (d : dict) (k : string) (default : pyval) : pyval :=
  match dict_lookup d k with
  | Some v => v
  | None => default
  end.

(** [d[k] = v]: an existing key keeps its position, a new key goes last. *)
Fixpoint dict_set {V : Type} (d : list (string * V)) (k : string) (v : V)
  : list (string * V) :=
  match d with
  | [] => [(k, v)]
  | (k', v') :: r =>
      if String.eqb k' k then (k', v) :: r else (k', v') :: dict_set r k v
  end.

(** [d.pop(k, None)], the value dropped. *)
Definition dict_pop {V : Type} (d : list (string * V)) (k : string)
  : list (string * V) :=
  filter (fun kv => negb (String.eqb (fst kv) k)) d.

(** [d.update(other)], also [{**d, **other}]. *)
Definition dict_update {V : Type} (d other : list (string * V))
  : list (string * V) :=
  fold_left (fun acc kv => dict_set acc (fst kv) (snd kv)) other d.

Definition dict_keys {V : Type} (d : list (string * V)) : list string :=
  map fst d.

(** [x in l] for a list of strings. *)
Definition str_in (x : string) (l : list string) : bool :=
  existsb (String.eqb x) l.

(** [v is None] *)
Definition is_none (v : pyval) : bool :=
  match v with
  | PNone => true
  | _ => false
  end.

(** Truth value of a Python object: [bool(v)], [if v], [not v]. *)
Definition py_truthy (v : pyval) : bool :=
  match v with
  | PNone => false
  | PBool b => b
  | PInt z => negb (Z.eqb z 0)
  | PStr s => negb (String.eqb s EmptyString)
  | PBytes s => negb (String.eqb s EmptyString)
  | PList l => match l with [] => false | _ => true end
  | PTuple l => match l with [] => false | _ => true end
  | PDict d => match d with [] => false | _ => true end
  end.

Definition bool_to_Z (b : bool) : Z := if b then 1 else 0.

(** Python's [==] on these values.  [bool] is a subclass of [int]
    ([True == 1]); sequences compare element by element; dictionaries
    compare as mappings, whatever the insertion order; values of unrelated
    types are unequal. *)
Fixpoint py_eq (a b : pyval) {struct a} : bool :=
  match a, b with
  | PNone, PNone => true
  | PBool x, PBool y => Bool.eqb x y
  | PBool x, PInt y => Z.eqb (bool_to_Z x) y
  | PInt x, PBool y => Z.eqb x (bool_to_Z y)
  | PInt x, PInt y => Z.eqb x y
  | PStr x, PStr y => String.eqb x y
  | PBytes x, PBytes y => String.eqb x y
  | PList l1, PList l2 =>
      (fix seq_eq (xs ys : list pyval) {struct xs} : bool :=
         match xs, ys with
         | [], [] => true
         | x :: xs', y :: ys' => py_eq x y && seq_eq xs' ys'
         | _, _ => false
         end) l1 l2
  | PTuple l1, PTuple l2 =>
      (fix seq_eq (xs ys : list pyval) {struct xs} : bool :=
         match xs, ys with
         | [], [] => true
         | x :: xs', y :: ys' => py_eq x y && seq_eq xs' ys'
         | _, _ => false
         end) l1 l2
  | PDict d1, PDict d2 =>
      Nat.eqb (List.length d1) (List.length d2)
      && (fix items_eq (kvs : list (string * pyval)) {struct kvs} : bool :=
            match kvs with
            | [] => true
            | (k, v) :: r =>
                match dict_lookup d2 k with
                | Some v' => py_eq v v'
                | None => false
                end && items_eq r
            end) d1
  | _, _ => false
  end.

(** Python's [!=] *)
Definition py_ne (a b : pyval) : bool := negb (py_eq a b).

(** [str(n)] for an integer: decimal digits, a leading [-] when negative. *)
Definition str_of_Z (z : Z) : string := NilZero.string_of_int (Z.to_int z).

(** [str(v)] as an f-string interpolates it.  The values interpolated into
    paths and messages are identifiers (integers, or the hexadecimal strings
    of Docker), names and, when a parameter was left out, [None]; bytes and
    containers are never interpolated and print as a placeholder. *)
Definition py_str (v : pyval) : string :=
  match v with
  | PNone => "None"
  | PBool true => "True"
  | PBool false => "False"
  | PInt z => str_of_Z z
  | PStr s => s
  | _ => "<object>"
  end.

(* ===================================================================== *)
(** * portainer_module.py: IdempotencyManager *)
(* ===================================================================== *)

Module IdempotencyManager.

(** [skip_fields or []] *)
Definition or_empty (l : option (list string)) : list string :=
  match l with
  | Some l => l
  | None => []
  end.

(** One turn of the loop of [needs_update]. *)
Definition needs_update_step (existing_data : dict) (skip_fields : list string)
           (changes : dict) (kv : string * pyval) : dict :=
  let (k, v) := kv in
  if str_in k skip_fields then changes
  else if py_ne v (dict_get existing_data k) then dict_set changes k v
  else changes.

(** [IdempotencyManager.needs_update] *)
Definition needs_update (existing_data new_data : dict)
           (skip_fields : option (list string)) : dict :=
  let skip_fields := or_empty skip_fields in
  let changes :=
    fold_left (needs_update_step existing_data skip_fields) new_data [] in
  filter (fun kv => negb (is_none (snd kv))) changes.

(** What the loop of [needs_update] keeps of an entry of [new_data]. *)
Definition differs (existing_data : dict) (skip_fields : list string)
           (kv : string * pyval) : bool :=
  negb (str_in (fst kv) skip_fields)
  && py_ne (snd kv) (dict_get existing_data (fst kv)).

(** [copy.deepcopy] of a value is the value: values are immutable here. *)
Definition deepcopy (d : dict) : dict := d.

(** [IdempotencyManager._sanitize_for_diff] *)
Definition _sanitize_for_diff (data : option dict)
           (skip_fields : option (list string)) : dict :=
  match data with
  | None => []
  | Some [] => []
  | Some data =>
      let skip_fields := or_empty skip_fields in
      fold_left (fun sanitized k => dict_pop sanitized k) skip_fields
                (deepcopy data)
  end.

(** [IdempotencyManager.build_diff]: the pair is the dictionary with the
    keys [before] and [after]. *)
Definition build_diff (before_data after_data : option dict)
           (skip_fields : option (list string)) : dict * dict :=
  let before := _sanitize_for_diff before_data skip_fields in
  let _after_data :=
    deepcopy (match before_data with Some d => d | None => [] end) in
  let _after_data :=
    dict_update _after_data
                (match after_data with Some d => d | None => [] end) in
  let after := _sanitize_for_diff (Some _after_data) skip_fields in
  (before, after).

End IdempotencyManager.

(* ===================================================================== *)
(** * Exceptions, the module object and the monad of module code *)
(* ===================================================================== *)

(** The exceptions module code raises.  [FailJson] is the exit of
    [AnsibleModule.fail_json]: a fatal failure with its message and the
    keyword arguments of the failure payload. *)
Inductive exn : Type :=
| ValueError (msg : string)
| KeyError (key : string)
| TypeError (msg : string)
| AttributeError (msg : string)
| JSONDecodeError (doc : string)
| ItemNotExists (msg : string)
| MultipleItemsReturned (msg : string) (item_ids : list pyval)
| PortainerApiError (message : string) (status : Z) (body : pyval)
                    (url : string) (method : string) (data : dict)
| FailJson (msg : string) (kwargs : dict).

Inductive outcome (A : Type) : Type :=
| Ok (a : A)
| Raise (e : exn).
Arguments Ok {A} a.
Arguments Raise {A} e.

(** [portainer_client.RequestMethod] and [BodyFormat] *)
Inductive RequestMethod : Type := GET | PUT | POST | DELETE.

Definition RequestMethod_value (m : RequestMethod) : string :=
  match m with
  | GET => "GET"
  | PUT => "PUT"
  | POST => "POST"
  | DELETE => "DELETE"
  end.

Inductive BodyFormat : Type := JSON | FORM_DATA.

(** What [fetch_url] is called with. *)
Record request : Type := mkRequest {
  req_url : string;
  req_method : string;
  req_headers : list (string * string);
  req_data : option string
}.

(** What [fetch_url] answers: the response object (its body, when there is
    one) and the [info] dictionary with its [status], [msg] and, for error
    answers, [body]. *)
Record fetch_result : Type := mkFetch {
  resp : option string;
  info_status : Z;
  info_msg : string;
  info_body : option pyval
}.

(** The outcome of opening a local file and reading its bytes. *)
Inductive file_result : Type :=
| FileContent (content : string)
| FileNotFoundError
| PermissionError
| IOError (msg : string).

(** The collaborators outside the collection: the remote API behind
    [fetch_url] (its answer may depend on the requests made before), the
    serialisers and codecs of the Python library ([utf8_decode] answers
    [None] for the [UnicodeDecodeError] of bytes that are not UTF-8), and the
    local file system. *)
Record platform : Type := mkPlatform {
  fetch_url : list request -> request -> fetch_result;
  urlencode : dict -> string;
  json_dumps : pyval -> string;
  json_loads : string -> option pyval;
  encode_multipart_formdata : dict -> string * string;
  b64encode : string -> string;
  read_file : string -> file_result;
  utf8_decode : string -> option string;
  py_repr : pyval -> string
}.

(** [PortainerClient]: the attributes set by [__init__]. *)
Record PortainerClient : Type := mkClient {
  portainer_url : string;
  portainer_token : string;
  timeout : pyval;
  headers : list (string * string)
}.

(** The classes of [portainer_crud.py]; [PortainerCRUD] holds one object of
    each. *)
Inductive crud_class : Type :=
| EndpointGroupCRUD
| TagCRUD
| EnvironmentCRUD
| StackCRUD
| SwarmCRUD
| SwarmConfigCRUD
| SwarmSecretCRUD
| DockerNetworkCRUD.

(** The attributes of a CRUD object: those of [BaseCRUD], and those the
    subclasses add ([docker_endpoint] and [_endpoint_id] in
    [BaseDockerCRUD], [stack_type] and [stack_source] in [StackCRUD];
    [PNone] in the classes that do not have them). *)
Record CRUD : Type := mkCRUD {
  resource_name : string;
  _endpoint : string;
  name_field : string;
  id_field : string;
  docker_endpoint : string;
  _endpoint_id : pyval;
  stack_type : pyval;
  stack_source : pyval
}.

(** The module object ([PortainerModule]) and what runs on it: the
    parameters and flags Ansible hands over, the client, the CRUD objects,
    the memo table of [EnvironmentCRUD.get_swarm_info], the manager object
    whose methods are running ([self]), the requests sent so far (oldest
    first) and the warnings given to [module.warn]. *)
Record world (S : Type) : Type := mkWorld {
  self : S;
  params : dict;
  check_mode : bool;
  _diff : bool;
  client : PortainerClient;
  crud : crud_class -> CRUD;
  swarm_info_cache : list (pyval * pyval);
  calls : list request;
  warnings : list string
}.

Definition set_self {S T : Type} (w : world S) (s : T) : world T :=
  mkWorld s (params w) (check_mode w) (_diff w) (client w) (crud w)
          (swarm_info_cache w) (calls w) (warnings w).

Definition set_client {S : Type} (w : world S) (c : PortainerClient) : world S :=
  mkWorld (self w) (params w) (check_mode w) (_diff w) c (crud w)
          (swarm_info_cache w) (calls w) (warnings w).

Definition set_crud {S : Type} (w : world S) (r : crud_class -> CRUD) : world S :=
  mkWorld (self w) (params w) (check_mode w) (_diff w) (client w) r
          (swarm_info_cache w) (calls w) (warnings w).

Definition set_swarm_info_cache {S : Type} (w : world S)
           (m : list (pyval * pyval)) : world S :=
  mkWorld (self w) (params w) (check_mode w) (_diff w) (client w) (crud w)
          m (calls w) (warnings w).

Definition set_calls {S : Type} (w : world S) (l : list request) : world S :=
  mkWorld (self w) (params w) (check_mode w) (_diff w) (client w) (crud w)
          (swarm_info_cache w) l (warnings w).

Definition set_warnings {S : Type} (w : world S) (l : list string) : world S :=
  mkWorld (self w) (params w) (check_mode w) (_diff w) (client w) (crud w)
          (swarm_info_cache w) (calls w) l.

(** Module code: a state transformer that returns or raises.  The state
    reached when an exception is raised is kept, as Python keeps the
    mutations made before a [raise]. *)
Definition M (S A : Type) : Type := world S -> outcome A * world S.

Definition ret {S A : Type} (a : A) : M S A := fun w => (Ok a, w).

Definition raise {S A : Type} (e : exn) : M S A := fun w => (Raise e, w).

(** A computation that only returns or raises. *)
Definition lift {S A : Type} (o : outcome A) : M S A :=
  match o with
  | Ok a => ret a
  | Raise e => raise e
  end.

Definition bind {S A B : Type} (m : M S A) (f : A -> M S B) : M S B :=
  fun w =>
    match m w with
    | (Ok a, w') => f a w'
    | (Raise e, w') => (Raise e, w')
    end.

Notation "x <- c1 ;; c2" := (bind c1 (fun x => c2))
  (at level 61, c1 at next level, right associativity).
Notation "c1 ;; c2" := (bind c1 (fun _ => c2))
  (at level 61, right associativity).

Definition get_world {S : Type} : M S (world S) := fun w => (Ok w, w).

Definition get_self {S : Type} : M S S := fun w => (Ok (self w), w).

Definition put_self {S : Type} (s : S) : M S unit :=
  fun w => (Ok tt, set_self w s).

Definition modify_self {S : Type} (f : S -> S) : M S unit :=
  fun w => (Ok tt, set_self w (f (self w))).

(** [module.warn(msg)] *)
Definition warn {S : Type} (msg : string) : M S unit :=
  fun w => (Ok tt, set_warnings w (warnings w ++ [msg])).

(** [module.fail_json(msg=..., **kwargs)] *)
Definition fail_json {S A : Type} (msg : string) (kwargs : dict) : M S A :=
  raise (FailJson msg kwargs).

(** [try: body finally: handler] *)
Definition try_finally {S A : Type} (body : M S A) (handler : M S unit) : M S A :=
  fun w =>
    match body w with
    | (r, w') =>
        match handler w' with
        | (Ok _, w'') => (r, w'')
        | (Raise e, w'') => (Raise e, w'')
        end
    end.

(** [try: body except ...: handler], the handler choosing the exceptions it
    takes ([None] lets the exception through). *)
Definition try_except {S A : Type} (body : M S A)
           (handler : exn -> option (M S A)) : M S A :=
  fun w =>
    match body w with
    | (Ok a, w') => (Ok a, w')
    | (Raise e, w') =>
        match handler e with
        | Some h => h w'
        | None => (Raise e, w')
        end
    end.

(* ===================================================================== *)
(** * portainer_client.py: PortainerClient *)
(* ===================================================================== *)

Module Client.
Section WithPlatform.
Variable pf : platform.
Variable S : Type.

(** [str(v).lower() if isinstance(v, bool) else v] over the parameters *)
Definition params_converted (params : dict) : dict :=
  map (fun kv =>
         match snd kv with
         | PBool true => (fst kv, PStr "true")
         | PBool false => (fst kv, PStr "false")
         | v => (fst kv, v)
         end) params.

(** [info.get("body", default)] with the empty string as default *)
Definition info_get_body (info : fetch_result) : pyval :=
  match info_body info with
  | Some b => b
  | None => PStr EmptyString
  end.

(** The [info] dictionary, as [_make_request] returns it on [return_info]. *)
Definition info_dict (info : fetch_result) : pyval :=
  PDict ([("status", PInt (info_status info)); ("msg", PStr (info_msg info))]
         ++ match info_body info with
            | Some b => [("body", b)]
            | None => []
            end).

(** [info["status"] not in [200, 201, 204]] *)
Definition status_not_ok (status : Z) : bool :=
  negb (existsb (Z.eqb status) [200; 201; 204]).

(** The call of [fetch_url]: the request joins the log, the remote side
    answers. *)
Definition do_fetch_url (rq : request) : M S fetch_result :=
  fun w => (Ok (fetch_url pf (calls w) rq), set_calls w (calls w ++ [rq])).

(** [self.headers.update({"Content-Type": content_type})] *)
Definition set_content_type (content_type : string) : M S unit :=
  fun w =>
    let c := client w in
    (Ok tt,
     set_client w (mkClient (portainer_url c) (portainer_token c) (timeout c)
                            (dict_set (headers c) "Content-Type" content_type))).

Definition get_client : M S PortainerClient := fun w => (Ok (client w), w).

(** The URL [_make_request] asks for. *)
Definition request_url (c : PortainerClient) (endpoint : string)
           (params : option dict) : string :=
  let url := portainer_url c ^^ "/api" ^^ endpoint in
  match params with
  | Some ((_ :: _) as params) =>
      url ^^ "?" ^^ urlencode pf (params_converted params)
  | _ => url
  end.

(** The end of [_make_request]: [resp.read()] and [json.loads]. *)
Definition read_response (r : fetch_result) : M S pyval :=
  match resp r with
  | Some body =>
      if String.eqb body EmptyString then ret PNone
      else match json_loads pf body with
           | Some v => ret v
           | None => raise (JSONDecodeError body)
           end
  | None => ret PNone
  end.

(** [PortainerClient._make_request] *)
Definition _make_request (method : RequestMethod) (endpoint : string)
           (return_info : bool) (params : option dict) (data : option dict)
           (body_format : option BodyFormat) : M S pyval :=
  c <- get_client ;;
  let url := request_url c endpoint params in
  let body_format := match body_format with None => JSON | Some f => f end in
  let data := match data with None => [] | Some d => d end in
  _data <- match body_format with
           | JSON => ret (Some (json_dumps pf (PDict data)))
           | FORM_DATA =>
               let (_data, content_type) := encode_multipart_formdata pf data in
               set_content_type content_type ;;
               ret (Some _data)
           end ;;
  c <- get_client ;;
  r <- do_fetch_url (mkRequest url (RequestMethod_value method) (headers c) _data) ;;
  if return_info then ret (info_dict r)
  else if status_not_ok (info_status r) then
    raise (PortainerApiError (info_msg r) (info_status r) (info_get_body r)
                             url (RequestMethod_value method) data)
  else read_response r.

(** [PortainerClient.get] *)
Definition get (endpoint : string) (params : option dict) : M S pyval :=
  _make_request GET endpoint false params None None.

(** [PortainerClient.post] *)
Definition post (endpoint : string) (data : option dict)
           (body_format : option BodyFormat) (params : option dict) : M S pyval :=
  _make_request POST endpoint false params data body_format.

(** [PortainerClient.put] *)
Definition put (endpoint : string) (data : option dict)
           (body_format : option BodyFormat) (params : option dict) : M S pyval :=
  _make_request PUT endpoint false params data body_format.

(** [PortainerClient.delete] *)
Definition delete (endpoint : string) (params : option dict) : M S pyval :=
  _make_request DELETE endpoint false params None None.

(** What a call of [_make_request] leaves of the client and sends, written
    out: the headers after the [Content-Type] update of a form-data body,
    the request handed to [fetch_url], and the value read off an answer. *)
Definition client_after (c : PortainerClient) (data : option dict)
           (body_format : option BodyFormat) : PortainerClient :=
  match body_format with
  | Some FORM_DATA =>
      mkClient (portainer_url c) (portainer_token c) (timeout c)
               (dict_set (headers c) "Content-Type"
                         (snd (encode_multipart_formdata pf
                                 (match data with None => [] | Some d => d end))))
  | _ => c
  end.

Definition sent_request (c : PortainerClient) (method : RequestMethod)
           (endpoint : string) (params : option dict) (data : option dict)
           (body_format : option BodyFormat) : request :=
  let d := match data with None => [] | Some d => d end in
  mkRequest (request_url c endpoint params) (RequestMethod_value method)
            (headers (client_after c data body_format))
            (match body_format with
             | Some FORM_DATA => Some (fst (encode_multipart_formdata pf d))
             | _ => Some (json_dumps pf (PDict d))
             end).

Definition response_value (r : fetch_result) : outcome pyval :=
  match resp r with
  | Some body =>
      if String.eqb body EmptyString then Ok PNone
      else match json_loads pf body with
           | Some v => Ok v
           | None => Raise (JSONDecodeError body)
           end
  | None => Ok PNone
  end.

(** The world after one request: the client as [client_after] leaves it and
    the request at the end of the log. *)
Definition world_after (w : world S) (method : RequestMethod)
           (endpoint : string) (params : option dict) (data : option dict)
           (body_format : option BodyFormat) : world S :=
  set_calls (set_client w (client_after (client w) data body_format))
            (calls w ++ [sent_request (client w) method endpoint params data
                                      body_format]).

(** The answer of the remote side to that request. *)
Definition answer (w : world S) (method : RequestMethod)
           (endpoint : string) (params : option dict) (data : option dict)
           (body_format : option BodyFormat) : fetch_result :=
  fetch_url pf (calls w)
            (sent_request (client w) method endpoint params data body_format).

End WithPlatform.
End Client.

(** [[f(x) for x in l]] when [f] may raise or send requests *)
Fixpoint mapM {S A B : Type} (f : A -> M S B) (l : list A) : M S (list B) :=
  match l with
  | [] => ret []
  | x :: r => y <- f x ;; ys <- mapM f r ;; ret (y :: ys)
  end.

(** [[x for x in l if p(x)]] when [p] may raise *)
Fixpoint filterM {S A : Type} (p : A -> M S bool) (l : list A) : M S (list A) :=
  match l with
  | [] => ret []
  | x :: r =>
      b <- p x ;; ys <- filterM p r ;; ret (if b then x :: ys else ys)
  end.

(* ===================================================================== *)
(** * portainer_fields.py: the field names used below *)
(* ===================================================================== *)

Module PF.
Definition ENDPOINT_ID := "Id".
Definition ENDPOINT_HEARTBEAT := "Heartbeat".
Definition ENDPOINT_TAG_IDS := "TagIds".
Definition ENDPOINT_TLS_CONFIG := "TLSConfig".
Definition ENDPOINT_TLS := "TLS".
Definition ENDPOINT_TLS_CA_CERT := "TLSCACert".
Definition ENDPOINT_TLS_CERT := "TLSCert".
Definition ENDPOINT_TLS_KEY := "TLSKey".
Definition ENDPOINT_TLS_SKIP_VERIFY := "TLSSkipVerify".
Definition ENDPOINT_TYPE := "Type".
Definition ENDPOINT_SWARM := "Swarm".
Definition STACK_ID := "Id".
Definition STACK_NAME := "Name".
Definition STACK_ENDPOINT_ID := "EndpointId".
Definition STACK_ENDPOINT_ID_QUERY := "endpointId".
Definition STACK_ADDITIONAL_FILES := "AdditionalFiles".
Definition STACK_AUTOUPDATE := "AutoUpdate".
Definition STACK_COMPOSE_FILE := "ComposeFile".
Definition STACK_ENV := "Env".
Definition STACK_PRUNE := "Prune".
Definition STACK_PULL_IMAGES := "PullImage".
Definition STACK_REPOSITORY_AUTHENTICATION := "RepositoryAuthentication".
Definition STACK_REPOSITORY_AUTHORIZATION_TYPE := "RepositoryAuthorizationType".
Definition STACK_REPOSITORY_PASSWORD := "RepositoryPassword".
Definition STACK_REPOSITORY_REFERENCE_NAME := "RepositoryReferenceName".
Definition STACK_REPOSITORY_URL := "RepositoryURL".
Definition STACK_REPOSITORY_USERNAME := "RepositoryUsername".
Definition STACK_SWARM_ID := "SwarmId".
Definition STACK_SWARM_ID_FORM_DATA := "SwarmID".
Definition STACK_TLS_SKIP_VERIFY := "TlsskipVerify".
Definition STACK_FILE := "file".
Definition STACK_FILE_CONTENT := "StackFileContent".
Definition STACK_STATUS := "Status".
Definition STACK_GIT_CONFIGS := "GitConfig".
Definition STACK_GIT_CONFIGS_AUTHENTICATION := "Authentication".
Definition STACK_GIT_CONFIGS_AUTH_TYPE := "Authentication.AuthorizationType".
Definition STACK_GIT_CONFIGS_USERNAME := "Authentication.Username".
Definition STACK_GIT_CONFIGS_REFS_NAME := "ReferenceName".
Definition STACK_GIT_CONFIGS_TLS_SKIP_VERIFY := "TLSSkipVerify".
Definition CONFIG_ID := "ID".
Definition CONFIG_NAME := "Name".
Definition CONFIG_DATA := "Data".
End PF.

(* ===================================================================== *)
(** * portainer_crud.py *)
(* ===================================================================== *)

(** [s.split(".")] *)
Fixpoint split_dot (s : string) : list string :=
  match s with
  | EmptyString => [EmptyString]
  | String c r =>
      if Ascii.eqb c "."%char then EmptyString :: split_dot r
      else match split_dot r with
           | h :: t => String c h :: t
           | [] => [String c EmptyString]
           end
  end.

(** [reduce(lambda x, key: x[key], keys, d)]; [None] stands for the
    [KeyError] or [TypeError] of a step that cannot be taken. *)
Fixpoint get_path (x : pyval) (keys : list string) : option pyval :=
  match keys with
  | [] => Some x
  | key :: r =>
      match x with
      | PDict d =>
          match dict_lookup d key with
          | Some v => get_path v r
          | None => None
          end
      | _ => None
      end
  end.

(** [get_nested] *)
Definition get_nested (d : pyval) (path : string) (default : pyval) : pyval :=
  match get_path d (split_dot path) with
  | Some v => v
  | None => default
  end.

Module BaseCRUD.

(** The classes that inherit from [BaseDockerCRUD]. *)
Definition is_docker (cls : crud_class) : bool :=
  match cls with
  | SwarmCRUD | SwarmConfigCRUD | SwarmSecretCRUD | DockerNetworkCRUD => true
  | _ => false
  end.

(** [BaseCRUD.__init__] *)
Definition BaseCRUD_init (endpoint name_field id_field resource_name : string)
  : CRUD :=
  mkCRUD resource_name endpoint name_field id_field EmptyString PNone PNone PNone.

(** [BaseDockerCRUD.__init__] *)
Definition BaseDockerCRUD_init (params : dict)
           (docker_endpoint name_field id_field resource_name : string) : CRUD :=
  mkCRUD resource_name docker_endpoint name_field id_field docker_endpoint
         (dict_get params "endpoint_id") PNone PNone.

(** [StackCRUD.__init__] *)
Definition StackCRUD_init (params : dict) : CRUD :=
  mkCRUD "stack" "/stacks" PF.STACK_NAME PF.STACK_ID EmptyString PNone
         (dict_get_default params "stack_type" (PStr EmptyString))
         (dict_get_default params "stack_source" (PStr EmptyString)).

(** [PortainerCRUD.__init__]: the object of each class. *)
Definition PortainerCRUD_init (params : dict) (cls : crud_class) : CRUD :=
  match cls with
  | EndpointGroupCRUD => BaseCRUD_init "/endpoint_groups" "Name" "Id" "group"
  | TagCRUD => BaseCRUD_init "/tags" "Name" "ID" "tag"
  | EnvironmentCRUD => BaseCRUD_init "/endpoints" "Name" "Id" "environment"
  | StackCRUD => StackCRUD_init params
  | SwarmCRUD => BaseDockerCRUD_init params "/swarm" "Name" "ID" "swarm"
  | SwarmConfigCRUD =>
      BaseDockerCRUD_init params "/configs" "Name" "ID" "swarm config"
  | SwarmSecretCRUD =>
      BaseDockerCRUD_init params "/secrets" "Name" "ID" "swarm secret"
  | DockerNetworkCRUD =>
      BaseDockerCRUD_init params "/networks" "Name" "Id" "docker network"
  end.

(** The property [endpoint]: [BaseCRUD.endpoint], overridden by
    [BaseDockerCRUD.endpoint]. *)
Definition endpoint_of (cls : crud_class) (c : CRUD) : outcome string :=
  if is_docker cls then
    if is_none (_endpoint_id c) then
      Raise (ValueError
               ("endpoint_id must be set to use " ^^ resource_name c ^^ ". "
                ^^ "Either set 'endpoint_id' as module param or "
                ^^ "use 'with crud.using_endpoint(endpoint_id):' context manager."))
    else Ok ("/endpoints/" ^^ py_str (_endpoint_id c) ^^ "/docker"
             ^^ docker_endpoint c)
  else Ok (_endpoint c).

(** [_get_delete_endpoint] *)
Definition delete_endpoint_of (cls : crud_class) (c : CRUD) (id : pyval)
  : outcome string :=
  match endpoint_of cls c with
  | Ok e => Ok (e ^^ "/" ^^ py_str id)
  | Raise x => Raise x
  end.

(** [_get_create_endpoint]: [BaseCRUD], [BaseDockerCRUD] and [StackCRUD] *)
Definition create_endpoint_of (cls : crud_class) (c : CRUD) : outcome string :=
  match endpoint_of cls c with
  | Ok e =>
      if is_docker cls then Ok (e ^^ "/create")
      else match cls with
           | StackCRUD =>
               Ok (e ^^ "/create/" ^^ py_str (stack_type c) ^^ "/"
                   ^^ py_str (stack_source c))
           | _ => Ok e
           end
  | Raise x => Raise x
  end.

(** The test of [StackCRUD] for the git endpoints: a swarm stack from a
    repository. *)
Definition swarm_repository (c : CRUD) : bool :=
  if py_eq (stack_type c) (PStr "swarm") then
    if py_eq (stack_source c) (PStr "repository") then true else false
  else false.

(** [_get_update_endpoint]: [BaseCRUD], [BaseDockerCRUD] and [StackCRUD] *)
Definition update_endpoint_of (cls : crud_class) (c : CRUD) (id : pyval)
  : outcome string :=
  match endpoint_of cls c with
  | Ok e =>
      if is_docker cls then Ok (e ^^ "/" ^^ py_str id ^^ "/update")
      else match cls with
           | StackCRUD =>
               if swarm_repository c then Ok (e ^^ "/" ^^ py_str id ^^ "/git")
               else Ok (e ^^ "/" ^^ py_str id)
           | _ => Ok (e ^^ "/" ^^ py_str id)
           end
  | Raise x => Raise x
  end.

(** The property [_update_method]: the client method an update goes
    through, named by its verb. *)
Definition update_method_of (cls : crud_class) (c : CRUD) : RequestMethod :=
  match cls with
  | StackCRUD => if swarm_repository c then POST else PUT
  | _ => PUT
  end.

(** [BaseDockerCRUD._process_single_item] *)
Definition docker_process_single_item (item : pyval) : pyval :=
  let name := get_nested item "Spec.Name" PNone in
  match item with
  | PDict d =>
      if py_truthy name && negb (dict_contains d "Name")
      then PDict (dict_set d "Name" name)
      else item
  | _ => item
  end.

(** [SwarmCRUD._process_single_item] *)
Definition swarm_process_single_item (item : pyval) : pyval :=
  let item := docker_process_single_item item in
  let name := get_nested item "Spec.Name" PNone in
  match item with
  | PDict d => if py_truthy name then PDict (dict_set d "Name" name) else item
  | _ => item
  end.

(** [StackCRUD._process_single_item]; [None] when [item] has no usable
    [pop] (a list takes no default, anything else but a dictionary has no
    [pop] at all). *)
Definition stack_process_single_item (item : pyval) : option pyval :=
  match item with
  | PDict d =>
      let git_configs := dict_get d PF.STACK_GIT_CONFIGS in
      let d := dict_pop d PF.STACK_GIT_CONFIGS in
      if py_truthy git_configs then
        let d := dict_set d PF.STACK_REPOSITORY_AUTHENTICATION
                   (PBool (py_truthy
                      (get_nested git_configs PF.STACK_GIT_CONFIGS_AUTHENTICATION
                                  PNone))) in
        let d := dict_set d PF.STACK_REPOSITORY_AUTHORIZATION_TYPE
                   (get_nested git_configs PF.STACK_GIT_CONFIGS_AUTH_TYPE PNone) in
        let d := dict_set d PF.STACK_REPOSITORY_REFERENCE_NAME
                   (get_nested git_configs PF.STACK_GIT_CONFIGS_REFS_NAME PNone) in
        let d := dict_set d PF.STACK_REPOSITORY_USERNAME
                   (get_nested git_configs PF.STACK_GIT_CONFIGS_USERNAME PNone) in
        let d := dict_set d PF.STACK_TLS_SKIP_VERIFY
                   (get_nested git_configs PF.STACK_GIT_CONFIGS_TLS_SKIP_VERIFY
                               PNone) in
        Some (PDict d)
      else Some (PDict d)
  | _ => None
  end.

(** [p in s] for two texts: [p] occurs in [s]. *)
Fixpoint is_substring (p s : string) : bool :=
  if String.prefix p s then true
  else match s with
       | EmptyString => false
       | String _ r => is_substring p r
       end.

(** [key in tls_config]: a key of a dictionary, an element of a list or a
    tuple, a piece of a text; nothing else can be searched for a text. *)
Definition tls_contains (tls_config : pyval) (key : string) : outcome bool :=
  match tls_config with
  | PDict tls => Ok (dict_contains tls key)
  | PList l | PTuple l => Ok (existsb (fun x => py_eq x (PStr key)) l)
  | PStr s => Ok (is_substring key s)
  | _ => Raise (TypeError "argument of type is not iterable")
  end.

(** One turn of the loop over the TLS fields:
    [if key in tls_config: normalized[key] = tls_config.get(key)]. *)
Definition flatten_tls_step (tls_config : pyval) (acc : outcome dict)
           (key : string) : outcome dict :=
  match acc with
  | Raise e => Raise e
  | Ok normalized =>
      match tls_contains tls_config key with
      | Raise e => Raise e
      | Ok false => Ok normalized
      | Ok true =>
          match tls_config with
          | PDict tls => Ok (dict_set normalized key (dict_get tls key))
          | _ => Raise (AttributeError "object has no attribute 'get'")
          end
      end
  end.

(** The flattening of [EnvironmentCRUD._process_single_item], after the
    swarm descriptor has been attached. *)
Definition environment_flatten_tls (d : dict) : outcome pyval :=
  if negb (dict_contains d PF.ENDPOINT_TLS_CONFIG) then Ok (PDict d)
  else
    let tls_config := dict_get d PF.ENDPOINT_TLS_CONFIG in
    let normalized := dict_pop d PF.ENDPOINT_TLS_CONFIG in
    match fold_left (flatten_tls_step tls_config)
                    [PF.ENDPOINT_TLS; PF.ENDPOINT_TLS_CA_CERT; PF.ENDPOINT_TLS_CERT;
                     PF.ENDPOINT_TLS_KEY; PF.ENDPOINT_TLS_SKIP_VERIFY]
                    (Ok normalized) with
    | Ok normalized => Ok (PDict normalized)
    | Raise e => Raise e
    end.

(** A key of the memo table of [lru_cache] has to be hashable. *)
Definition hashable (v : pyval) : bool :=
  match v with
  | PList _ | PDict _ => false
  | _ => true
  end.

Fixpoint cache_lookup (m : list (pyval * pyval)) (k : pyval) : option pyval :=
  match m with
  | [] => None
  | (k', v) :: r => if py_eq k' k then Some v else cache_lookup r k
  end.

Definition cache_remove (m : list (pyval * pyval)) (k : pyval)
  : list (pyval * pyval) :=
  filter (fun kv => negb (py_eq (fst kv) k)) m.

(** Iterating a value: [for item in all_items]. *)
Definition py_iter (v : pyval) : outcome (list pyval) :=
  match v with
  | PList l => Ok l
  | PTuple l => Ok l
  | PDict d => Ok (map (fun kv => PStr (fst kv)) d)
  | PStr s =>
      Ok (map (fun c => PStr (String c EmptyString)) (list_ascii_of_string s))
  | PBytes s =>
      Ok (map (fun c => PInt (Z.of_nat (nat_of_ascii c))) (list_ascii_of_string s))
  | _ => Raise (TypeError "object is not iterable")
  end.

(** [item.get(k)] on a value that should be a dictionary. *)
Definition item_get (item : pyval) (k : string) : outcome pyval :=
  match item with
  | PDict d => Ok (dict_get d k)
  | _ => Raise (AttributeError "object has no attribute 'get'")
  end.

(** [item[k]] *)
Definition item_index (item : pyval) (k : string) : outcome pyval :=
  match item with
  | PDict d =>
      match dict_lookup d k with
      | Some v => Ok v
      | None => Raise (KeyError k)
      end
  | _ => Raise (TypeError "indices must be integers")
  end.

Definition crud_class_eqb (a b : crud_class) : bool :=
  match a, b with
  | EndpointGroupCRUD, EndpointGroupCRUD
  | TagCRUD, TagCRUD
  | EnvironmentCRUD, EnvironmentCRUD
  | StackCRUD, StackCRUD
  | SwarmCRUD, SwarmCRUD
  | SwarmConfigCRUD, SwarmConfigCRUD
  | SwarmSecretCRUD, SwarmSecretCRUD
  | DockerNetworkCRUD, DockerNetworkCRUD => true
  | _, _ => false
  end.

Definition with_endpoint_id (c : CRUD) (v : pyval) : CRUD :=
  mkCRUD (resource_name c) (_endpoint c) (name_field c) (id_field c)
         (docker_endpoint c) v (stack_type c) (stack_source c).

(** The module object with the CRUD object of class [cls] replaced by [c]. *)
Definition with_crud {S : Type} (w : world S) (cls : crud_class) (c : CRUD)
  : world S :=
  set_crud w (fun cls' => if crud_class_eqb cls' cls then c else crud w cls').

Section WithPlatform.
Variable pf : platform.
Variable S : Type.

Definition get_crud (cls : crud_class) : M S CRUD :=
  fun w => (Ok (crud w cls), w).

(** [self._endpoint_id = v] on the object of class [cls] *)
Definition set_endpoint_id (cls : crud_class) (v : pyval) : M S unit :=
  fun w => (Ok tt, with_crud w cls (with_endpoint_id (crud w cls) v)).

(** The property [endpoint] of the object of class [cls] *)
Definition endpoint (cls : crud_class) : M S string :=
  c <- get_crud cls ;; lift (endpoint_of cls c).

Definition _get_delete_endpoint (cls : crud_class) (id : pyval) : M S string :=
  c <- get_crud cls ;; lift (delete_endpoint_of cls c id).

Definition _get_create_endpoint (cls : crud_class) : M S string :=
  c <- get_crud cls ;; lift (create_endpoint_of cls c).

Definition _get_update_endpoint (cls : crud_class) (id : pyval) : M S string :=
  c <- get_crud cls ;; lift (update_endpoint_of cls c id).

(** [self._update_method(endpoint, data=changes, params=params)] *)
Definition _update_method (cls : crud_class) (endpoint : string)
           (data : option dict) (params : option dict) : M S pyval :=
  c <- get_crud cls ;;
  match update_method_of cls c with
  | POST => Client.post pf endpoint data None params
  | _ => Client.put pf endpoint data None params
  end.

(** [BaseDockerCRUD.using_endpoint]: the body of the [with] block runs
    between the two halves of the generator. *)
Definition using_endpoint {A : Type} (cls : crud_class) (endpoint_id : pyval)
           (body : M S A) : M S A :=
  if negb (is_docker cls) then
    raise (AttributeError "object has no attribute 'using_endpoint'")
  else
    c <- get_crud cls ;;
    let old_endpoint_id := _endpoint_id c in
    set_endpoint_id cls endpoint_id ;;
    try_finally body (set_endpoint_id cls old_endpoint_id).

(** [BaseCRUD._process_response], over the hook of the class *)
Definition _process_response_with (hook : pyval -> M S pyval) (data : pyval)
  : M S pyval :=
  if negb (py_truthy data) then ret data
  else match data with
       | PList l => l' <- mapM hook l ;; ret (PList l')
       | _ => hook data
       end.

(** [BaseCRUD.list_items], over the hook of the class *)
Definition list_items_with (hook : pyval -> M S pyval) (cls : crud_class)
           (params : option dict) : M S pyval :=
  e <- endpoint cls ;;
  data <- Client.get pf e params ;;
  _process_response_with hook data.

(** [SwarmCRUD.inspect_swarm] *)
Definition inspect_swarm : M S pyval :=
  list_items_with (fun item => ret (swarm_process_single_item item)) SwarmCRUD None.

(** [EnvironmentCRUD.get_swarm_info] behind [lru_cache] (128 entries, the
    least recently used one dropped; a call that raises leaves no entry). *)
Definition get_swarm_info (endpoint_id : pyval) : M S pyval :=
  if negb (hashable endpoint_id) then raise (TypeError "unhashable type")
  else
    w <- get_world ;;
    match cache_lookup (swarm_info_cache w) endpoint_id with
    | Some v =>
        (fun w => (Ok v, set_swarm_info_cache w
                           ((endpoint_id, v)
                            :: cache_remove (swarm_info_cache w) endpoint_id)))
    | None =>
        v <- using_endpoint SwarmCRUD endpoint_id inspect_swarm ;;
        (fun w => (Ok v, set_swarm_info_cache w
                           (firstn 128 ((endpoint_id, v) :: swarm_info_cache w))))
    end.

(** [EnvironmentCRUD._process_single_item] *)
Definition environment_process_single_item (item : pyval) : M S pyval :=
  match item with
  | PDict d =>
      d <- (if py_eq (dict_get d PF.ENDPOINT_TYPE) (PInt 4)
            then if py_truthy (dict_get_default d PF.ENDPOINT_HEARTBEAT (PBool false))
                 then id <- lift (item_index item PF.ENDPOINT_ID) ;;
                      swarm <- get_swarm_info id ;;
                      ret (dict_set d PF.ENDPOINT_SWARM swarm)
                 else ret d
            else ret d) ;;
      lift (environment_flatten_tls d)
  | _ => ret item
  end.

(** [_process_single_item]: the method of the class of the object *)
Definition _process_single_item (cls : crud_class) (item : pyval) : M S pyval :=
  match cls with
  | EndpointGroupCRUD | TagCRUD => ret item
  | EnvironmentCRUD => environment_process_single_item item
  | StackCRUD =>
      match stack_process_single_item item with
      | Some item' => ret item'
      | None =>
          match item with
          | PList _ => raise (TypeError "pop expected at most 1 argument, got 2")
          | _ => raise (AttributeError "object has no attribute 'pop'")
          end
      end
  | SwarmCRUD => ret (swarm_process_single_item item)
  | SwarmConfigCRUD | SwarmSecretCRUD | DockerNetworkCRUD =>
      ret (docker_process_single_item item)
  end.

Definition _process_response (cls : crud_class) (data : pyval) : M S pyval :=
  _process_response_with (_process_single_item cls) data.

(** [BaseCRUD.list_items] *)
Definition list_items (cls : crud_class) (params : option dict) : M S pyval :=
  list_items_with (_process_single_item cls) cls params.

(** [item.get(key) == value] *)
Definition item_matches (key : string) (value : pyval) (item : pyval)
  : outcome bool :=
  match item_get item key with
  | Ok v => Ok (py_eq v value)
  | Raise e => Raise e
  end.

(** The local filters of [get_item_by_name]: [if filters:] and its loop. *)
Definition apply_filters (filters : option dict) (items : list pyval)
  : M S (list pyval) :=
  match filters with
  | Some ((_ :: _) as filters) =>
      fold_left
        (fun acc kv =>
           items <- acc ;;
           filterM (fun item => lift (item_matches (fst kv) (snd kv) item)) items)
        filters (ret items)
  | _ => ret items
  end.

(** [BaseCRUD.get_item_by_name] *)
Definition get_item_by_name (cls : crud_class) (name : pyval)
           (params : option dict) (filters : option dict) : M S pyval :=
  if negb (py_truthy name) then raise (ValueError "Name should not be empty")
  else
    all_items <- list_items cls params ;;
    c <- get_crud cls ;;
    all_items <- lift (py_iter all_items) ;;
    items <- filterM (fun item => lift (item_matches (name_field c) name item))
                     all_items ;;
    items <- apply_filters filters items ;;
    match items with
    | [] => raise (ItemNotExists ("Item '" ^^ py_str name ^^ "' does not exist."))
    | [item] => ret item
    | _ =>
        ids <- mapM (fun g => lift (item_index g (id_field c))) items ;;
        raise (MultipleItemsReturned "Multiple items found" ids)
    end.

(** [BaseCRUD.get_item_by_id] *)
Definition get_item_by_id (cls : crud_class) (item_id : pyval) : M S pyval :=
  if is_none item_id then raise (ValueError "Item ID cannot be None")
  else
    e <- endpoint cls ;;
    data <- Client.get pf (e ^^ "/" ^^ py_str item_id) None ;;
    _process_response cls data.

(** [BaseCRUD.create_item] *)
Definition base_create_item (cls : crud_class) (name : pyval)
           (item_data : option dict) (body_format : option BodyFormat)
           (params : option dict) : M S pyval :=
  if negb (py_truthy name) then raise (ValueError "Name should not be empty")
  else
    let item_data := match item_data with Some d => d | None => [] end in
    e <- _get_create_endpoint cls ;;
    c <- get_crud cls ;;
    data <- Client.post pf e (Some (dict_update [(name_field c, name)] item_data))
                        body_format params ;;
    _process_response cls data.

(** [create_item]: [BaseCRUD], [EnvironmentCRUD] and [SwarmCRUD] *)
Definition create_item (cls : crud_class) (name : pyval)
           (item_data : option dict) (body_format : option BodyFormat)
           (params : option dict) : M S pyval :=
  match cls with
  | SwarmCRUD => ret (PDict [])
  | EnvironmentCRUD =>
      let item_data :=
        match item_data with Some ((_ :: _) as d) => d | _ => [] end in
      let item_data :=
        if dict_contains item_data PF.ENDPOINT_TAG_IDS
        then dict_set item_data PF.ENDPOINT_TAG_IDS
               (PStr (json_dumps pf (dict_get item_data PF.ENDPOINT_TAG_IDS)))
        else item_data in
      base_create_item cls name (Some item_data) body_format params
  | _ => base_create_item cls name item_data body_format params
  end.

(** [update_item]: [BaseCRUD] and [SwarmCRUD] *)
Definition update_item (cls : crud_class) (item_id : pyval) (changes : dict)
           (params : option dict) : M S pyval :=
  match cls with
  | SwarmCRUD => ret (PDict [])
  | _ =>
      if is_none item_id then raise (ValueError "Item ID cannot be None")
      else
        e <- _get_update_endpoint cls item_id ;;
        data <- _update_method cls e (Some changes) params ;;
        _process_response cls data
  end.

(** [delete_item_by_id]: [BaseCRUD] and [SwarmCRUD] *)
Definition delete_item_by_id (cls : crud_class) (item_id : pyval)
           (params : option dict) : M S unit :=
  match cls with
  | SwarmCRUD => ret tt
  | _ =>
      if is_none item_id then raise (ValueError "Item ID cannot be None")
      else
        e <- _get_delete_endpoint cls item_id ;;
        Client.delete pf e params ;;
        ret tt
  end.

(** [delete_item_by_name]: [BaseCRUD] and [SwarmCRUD] *)
Definition delete_item_by_name (cls : crud_class) (name : pyval) : M S unit :=
  match cls with
  | SwarmCRUD => ret tt
  | _ =>
      if negb (py_truthy name) then raise (ValueError "Name should not be empty")
      else
        item <- get_item_by_name cls name None None ;;
        c <- get_crud cls ;;
        id <- lift (item_index item (id_field c)) ;;
        delete_item_by_id cls id None
  end.

(** [BaseCRUD.validate_single_item] *)
Definition validate_single_item (cls : crud_class) (name : pyval)
           (operation : string) (params : option dict) (filters : option dict)
  : M S pyval :=
  c <- get_crud cls ;;
  try_except
    (get_item_by_name cls name params filters)
    (fun e =>
       match e with
       | MultipleItemsReturned _ item_ids =>
           Some (fail_json
                   ("Cannot " ^^ operation ^^ " " ^^ resource_name c
                    ^^ ": Multiple " ^^ resource_name c
                    ^^ "s found with name '" ^^ py_str name ^^ "'. "
                    ^^ "Please use the Portainer UI to remove duplicates.")
                   [("duplicate_ids", PList item_ids)])
       | ItemNotExists _ => Some (ret PNone)
       | _ => None
       end).

(** [StackCRUD.stop_stack] *)
Definition stop_stack (stack_id endpoint_id : pyval) : M S pyval :=
  let params := [(PF.STACK_ENDPOINT_ID_QUERY, endpoint_id)] in
  e <- endpoint StackCRUD ;;
  Client.post pf (e ^^ "/" ^^ py_str stack_id ^^ "/stop") None None (Some params).

(** [StackCRUD.start_stack] *)
Definition start_stack (stack_id endpoint_id : pyval) : M S pyval :=
  let params := [(PF.STACK_ENDPOINT_ID_QUERY, endpoint_id)] in
  e <- endpoint StackCRUD ;;
  Client.post pf (e ^^ "/" ^^ py_str stack_id ^^ "/start") None None (Some params).

(** [StackCRUD.redeploy] *)
Definition redeploy (stack_id : pyval) (data : dict) (params : option dict)
  : M S pyval :=
  c <- get_crud StackCRUD ;;
  response <-
    (if py_eq (stack_type c) (PStr "swarm") then
       if py_eq (stack_source c) (PStr "repository") then
         e <- endpoint StackCRUD ;;
         Client.put pf (e ^^ "/" ^^ py_str stack_id ^^ "/git/redeploy")
                    (Some data) None params
       else ret PNone
     else ret PNone) ;;
  match response with
  | PDict _ => _process_response StackCRUD response
  | _ => raise (ValueError "Unexpected response received")
  end.

End WithPlatform.
End BaseCRUD.

(* ===================================================================== *)
(** * modules/portainer_config.py: PortainerConfigManager *)
(* ===================================================================== *)

Module ConfigManager.

(** The attributes of [PortainerConfigManager]; [check_mode] and
    [diff_mode] are those of the module object. *)
Record PortainerConfigManager : Type := mkManager {
  results : dict;
  name : pyval;
  config_id : pyval;
  file : pyval;
  content : pyval;
  b64_encoded : pyval;
  endpoint_id : pyval;
  force : pyval;
  state : pyval;
  config : pyval;
  old_config : pyval
}.

Definition with_results (m : PortainerConfigManager) (r : dict)
  : PortainerConfigManager :=
  mkManager r (name m) (config_id m) (file m) (content m) (b64_encoded m)
            (endpoint_id m) (force m) (state m) (config m) (old_config m).

Definition with_config (m : PortainerConfigManager) (c : pyval)
  : PortainerConfigManager :=
  mkManager (results m) (name m) (config_id m) (file m) (content m)
            (b64_encoded m) (endpoint_id m) (force m) (state m) c (old_config m).

Definition with_old_config (m : PortainerConfigManager) (c : pyval)
  : PortainerConfigManager :=
  mkManager (results m) (name m) (config_id m) (file m) (content m)
            (b64_encoded m) (endpoint_id m) (force m) (state m) (config m) c.

(** [PortainerConfigManager.__init__], from the parameters of the module
    and the [results] of [main] *)
Definition init (params : dict) (results : dict) : PortainerConfigManager :=
  mkManager results (dict_get params "name") (dict_get params "config_id")
            (dict_get params "file") (dict_get params "content")
            (dict_get params "b64_encoded") (dict_get params "endpoint_id")
            (dict_get params "force") (dict_get params "state")
            (PDict []) (PDict []).

Section WithPlatform.
Variable pf : platform.

Local Abbreviation MM := (M PortainerConfigManager).

(** [self.results[key] = value] *)
Definition set_result (key : string) (value : pyval) : MM unit :=
  modify_self (fun m => with_results m (dict_set (results m) key value)).

(** [_get_raw_content] *)
Definition _get_raw_content_of (m : PortainerConfigManager) : outcome pyval :=
  if py_truthy (content m) then Ok (content m)
  else if py_truthy (file m) then
    let file_path := py_str (file m) in
    match read_file pf file_path with
    | FileContent bytes =>
        match utf8_decode pf bytes with
        | Some content =>
            if String.eqb content EmptyString
            then Raise (FailJson ("File is empty: " ^^ file_path) [])
            else Ok (PStr content)
        | None =>
            Raise (FailJson
                     ("File contains binary data and cannot be read as text: "
                      ^^ file_path ^^ ". "
                      ^^ "This module only supports text-based configs.") [])
        end
    | FileNotFoundError => Raise (FailJson ("File not found: " ^^ file_path) [])
    | PermissionError =>
        Raise (FailJson ("Permission denied reading file: " ^^ file_path) [])
    | IOError e =>
        Raise (FailJson ("Failed to read file " ^^ file_path ^^ ": " ^^ e) [])
    end
  else Ok PNone.

(** [_get_config_data]: it reads the manager and the file, and changes
    nothing. *)
Definition _get_config_data_of (m : PortainerConfigManager) : outcome dict :=
  let data := [(PF.CONFIG_NAME, name m)] in
  if negb (py_truthy (content m)) && negb (py_truthy (file m)) then Ok data
  else
    match _get_raw_content_of m with
    | Raise e => Raise e
    | Ok raw_content =>
        if negb (py_truthy raw_content)
        then Raise (FailJson "Couldn't get config data." [])
        else if py_truthy (b64_encoded m)
             then Ok (dict_set data PF.CONFIG_DATA raw_content)
             else Ok (dict_set data PF.CONFIG_DATA
                               (PStr (b64encode pf (py_str raw_content))))
    end.

Definition _get_config_data : MM dict :=
  m <- get_self ;; lift (_get_config_data_of m).

(** [get_config] *)
Definition get_config : MM pyval :=
  m <- get_self ;;
  if py_truthy (config_id m)
  then BaseCRUD.get_item_by_id pf SwarmConfigCRUD (config_id m)
  else BaseCRUD.validate_single_item pf SwarmConfigCRUD (name m) "retrieve"
                                     None None.

(** [create_config] *)
Definition create_config : MM pyval :=
  w <- get_world ;;
  if negb (check_mode w) then
    config_data <- _get_config_data ;;
    m <- get_self ;;
    BaseCRUD.create_item pf SwarmConfigCRUD (name m) (Some config_data) None None
  else ret PNone.

(** [delete_config] *)
Definition delete_config (config_id : pyval) : MM unit :=
  w <- get_world ;;
  if negb (check_mode w)
  then BaseCRUD.delete_item_by_id pf SwarmConfigCRUD config_id None
  else ret tt.

(** [ensure_absent] *)
Definition ensure_absent : MM unit :=
  m <- get_self ;;
  if py_truthy (config m) then
    w <- get_world ;;
    (if negb (check_mode w) then
       id <- lift (BaseCRUD.item_index (config m) PF.CONFIG_ID) ;;
       delete_config id ;;
       modify_self (fun m => with_config m (PDict []))
     else ret tt) ;;
    set_result "changed" (PBool true) ;;
    set_result "msg" (PStr "Config deleted")
  else set_result "msg" (PStr "Config does not exists").

(** [self.config] as the dictionary [needs_update] reads with [get]. *)
Definition as_dict (v : pyval) : outcome dict :=
  match v with
  | PDict d => Ok d
  | _ => Raise (AttributeError "object has no attribute 'get'")
  end.

(** [ensure_present] *)
Definition ensure_present : MM unit :=
  m <- get_self ;;
  w <- get_world ;;
  if py_truthy (config m) then
    new_data <- _get_config_data ;;
    existing_data <- lift (as_dict (config m)) ;;
    let changes := IdempotencyManager.needs_update existing_data new_data None in
    match changes with
    | [] => set_result "msg" (PStr "Config already exists.")
    | _ =>
        if negb (py_truthy (force m)) then
          warn ("The content of the config was not updated. "
                ^^ "In order to recreate the config use force: true.") ;;
          set_result "msg" (PStr "Config already exists. Update skipped.")
        else
          (if negb (check_mode w) then
             ensure_absent ;;
             c <- create_config ;;
             modify_self (fun m => with_config m c)
           else ret tt) ;;
          set_result "changed" (PBool true) ;;
          set_result "msg" (PStr "Config updated.")
    end
  else
    (if negb (check_mode w) then
       c <- create_config ;;
       modify_self (fun m => with_config m c)
     else ret tt) ;;
    set_result "changed" (PBool true) ;;
    set_result "msg" (PStr "Config created.").

(** [__call__] *)
Definition __call__ : MM unit :=
  c <- get_config ;;
  modify_self (fun m => with_config m c) ;;
  modify_self (fun m => with_old_config m (config m)) ;;
  m <- get_self ;;
  match state m with
  | PStr "present" => ensure_present
  | PStr "absent" => ensure_absent
  | _ =>
      fail_json ("Internal error: state '" ^^ py_str (state m)
                 ^^ "' is not mapped. "
                 ^^ "This is a bug in the module - please report it.") []
  end ;;
  m <- get_self ;;
  shown <- (if py_truthy (config m) then ret (config m)
            else d <- _get_config_data ;; ret (PDict d)) ;;
  set_result "config" shown ;;
  w <- get_world ;;
  if _diff w then
    m <- get_self ;;
    let opt_dict v := match v with PDict d => Some d | _ => None end in
    let (before, after) :=
      IdempotencyManager.build_diff (opt_dict (old_config m)) (opt_dict shown)
                                    None in
    set_result "diff" (PDict [("before", PDict before); ("after", PDict after)])
  else ret tt.

(** The body of [main] after the reachability check: [results] starts as
    [dict(changed=False)]. *)
Definition main_results : dict := [("changed", PBool false)].

End WithPlatform.
End ConfigManager.

(* ===================================================================== *)
(** * modules/portainer_stack.py *)
(* ===================================================================== *)

(** [StackStatus] *)
Module StackStatus.
Definition RUNNING : Z := 1.
Definition STOPPED : Z := 2.
End StackStatus.

(** The dataclass [Stack]: every attribute is [None] until it is set. *)
Module Stack.

Record t : Type := mk {
  id : pyval;
  name : pyval;
  env : pyval;
  prune : pyval;
  pull_images : pyval;
  additional_files : pyval;
  autoupdate : pyval;
  compose_file : pyval;
  rep_authentication : pyval;
  rep_password : pyval;
  rep_refs_name : pyval;
  rep_url : pyval;
  rep_username : pyval;
  swarm_id : pyval;
  endpoint_id : pyval;
  tls_skip_verify : pyval;
  status : pyval
}.

(** [Stack()] *)
Definition empty : t :=
  mk PNone PNone PNone PNone PNone PNone PNone PNone PNone PNone PNone PNone
     PNone PNone PNone PNone PNone.

(** [getattr(self, a)] for the attributes [fields_mapping] names *)
Definition getattr (s : t) (a : string) : pyval :=
  if String.eqb a "id" then id s else
  if String.eqb a "name" then name s else
  if String.eqb a "env" then env s else
  if String.eqb a "prune" then prune s else
  if String.eqb a "pull_images" then pull_images s else
  if String.eqb a "additional_files" then additional_files s else
  if String.eqb a "autoupdate" then autoupdate s else
  if String.eqb a "compose_file" then compose_file s else
  if String.eqb a "rep_authentication" then rep_authentication s else
  if String.eqb a "rep_password" then rep_password s else
  if String.eqb a "rep_refs_name" then rep_refs_name s else
  if String.eqb a "rep_url" then rep_url s else
  if String.eqb a "rep_username" then rep_username s else
  if String.eqb a "swarm_id" then swarm_id s else
  if String.eqb a "endpoint_id" then endpoint_id s else
  if String.eqb a "tls_skip_verify" then tls_skip_verify s else
  if String.eqb a "status" then status s else
  PNone.

(** [setattr(self, a, v)] for the attributes [fields_mapping] names *)
Definition setattr (s : t) (a : string) (v : pyval) : t :=
  if String.eqb a "id" then
    mk v (name s) (env s) (prune s) (pull_images s) (additional_files s)
       (autoupdate s) (compose_file s) (rep_authentication s) (rep_password s)
       (rep_refs_name s) (rep_url s) (rep_username s) (swarm_id s)
       (endpoint_id s) (tls_skip_verify s) (status s) else
  if String.eqb a "name" then
    mk (id s) v (env s) (prune s) (pull_images s) (additional_files s)
       (autoupdate s) (compose_file s) (rep_authentication s) (rep_password s)
       (rep_refs_name s) (rep_url s) (rep_username s) (swarm_id s)
       (endpoint_id s) (tls_skip_verify s) (status s) else
  if String.eqb a "env" then
    mk (id s) (name s) v (prune s) (pull_images s) (additional_files s)
       (autoupdate s) (compose_file s) (rep_authentication s) (rep_password s)
       (rep_refs_name s) (rep_url s) (rep_username s) (swarm_id s)
       (endpoint_id s) (tls_skip_verify s) (status s) else
  if String.eqb a "prune" then
    mk (id s) (name s) (env s) v (pull_images s) (additional_files s)
       (autoupdate s) (compose_file s) (rep_authentication s) (rep_password s)
       (rep_refs_name s) (rep_url s) (rep_username s) (swarm_id s)
       (endpoint_id s) (tls_skip_verify s) (status s) else
  if String.eqb a "pull_images" then
    mk (id s) (name s) (env s) (prune s) v (additional_files s) (autoupdate s)
       (compose_file s) (rep_authentication s) (rep_password s)
       (rep_refs_name s) (rep_url s) (rep_username s) (swarm_id s)
       (endpoint_id s) (tls_skip_verify s) (status s) else
  if String.eqb a "additional_files" then
    mk (id s) (name s) (env s) (prune s) (pull_images s) v (autoupdate s)
       (compose_file s) (rep_authentication s) (rep_password s)
       (rep_refs_name s) (rep_url s) (rep_username s) (swarm_id s)
       (endpoint_id s) (tls_skip_verify s) (status s) else
  if String.eqb a "autoupdate" then
    mk (id s) (name s) (env s) (prune s) (pull_images s) (additional_files s) v
       (compose_file s) (rep_authentication s) (rep_password s)
       (rep_refs_name s) (rep_url s) (rep_username s) (swarm_id s)
       (endpoint_id s) (tls_skip_verify s) (status s) else
  if String.eqb a "compose_file" then
    mk (id s) (name s) (env s) (prune s) (pull_images s) (additional_files s)
       (autoupdate s) v (rep_authentication s) (rep_password s)
       (rep_refs_name s) (rep_url s) (rep_username s) (swarm_id s)
       (endpoint_id s) (tls_skip_verify s) (status s) else
  if String.eqb a "rep_authentication" then
    mk (id s) (name s) (env s) (prune s) (pull_images s) (additional_files s)
       (autoupdate s) (compose_file s) v (rep_password s) (rep_refs_name s)
       (rep_url s) (rep_username s) (swarm_id s) (endpoint_id s)
       (tls_skip_verify s) (status s) else
  if String.eqb a "rep_password" then
    mk (id s) (name s) (env s) (prune s) (pull_images s) (additional_files s)
       (autoupdate s) (compose_file s) (rep_authentication s) v
       (rep_refs_name s) (rep_url s) (rep_username s) (swarm_id s)
       (endpoint_id s) (tls_skip_verify s) (status s) else
  if String.eqb a "rep_refs_name" then
    mk (id s) (name s) (env s) (prune s) (pull_images s) (additional_files s)
       (autoupdate s) (compose_file s) (rep_authentication s) (rep_password s)
       v (rep_url s) (rep_username s) (swarm_id s) (endpoint_id s)
       (tls_skip_verify s) (status s) else
  if String.eqb a "rep_url" then
    mk (id s) (name s) (env s) (prune s) (pull_images s) (additional_files s)
       (autoupdate s) (compose_file s) (rep_authentication s) (rep_password s)
       (rep_refs_name s) v (rep_username s) (swarm_id s) (endpoint_id s)
       (tls_skip_verify s) (status s) else
  if String.eqb a "rep_username" then
    mk (id s) (name s) (env s) (prune s) (pull_images s) (additional_files s)
       (autoupdate s) (compose_file s) (rep_authentication s) (rep_password s)
       (rep_refs_name s) (rep_url s) v (swarm_id s) (endpoint_id s)
       (tls_skip_verify s) (status s) else
  if String.eqb a "swarm_id" then
    mk (id s) (name s) (env s) (prune s) (pull_images s) (additional_files s)
       (autoupdate s) (compose_file s) (rep_authentication s) (rep_password s)
       (rep_refs_name s) (rep_url s) (rep_username s) v (endpoint_id s)
       (tls_skip_verify s) (status s) else
  if String.eqb a "endpoint_id" then
    mk (id s) (name s) (env s) (prune s) (pull_images s) (additional_files s)
       (autoupdate s) (compose_file s) (rep_authentication s) (rep_password s)
       (rep_refs_name s) (rep_url s) (rep_username s) (swarm_id s) v
       (tls_skip_verify s) (status s) else
  if String.eqb a "tls_skip_verify" then
    mk (id s) (name s) (env s) (prune s) (pull_images s) (additional_files s)
       (autoupdate s) (compose_file s) (rep_authentication s) (rep_password s)
       (rep_refs_name s) (rep_url s) (rep_username s) (swarm_id s)
       (endpoint_id s) v (status s) else
  if String.eqb a "status" then
    mk (id s) (name s) (env s) (prune s) (pull_images s) (additional_files s)
       (autoupdate s) (compose_file s) (rep_authentication s) (rep_password s)
       (rep_refs_name s) (rep_url s) (rep_username s) (swarm_id s)
       (endpoint_id s) (tls_skip_verify s) v else
  s.

(** [Stack.fields_mapping]: the key of the API and the attribute it fills.
    [SwarmId] and [SwarmID] both fill [swarm_id], [EndpointId] and
    [endpointId] both fill [endpoint_id]. *)
Definition fields_mapping : list (string * string) :=
  [ (PF.STACK_ID, "id");
    (PF.STACK_NAME, "name");
    (PF.STACK_ENV, "env");
    (PF.STACK_PRUNE, "prune");
    (PF.STACK_PULL_IMAGES, "pull_images");
    (PF.STACK_ADDITIONAL_FILES, "additional_files");
    (PF.STACK_AUTOUPDATE, "autoupdate");
    (PF.STACK_COMPOSE_FILE, "compose_file");
    (PF.STACK_REPOSITORY_AUTHENTICATION, "rep_authentication");
    (PF.STACK_REPOSITORY_PASSWORD, "rep_password");
    (PF.STACK_REPOSITORY_REFERENCE_NAME, "rep_refs_name");
    (PF.STACK_REPOSITORY_URL, "rep_url");
    (PF.STACK_REPOSITORY_USERNAME, "rep_username");
    (PF.STACK_SWARM_ID, "swarm_id");
    (PF.STACK_SWARM_ID_FORM_DATA, "swarm_id");
    (PF.STACK_ENDPOINT_ID, "endpoint_id");
    (PF.STACK_ENDPOINT_ID_QUERY, "endpoint_id");
    (PF.STACK_TLS_SKIP_VERIFY, "tls_skip_verify");
    (PF.STACK_STATUS, "status") ].

(** [Stack.private_fields] *)
Definition private_fields : list string := [PF.STACK_REPOSITORY_PASSWORD].

(** [Stack.update_from_dict] *)
Definition update_from_dict (s : t) (data : dict) : t :=
  fold_left
    (fun s kv =>
       match dict_lookup fields_mapping (fst kv) with
       | Some a => setattr s a (snd kv)
       | None => s
       end)
    data s.

(** One turn of the loop of [to_dict]. *)
Definition to_dict_step (s : t) (data : dict) (kv : string * string) : dict :=
  let (k, v) := kv in
  let value := getattr s v in
  if is_none value then data
  else if str_in k private_fields then dict_set data k (PStr "***")
  else dict_set data k value.

(** [Stack.to_dict] *)
Definition to_dict (s : t) : dict :=
  fold_left (to_dict_step s) fields_mapping [].

End Stack.

(** [s.capitalize()] for ASCII text *)
Definition ascii_upper (c : ascii) : ascii :=
  let n := nat_of_ascii c in
  if (Nat.leb 97 n && Nat.leb n 122)%bool then ascii_of_nat (n - 32) else c.

Definition ascii_lower (c : ascii) : ascii :=
  let n := nat_of_ascii c in
  if (Nat.leb 65 n && Nat.leb n 90)%bool then ascii_of_nat (n + 32) else c.

Fixpoint string_map (f : ascii -> ascii) (s : string) : string :=
  match s with
  | EmptyString => EmptyString
  | String c r => String (f c) (string_map f r)
  end.

Definition capitalize (s : string) : string :=
  match s with
  | EmptyString => EmptyString
  | String c r => String (ascii_upper c) (string_map ascii_lower r)
  end.

(** [sep.join(parts)] *)
Fixpoint join (sep : string) (parts : list string) : string :=
  match parts with
  | [] => EmptyString
  | [x] => x
  | x :: r => x ^^ sep ^^ join sep r
  end.

(** [list(set(l))], up to the order Python gives a set: the lists built
    this way below are only searched. *)
Definition list_set (l : list string) : list string := nodup string_dec l.

(** [StackConfig] *)
Module StackConfig.

Record t : Type := mk {
  create_keys : list string;
  update_keys : list string;
  redeploy_keys : list string;
  create_body_format : BodyFormat;
  needs_swarm_id : bool;
  skip_fields_from_changes : list string;
  required_one_of : list (list string)
}.

(** [StackConfig.__post_init__] *)
Definition __post_init__ (c : t) : t :=
  let base_skip := ["ResourceControl"; "UpdateDate"; "UpdatedBy"] in
  let base_skip :=
    if str_in PF.STACK_FILE (create_keys c) then base_skip ++ [PF.STACK_FILE]
    else base_skip in
  mk (create_keys c) (update_keys c) (redeploy_keys c) (create_body_format c)
     (needs_swarm_id c)
     (list_set (base_skip ++ skip_fields_from_changes c))
     (required_one_of c).

(** The constructor the dataclass generates, [__post_init__] included. *)
Definition cls (create_keys update_keys redeploy_keys : list string)
           (create_body_format : BodyFormat) (needs_swarm_id : bool)
           (skip_fields_from_changes : list string)
           (required_one_of : list (list string)) : t :=
  __post_init__
    (mk create_keys update_keys redeploy_keys create_body_format needs_swarm_id
        skip_fields_from_changes required_one_of).

Definition COMMON_ENV_KEYS : list string := [PF.STACK_ENV; PF.STACK_PRUNE].

Definition COMMON_REPO_KEYS : list string :=
  [ PF.STACK_AUTOUPDATE;
    PF.STACK_REPOSITORY_AUTHENTICATION;
    PF.STACK_REPOSITORY_PASSWORD;
    PF.STACK_REPOSITORY_REFERENCE_NAME;
    PF.STACK_REPOSITORY_USERNAME;
    PF.STACK_TLS_SKIP_VERIFY ].

(** [StackConfig.for_stack] *)
Definition for_stack (stack_type stack_source : pyval) : outcome t :=
  if py_eq stack_source (PStr "file") then
    let base_create := [PF.STACK_NAME; PF.STACK_ENV; PF.STACK_FILE] in
    let base_update :=
      [PF.STACK_ENV; PF.STACK_PRUNE; PF.STACK_PULL_IMAGES; PF.STACK_FILE_CONTENT] in
    let base_create :=
      if py_eq stack_type (PStr "swarm")
      then base_create ++ [PF.STACK_SWARM_ID_FORM_DATA]
      else base_create in
    Ok (cls base_create base_update [] FORM_DATA
            (py_eq stack_type (PStr "swarm")) [] [])
  else if py_eq stack_source (PStr "repository") then
    let base_create :=
      [PF.STACK_NAME; PF.STACK_ADDITIONAL_FILES; PF.STACK_COMPOSE_FILE;
       PF.STACK_REPOSITORY_URL] ++ COMMON_ENV_KEYS ++ COMMON_REPO_KEYS in
    let base_update :=
      filter
        (fun k =>
           negb (str_in k [PF.STACK_NAME; PF.STACK_REPOSITORY_URL;
                           PF.STACK_COMPOSE_FILE; PF.STACK_ADDITIONAL_FILES;
                           PF.STACK_SWARM_ID]))
        (list_set base_create)
      ++ [PF.STACK_REPOSITORY_AUTHORIZATION_TYPE] in
    let base_redeploy := base_update ++ [PF.STACK_PULL_IMAGES] in
    let base_create :=
      if py_eq stack_type (PStr "swarm")
      then base_create ++ [PF.STACK_SWARM_ID]
      else base_create in
    Ok (cls base_create base_update base_redeploy JSON
            (py_eq stack_type (PStr "swarm"))
            [PF.STACK_REPOSITORY_PASSWORD] [])
  else if is_none stack_type && is_none stack_source then
    Ok (cls [] [] [] JSON false []
            [["stack_id"]; ["name"; "endpoint_id"]; ["name"; "swarm_id"]])
  else
    Raise (ValueError ("Unsupported stack configuration: " ^^ py_str stack_type
                       ^^ " + " ^^ py_str stack_source)).

End StackConfig.

(** [StackStateManager] *)
Module StackStateManager.

Record t : Type := mk {
  name : pyval;
  stack_id : pyval;
  state : pyval;
  stack_type : pyval;
  stack_source : pyval;
  endpoint_id : pyval;
  swarm_id : pyval;
  prune : pyval;
  pull_images : pyval;
  env : pyval;
  additional_files : pyval;
  autoupdate : pyval;
  compose_file : pyval;
  repository_authentication : pyval;
  repository_password : pyval;
  update_password : pyval;
  refs_name : pyval;
  repository_url : pyval;
  repository_username : pyval;
  tls_skip_verify : pyval;
  file : pyval;
  stack : Stack.t;
  old_stack : Stack.t
}.

(** [StackStateManager.__init__] *)
Definition init (params : dict) : t :=
  mk (dict_get params "name")
     (dict_get params "stack_id")
     (dict_get params "state")
     (dict_get params "stack_type")
     (dict_get params "stack_source")
     (dict_get params "endpoint_id")
     (dict_get params "swarm_id")
     (dict_get params "prune")
     (dict_get params "pull_images")
     (dict_get params "env")
     (dict_get params "additional_files")
     (dict_get params "autoupdate")
     (dict_get params "compose_file")
     (dict_get params "repository_authentication")
     (dict_get params "repository_password")
     (dict_get params "update_password")
     (dict_get params "refs_name")
     (dict_get params "repository_url")
     (dict_get params "repository_username")
     (dict_get params "tls_skip_verify")
     (dict_get params "file")
     Stack.empty Stack.empty.

Definition with_name (m : t) (v : pyval) : t :=
  mk v
     (stack_id m)
     (state m)
     (stack_type m)
     (stack_source m)
     (endpoint_id m)
     (swarm_id m)
     (prune m)
     (pull_images m)
     (env m)
     (additional_files m)
     (autoupdate m)
     (compose_file m)
     (repository_authentication m)
     (repository_password m)
     (update_password m)
     (refs_name m)
     (repository_url m)
     (repository_username m)
     (tls_skip_verify m)
     (file m)
     (stack m)
     (old_stack m).

Definition with_stack_id (m : t) (v : pyval) : t :=
  mk (name m) v
     (state m)
     (stack_type m)
     (stack_source m)
     (endpoint_id m)
     (swarm_id m)
     (prune m)
     (pull_images m)
     (env m)
     (additional_files m)
     (autoupdate m)
     (compose_file m)
     (repository_authentication m)
     (repository_password m)
     (update_password m)
     (refs_name m)
     (repository_url m)
     (repository_username m)
     (tls_skip_verify m)
     (file m)
     (stack m)
     (old_stack m).

Definition with_endpoint_id (m : t) (v : pyval) : t :=
  mk (name m)
     (stack_id m)
     (state m)
     (stack_type m)
     (stack_source m) v
     (swarm_id m)
     (prune m)
     (pull_images m)
     (env m)
     (additional_files m)
     (autoupdate m)
     (compose_file m)
     (repository_authentication m)
     (repository_password m)
     (update_password m)
     (refs_name m)
     (repository_url m)
     (repository_username m)
     (tls_skip_verify m)
     (file m)
     (stack m)
     (old_stack m).

Definition with_swarm_id (m : t) (v : pyval) : t :=
  mk (name m)
     (stack_id m)
     (state m)
     (stack_type m)
     (stack_source m)
     (endpoint_id m) v
     (prune m)
     (pull_images m)
     (env m)
     (additional_files m)
     (autoupdate m)
     (compose_file m)
     (repository_authentication m)
     (repository_password m)
     (update_password m)
     (refs_name m)
     (repository_url m)
     (repository_username m)
     (tls_skip_verify m)
     (file m)
     (stack m)
     (old_stack m).

Definition with_stack (m : t) (v : Stack.t) : t :=
  mk (name m)
     (stack_id m)
     (state m)
     (stack_type m)
     (stack_source m)
     (endpoint_id m)
     (swarm_id m)
     (prune m)
     (pull_images m)
     (env m)
     (additional_files m)
     (autoupdate m)
     (compose_file m)
     (repository_authentication m)
     (repository_password m)
     (update_password m)
     (refs_name m)
     (repository_url m)
     (repository_username m)
     (tls_skip_verify m)
     (file m) v
     (old_stack m).

Definition with_old_stack (m : t) (v : Stack.t) : t :=
  mk (name m)
     (stack_id m)
     (state m)
     (stack_type m)
     (stack_source m)
     (endpoint_id m)
     (swarm_id m)
     (prune m)
     (pull_images m)
     (env m)
     (additional_files m)
     (autoupdate m)
     (compose_file m)
     (repository_authentication m)
     (repository_password m)
     (update_password m)
     (refs_name m)
     (repository_url m)
     (repository_username m)
     (tls_skip_verify m)
     (file m)
     (stack m) v.

(** [getattr(self, a, None)] for the names [required_one_of] lists *)
Definition getattr (m : t) (a : string) : pyval :=
  if String.eqb a "stack_id" then stack_id m else
  if String.eqb a "name" then name m else
  if String.eqb a "endpoint_id" then endpoint_id m else
  if String.eqb a "swarm_id" then swarm_id m else
  PNone.

(** [StackStateManager.update_state] *)
Definition update_state (m : t) (stack_data : pyval) : t :=
  let m :=
    match stack_data with
    | PDict d => with_stack m (Stack.update_from_dict (stack m) d)
    | _ => m
    end in
  if py_truthy (Stack.id (stack m)) then
    let m := if is_none (endpoint_id m)
             then with_endpoint_id m (Stack.endpoint_id (stack m)) else m in
    let m := if is_none (swarm_id m)
             then with_swarm_id m (Stack.swarm_id (stack m)) else m in
    let m := if is_none (name m)
             then with_name m (Stack.name (stack m)) else m in
    let m := if is_none (stack_id m)
             then with_stack_id m (Stack.id (stack m)) else m in
    m
  else m.

(** [StackStateManager.set_old_stack] *)
Definition set_old_stack (m : t) (old_stack_data : dict) : t :=
  with_old_stack m (Stack.update_from_dict (old_stack m) old_stack_data).

End StackStateManager.

(** The objects [StackManager.for_stack] wires together: the validator, the
    data builder, the repository and the manager share one state manager and
    one configuration; the data builder adds its file cache, the manager
    the [results] of [main]. *)
Record stack_objects : Type := mkStackObjects {
  state_manager : StackStateManager.t;
  config : StackConfig.t;
  _file_content_cache : pyval;
  results : dict
}.

Definition with_state_manager (o : stack_objects) (m : StackStateManager.t)
  : stack_objects :=
  mkStackObjects m (config o) (_file_content_cache o) (results o).

Definition with_file_content_cache (o : stack_objects) (v : pyval)
  : stack_objects :=
  mkStackObjects (state_manager o) (config o) v (results o).

Definition with_results (o : stack_objects) (r : dict) : stack_objects :=
  mkStackObjects (state_manager o) (config o) (_file_content_cache o) r.

Definition get_state_manager : M stack_objects StackStateManager.t :=
  o <- get_self ;; ret (state_manager o).

(** [self.state_manager.update_state(stack_data)] *)
Definition update_state (stack_data : pyval) : M stack_objects unit :=
  modify_self (fun o =>
    with_state_manager o
      (StackStateManager.update_state (state_manager o) stack_data)).

(** [self.results[key] = value] *)
Definition set_result (key : string) (value : pyval) : M stack_objects unit :=
  modify_self (fun o => with_results o (dict_set (results o) key value)).

(** [StackValidator] *)
Module StackValidator.

(** [_maybe_stack_exists] *)
Definition _maybe_stack_exists (m : StackStateManager.t) : bool :=
  let has_id := negb (is_none (StackStateManager.stack_id m)) in
  let has_name := negb (is_none (StackStateManager.name m)) in
  let has_endpoint := negb (is_none (StackStateManager.endpoint_id m)) in
  let has_swarm := negb (is_none (StackStateManager.swarm_id m)) in
  if py_eq (StackStateManager.stack_type m) (PStr "swarm")
  then has_id || (has_name && (has_endpoint || has_swarm))
  else if py_eq (StackStateManager.stack_type m) (PStr "standalone")
  then has_id || (has_name && has_endpoint)
  else false.

(** [_validate_new_stack_requirements] *)
Definition _validate_new_stack_requirements : M stack_objects unit :=
  m <- get_state_manager ;;
  if py_ne (StackStateManager.state m) (PStr "present") || _maybe_stack_exists m
  then ret tt
  else
    (if py_eq (StackStateManager.stack_type m) (PStr "standalone")
     then if is_none (StackStateManager.endpoint_id m)
          then fail_json
                 "Provide 'endpoint_id' when creating new standalone stacks." []
          else ret tt
     else ret tt) ;;
    if py_eq (StackStateManager.stack_type m) (PStr "swarm") then
      let missing :=
        (if is_none (StackStateManager.endpoint_id m) then ["endpoint_id"] else [])
        ++ (if is_none (StackStateManager.swarm_id m) then ["swarm_id"] else []) in
      match missing with
      | [] => ret tt
      | _ => fail_json ("Provide " ^^ join " and " missing
                        ^^ " when creating new swarm stacks.") []
      end
    else ret tt.

(** [_validate_stack_source_requirements] *)
Definition _validate_stack_source_requirements : M stack_objects unit :=
  m <- get_state_manager ;;
  if py_ne (StackStateManager.state m) (PStr "present") then ret tt
  else
    (if py_eq (StackStateManager.stack_source m) (PStr "file")
     then if is_none (StackStateManager.file m)
          then fail_json "Provide 'file' for file-based stacks." []
          else ret tt
     else ret tt) ;;
    if py_eq (StackStateManager.stack_source m) (PStr "repository") then
      (if negb (_maybe_stack_exists m) then
         let required :=
           [ ("repository_url", StackStateManager.repository_url m);
             ("compose_file", StackStateManager.compose_file m);
             ("refs_name", StackStateManager.refs_name m);
             ("repository_authentication",
              StackStateManager.repository_authentication m) ] in
         let missing :=
           map fst (filter (fun kv => is_none (snd kv)) required) in
         match missing with
         | [] => ret tt
         | _ => fail_json ("Provide " ^^ join ", " missing
                           ^^ " for repository-based stacks.") []
         end
       else ret tt) ;;
      if py_truthy (StackStateManager.repository_authentication m) then
        if negb (py_truthy (StackStateManager.repository_username m))
           || negb (py_truthy (StackStateManager.repository_password m))
        then fail_json
               ("Provide 'repository_username' and 'repository_password' "
                ^^ "when repository_authentication is True.") []
        else ret tt
      else ret tt
    else ret tt.

(** [_validate_config_requirements] *)
Definition _validate_config_requirements : M stack_objects unit :=
  o <- get_self ;;
  match StackConfig.required_one_of (config o) with
  | [] => ret tt
  | required_one_of =>
      let fulfilled :=
        existsb
          (fun args =>
             forallb
               (fun arg =>
                  negb (is_none (StackStateManager.getattr (state_manager o) arg)))
               args)
          required_one_of in
      if negb fulfilled then
        fail_json ("Provide one of the required field combinations: "
                   ^^ join " or " (map (join " + ") required_one_of)) []
      else ret tt
  end.

(** [validate_args] *)
Definition validate_args : M stack_objects unit :=
  _validate_new_stack_requirements ;;
  _validate_stack_source_requirements ;;
  _validate_config_requirements.

End StackValidator.

(** [PortainerModule.validate_text_content] with [fail_on_error] left at
    [True], and [_build_error_message]. *)
Module TextContent.

Definition _build_error_message (reason : string) (description filepath : pyval)
  : string :=
  let parts :=
    [if py_truthy description then capitalize (py_str description) else "Content"]
    ++ ["contains binary data (" ^^ reason ^^ ")"]
    ++ (if py_truthy filepath then [": " ^^ py_str filepath] else []) in
  join " " parts.

(** The bytes below 0x20 other than tab, line feed and carriage return. *)
Definition is_control (c : ascii) : bool :=
  let b := nat_of_ascii c in
  Nat.ltb b 32 && negb (Nat.eqb b 9 || Nat.eqb b 10 || Nat.eqb b 13).

Definition has_null (content : string) : bool :=
  existsb (fun c => Nat.eqb (nat_of_ascii c) 0) (list_ascii_of_string content).

(** [control_chars / len(content) > 0.30], on integers *)
Definition excessive_control (content : string) : bool :=
  let n := String.length content in
  let control_chars :=
    List.length (filter is_control (list_ascii_of_string content)) in
  Nat.ltb 0 n && Nat.ltb (3 * n) (10 * control_chars).

Definition validate_text_content {S : Type} (pf : platform) (content : string)
           (description filepath : pyval) : M S unit :=
  match utf8_decode pf content with
  | None =>
      fail_json (_build_error_message "invalid UTF-8 encoding" description filepath) []
  | Some _ =>
      if has_null content then
        fail_json (_build_error_message "null bytes detected" description filepath) []
      else if excessive_control content then
        fail_json (_build_error_message "excessive control characters"
                                        description filepath) []
      else ret tt
  end.

End TextContent.

(** [StackDataBuilder] *)
Module StackDataBuilder.

(** A value of [_get_lazy_data]: plain, or one of the two bound methods
    that are called only if their key is kept. *)
Inductive lazy : Type :=
| Plain (v : pyval)
| Call_get_stack_file
| Call_get_stack_file_content.

Section WithPlatform.
Variable pf : platform.

(** [_get_lazy_data] *)
Definition _get_lazy_data (m : StackStateManager.t) : list (string * lazy) :=
  let data :=
    [ (PF.STACK_NAME, Plain (StackStateManager.name m));
      (PF.STACK_ENV, Plain (StackStateManager.env m));
      (PF.STACK_PRUNE, Plain (StackStateManager.prune m));
      (PF.STACK_PULL_IMAGES, Plain (StackStateManager.pull_images m));
      (PF.STACK_ADDITIONAL_FILES, Plain (StackStateManager.additional_files m));
      (PF.STACK_AUTOUPDATE, Plain (StackStateManager.autoupdate m));
      (PF.STACK_COMPOSE_FILE, Plain (StackStateManager.compose_file m));
      (PF.STACK_REPOSITORY_AUTHENTICATION,
       Plain (StackStateManager.repository_authentication m));
      (PF.STACK_REPOSITORY_PASSWORD,
       Plain (StackStateManager.repository_password m));
      (PF.STACK_REPOSITORY_REFERENCE_NAME, Plain (StackStateManager.refs_name m));
      (PF.STACK_REPOSITORY_URL, Plain (StackStateManager.repository_url m));
      (PF.STACK_REPOSITORY_USERNAME,
       Plain (StackStateManager.repository_username m));
      (PF.STACK_SWARM_ID, Plain (StackStateManager.swarm_id m));
      (PF.STACK_SWARM_ID_FORM_DATA, Plain (StackStateManager.swarm_id m));
      (PF.STACK_TLS_SKIP_VERIFY, Plain (StackStateManager.tls_skip_verify m)) ] in
  let lazy_data :=
    [ (PF.STACK_FILE, Call_get_stack_file);
      (PF.STACK_FILE_CONTENT, Call_get_stack_file_content) ] in
  dict_update data lazy_data.

(** [_read_file_safely] *)
Definition _read_file_safely (filepath : pyval) (description : string)
  : M stack_objects pyval :=
  match read_file pf (py_str filepath) with
  | FileContent content =>
      (if String.eqb content EmptyString
       then fail_json (capitalize description ^^ " is empty: " ^^ py_str filepath) []
       else ret tt) ;;
      TextContent.validate_text_content pf content (PStr description) filepath ;;
      ret (PBytes content)
  | FileNotFoundError =>
      fail_json (capitalize description ^^ " not found: " ^^ py_str filepath) []
  | PermissionError =>
      fail_json ("Permission denied reading " ^^ description ^^ ": "
                 ^^ py_str filepath) []
  | IOError e =>
      fail_json ("Failed to read " ^^ description ^^ " " ^^ py_str filepath
                 ^^ ": " ^^ e) []
  end.

(** [_read_file_once] *)
Definition _read_file_once : M stack_objects pyval :=
  o <- get_self ;;
  (if is_none (_file_content_cache o)
      && py_truthy (StackStateManager.file (state_manager o))
   then content <- _read_file_safely (StackStateManager.file (state_manager o))
                                     "stack file" ;;
        modify_self (fun o => with_file_content_cache o content)
   else ret tt) ;;
  o <- get_self ;;
  ret (_file_content_cache o).

(** [_get_stack_file] *)
Definition _get_stack_file : M stack_objects pyval :=
  content <- _read_file_once ;;
  if py_truthy content
  then ret (PTuple [PStr "file"; content; PStr "application/x-yaml"])
  else ret PNone.

(** [_get_stack_file_content] *)
Definition _get_stack_file_content : M stack_objects pyval :=
  content <- _read_file_once ;;
  if py_truthy content then
    match content with
    | PBytes b =>
        match utf8_decode pf b with
        | Some text => ret (PStr text)
        | None =>
            o <- get_self ;;
            fail_json ("Stack file contains binary data: "
                       ^^ py_str (StackStateManager.file (state_manager o))) []
        end
    | _ => raise (AttributeError "object has no attribute 'decode'")
    end
  else ret PNone.

(** [v() if callable(v) else v] *)
Definition force (v : lazy) : M stack_objects pyval :=
  match v with
  | Plain v => ret v
  | Call_get_stack_file => _get_stack_file
  | Call_get_stack_file_content => _get_stack_file_content
  end.

(** [_filter_keys], the inner function of [_get_merged_data] *)
Definition _filter_keys {V : Type} (exclude_keys only_keys : list string)
           (_data : list (string * V)) : list (string * V) :=
  let _data := filter (fun kv => negb (str_in (fst kv) exclude_keys)) _data in
  match only_keys with
  | [] => _data
  | _ => filter (fun kv => str_in (fst kv) only_keys) _data
  end.

(** [_get_merged_data] *)
Definition _get_merged_data (exclude_keys only_keys : option (list string))
  : M stack_objects dict :=
  let exclude_keys := IdempotencyManager.or_empty exclude_keys in
  let only_keys := IdempotencyManager.or_empty only_keys in
  o <- get_self ;;
  let lazy_data := _get_lazy_data (state_manager o) in
  let filtered_lazy_data := _filter_keys exclude_keys only_keys lazy_data in
  data <- mapM (fun kv => v <- force (snd kv) ;; ret (fst kv, v))
               filtered_lazy_data ;;
  let data := filter (fun kv => negb (is_none (snd kv))) data in
  o <- get_self ;;
  ret (dict_update
         (_filter_keys exclude_keys only_keys
            (Stack.to_dict (StackStateManager.old_stack (state_manager o))))
         data).

(** The actions of [_get_data_for_action] *)
Inductive action : Type := create | update | redeploy.

Definition action_keys (c : StackConfig.t) (a : action) : list string :=
  match a with
  | create => StackConfig.create_keys c
  | update => StackConfig.update_keys c
  | redeploy => StackConfig.redeploy_keys c
  end.

(** [_get_data_for_action] *)
Definition _get_data_for_action (a : action)
           (exclude_keys only_keys : option (list string)) : M stack_objects dict :=
  o <- get_self ;;
  let only_keys :=
    list_set (IdempotencyManager.or_empty only_keys ++ action_keys (config o) a) in
  _get_merged_data exclude_keys (Some only_keys).

Definition get_create_data : M stack_objects dict :=
  _get_data_for_action create None None.

Definition get_update_data : M stack_objects dict :=
  _get_data_for_action update None None.

Definition get_redeploy_data : M stack_objects dict :=
  _get_data_for_action redeploy None None.

End WithPlatform.
End StackDataBuilder.

(** [StackRepository] *)
Module StackRepository.
Section WithPlatform.
Variable pf : platform.

(** [_get_endpoint_params] *)
Definition _get_endpoint_params : M stack_objects dict :=
  m <- get_state_manager ;;
  ret [(PF.STACK_ENDPOINT_ID_QUERY, StackStateManager.endpoint_id m)].

(** [get_stack] *)
Definition get_stack : M stack_objects pyval :=
  m <- get_state_manager ;;
  if py_truthy (StackStateManager.stack_id m)
  then BaseCRUD.get_item_by_id pf StackCRUD (StackStateManager.stack_id m)
  else if negb (py_truthy (StackStateManager.name m)) then ret PNone
  else
    let params :=
      if py_truthy (StackStateManager.swarm_id m)
      then [("filters",
             PStr (json_dumps pf
                     (PDict [(PF.STACK_SWARM_ID, StackStateManager.swarm_id m)])))]
      else [] in
    let local_filters :=
      if py_truthy (StackStateManager.endpoint_id m)
      then [(PF.STACK_ENDPOINT_ID, StackStateManager.endpoint_id m)]
      else [] in
    BaseCRUD.validate_single_item pf StackCRUD (StackStateManager.name m)
                                  "retrieve" (Some params) (Some local_filters).

(** [create_stack] *)
Definition create_stack : M stack_objects unit :=
  m <- get_state_manager ;;
  if negb (py_truthy (StackStateManager.name m)) then ret tt
  else
    data <- StackDataBuilder.get_create_data pf ;;
    o <- get_self ;;
    data <- (match StackConfig.create_body_format (config o) with
             | FORM_DATA =>
                 match dict_lookup data PF.STACK_ENV with
                 | Some env =>
                     ret (dict_set data PF.STACK_ENV (PStr (json_dumps pf env)))
                 | None => raise (KeyError PF.STACK_ENV)
                 end
             | JSON => ret data
             end) ;;
    m <- get_state_manager ;;
    params <- _get_endpoint_params ;;
    stack_data <- BaseCRUD.create_item pf StackCRUD (StackStateManager.name m)
                    (Some data) (Some (StackConfig.create_body_format (config o)))
                    (Some params) ;;
    update_state stack_data.

(** [update_stack] *)
Definition update_stack : M stack_objects unit :=
  m <- get_state_manager ;;
  let id := Stack.id (StackStateManager.stack m) in
  if negb (py_truthy id) then ret tt
  else
    changes <- StackDataBuilder.get_update_data pf ;;
    params <- _get_endpoint_params ;;
    stack_data <- BaseCRUD.update_item pf StackCRUD id changes (Some params) ;;
    update_state stack_data.

(** [redeploy_stack] *)
Definition redeploy_stack : M stack_objects unit :=
  m <- get_state_manager ;;
  let id := Stack.id (StackStateManager.stack m) in
  if negb (py_truthy id) then ret tt
  else
    data <- StackDataBuilder.get_redeploy_data pf ;;
    params <- _get_endpoint_params ;;
    stack_data <- BaseCRUD.redeploy pf id data (Some params) ;;
    update_state stack_data.

(** [delete_stack] *)
Definition delete_stack : M stack_objects unit :=
  m <- get_state_manager ;;
  let id := Stack.id (StackStateManager.stack m) in
  if negb (py_truthy id) then ret tt
  else
    params <- _get_endpoint_params ;;
    BaseCRUD.delete_item_by_id pf StackCRUD id (Some params).

(** [start_stack] *)
Definition start_stack : M stack_objects unit :=
  m <- get_state_manager ;;
  let id := Stack.id (StackStateManager.stack m) in
  if negb (py_truthy id) || negb (py_truthy (StackStateManager.endpoint_id m))
  then ret tt
  else BaseCRUD.start_stack pf id (StackStateManager.endpoint_id m) ;; ret tt.

(** [stop_stack] *)
Definition stop_stack : M stack_objects unit :=
  m <- get_state_manager ;;
  let id := Stack.id (StackStateManager.stack m) in
  if negb (py_truthy id) || negb (py_truthy (StackStateManager.endpoint_id m))
  then ret tt
  else BaseCRUD.stop_stack pf id (StackStateManager.endpoint_id m) ;; ret tt.

End WithPlatform.
End StackRepository.

(** [StackManager] *)
Module StackManager.

(** [StackManager.for_stack]: the objects of a run, from the parameters of
    the module and the [results] of [main]. *)
Definition for_stack (params : dict) (results : dict)
           (stack_type stack_source : pyval) : outcome stack_objects :=
  match StackConfig.for_stack stack_type stack_source with
  | Ok stack_config =>
      Ok (mkStackObjects (StackStateManager.init params) stack_config PNone results)
  | Raise e => Raise e
  end.

(** [repr] of the dataclass, for the warning of [run] *)
Definition Stack_repr (pf : platform) (s : Stack.t) : string :=
  "Stack("
  ^^ join ", "
       (map (fun a => a ^^ "=" ^^ py_repr pf (Stack.getattr s a))
            ["id"; "name"; "env"; "prune"; "pull_images"; "additional_files";
             "autoupdate"; "compose_file"; "rep_authentication"; "rep_password";
             "rep_refs_name"; "rep_url"; "rep_username"; "swarm_id";
             "endpoint_id"; "tls_skip_verify"; "status"])
  ^^ ")".

Section WithPlatform.
Variable pf : platform.

(** [StackManager.needs_update], called without arguments *)
Definition needs_update : M stack_objects (bool * dict) :=
  o <- get_self ;;
  let old_data := Stack.to_dict (StackStateManager.old_stack (state_manager o)) in
  new_data <- StackDataBuilder.get_update_data pf ;;
  o <- get_self ;;
  let is_repository :=
    py_eq (StackStateManager.stack_source (state_manager o)) (PStr "repository") in
  let changes :=
    IdempotencyManager.needs_update
      old_data new_data
      (Some (StackConfig.skip_fields_from_changes (config o))) in
  if is_repository
     && py_truthy (StackStateManager.update_password (state_manager o))
  then ret (true, changes)
  else ret (match changes with [] => false | _ => true end, changes).

(** [ensure_present] *)
Definition ensure_present : M stack_objects unit :=
  o <- get_self ;;
  w <- get_world ;;
  if py_truthy (Stack.id (StackStateManager.stack (state_manager o))) then
    r <- needs_update ;;
    let (changed, changes) := r in
    if negb changed then
      set_result "msg" (PStr "Stack already exists with correct configuration.")
    else
      (if negb (check_mode w) then StackRepository.update_stack pf
       else update_state (PDict changes)) ;;
      set_result "changed" (PBool true) ;;
      set_result "msg" (PStr "Stack updated.")
  else
    (if negb (check_mode w) then StackRepository.create_stack pf else ret tt) ;;
    set_result "changed" (PBool true) ;;
    set_result "msg" (PStr "Stack created.").

(** [ensure_absent] *)
Definition ensure_absent : M stack_objects unit :=
  o <- get_self ;;
  w <- get_world ;;
  if py_truthy (Stack.id (StackStateManager.stack (state_manager o))) then
    (if negb (check_mode w) then StackRepository.delete_stack pf else ret tt) ;;
    set_result "changed" (PBool true) ;;
    set_result "msg" (PStr "Stack deleted")
  else set_result "msg" (PStr "Stack does not exist").

(** [ensure_redeployed] *)
Definition ensure_redeployed : M stack_objects unit :=
  o <- get_self ;;
  w <- get_world ;;
  if py_truthy (Stack.id (StackStateManager.stack (state_manager o))) then
    (if negb (check_mode w) then
       if py_eq (StackStateManager.stack_source (state_manager o))
                (PStr "repository")
       then StackRepository.redeploy_stack pf
       else StackRepository.update_stack pf
     else ret tt) ;;
    set_result "changed" (PBool true) ;;
    set_result "msg" (PStr "Stack redeployed.")
  else fail_json "Cannot redeploy an inexistent stack." [].

(** [ensure_started] *)
Definition ensure_started : M stack_objects unit :=
  o <- get_self ;;
  w <- get_world ;;
  (if negb (py_truthy (Stack.id (StackStateManager.stack (state_manager o))))
   then fail_json "Cannot start a non-existent stack." []
   else ret tt) ;;
  if py_eq (Stack.status (StackStateManager.stack (state_manager o)))
           (PInt StackStatus.RUNNING)
  then
    set_result "msg" (PStr "Stack is already running") ;;
    set_result "changed" (PBool false)
  else
    (if negb (check_mode w) then StackRepository.start_stack pf else ret tt) ;;
    set_result "msg" (PStr "Stack started") ;;
    set_result "changed" (PBool true).

(** [ensure_stopped] *)
Definition ensure_stopped : M stack_objects unit :=
  o <- get_self ;;
  w <- get_world ;;
  (if negb (py_truthy (Stack.id (StackStateManager.stack (state_manager o))))
   then fail_json "Cannot stop a non-existent stack." []
   else ret tt) ;;
  if py_eq (Stack.status (StackStateManager.stack (state_manager o)))
           (PInt StackStatus.STOPPED)
  then
    set_result "msg" (PStr "Stack is not running") ;;
    set_result "changed" (PBool false)
  else
    (if negb (check_mode w) then StackRepository.stop_stack pf else ret tt) ;;
    set_result "msg" (PStr "Stack stopped") ;;
    set_result "changed" (PBool true).

(** The stack [run] reports: [to_dict()] of the live stack, or, when that
    is empty, the payload a creation would send. *)
Definition reported_stack : M stack_objects dict :=
  o <- get_self ;;
  match Stack.to_dict (StackStateManager.stack (state_manager o)) with
  | [] =>
      data <- StackDataBuilder.get_create_data pf ;;
      m <- get_state_manager ;;
      ret (dict_update
             [ (PF.STACK_ID, StackStateManager.stack_id m);
               (PF.STACK_ENDPOINT_ID, StackStateManager.endpoint_id m);
               (PF.STACK_SWARM_ID, StackStateManager.swarm_id m) ]
             data)
  | shown => ret shown
  end.

(** [run] *)
Definition run : M stack_objects unit :=
  StackValidator.validate_args ;;
  stack_data <- StackRepository.get_stack pf ;;
  (if py_truthy stack_data then
     update_state stack_data ;;
     match stack_data with
     | PDict d =>
         modify_self (fun o =>
           with_state_manager o
             (StackStateManager.set_old_stack (state_manager o) d))
     | _ => raise (AttributeError "object has no attribute 'items'")
     end
   else ret tt) ;;
  m <- get_state_manager ;;
  match StackStateManager.state m with
  | PStr "present" => ensure_present
  | PStr "absent" => ensure_absent
  | PStr "redeployed" => ensure_redeployed
  | PStr "started" => ensure_started
  | PStr "stopped" => ensure_stopped
  | _ =>
      fail_json ("Internal error: state '" ^^ py_str (StackStateManager.state m)
                 ^^ "' is not mapped. "
                 ^^ "This is a bug in the module - please report it.") []
  end ;;
  m <- get_state_manager ;;
  warn ("New Stack: " ^^ Stack_repr pf (StackStateManager.stack m)) ;;
  shown <- reported_stack ;;
  set_result "stack" (PDict shown) ;;
  w <- get_world ;;
  if _diff w then
    o <- get_self ;;
    let (before, after) :=
      IdempotencyManager.build_diff
        (Some (Stack.to_dict (StackStateManager.old_stack (state_manager o))))
        (Some shown)
        (Some (StackConfig.skip_fields_from_changes (config o))) in
    set_result "diff" (PDict [("before", PDict before); ("after", PDict after)])
  else ret tt.

End WithPlatform.
End StackManager.

(* ===================================================================== *)
(** * Vocabulary of the properties *)
(* ===================================================================== *)

(** A computation that leaves the module object as it found it. *)
Definition unchanged {S A : Type} (m : M S A) : Prop :=
  forall w, snd (m w) = w.

(** The path under which the Docker API of a class is reached. *)
Definition docker_subpath (cls : crud_class) : string :=
  match cls with
  | SwarmCRUD => "/swarm"
  | SwarmConfigCRUD => "/configs"
  | SwarmSecretCRUD => "/secrets"
  | DockerNetworkCRUD => "/networks"
  | _ => EmptyString
  end.

(** [prefix] is a prefix of [s]. *)
Fixpoint starts_with (prefix s : string) : bool :=
  match prefix, s with
  | EmptyString, _ => true
  | String a p, String b r => Ascii.eqb a b && starts_with p r
  | String _ _, EmptyString => false
  end.




(** Two stacks that agree on every attribute but the repository password,
    and on whether there is one. *)
Definition same_but_password (s1 s2 : Stack.t) : Prop :=
  (forall a, a <> "rep_password" -> Stack.getattr s1 a = Stack.getattr s2 a)
  /\ is_none (Stack.rep_password s1) = is_none (Stack.rep_password s2).

(** A computation that sends nothing but GET requests and changes nothing
    else of the module object. *)
Definition reads_only {S A : Type} (m : M S A) : Prop :=
  forall w, exists rqs,
    snd (m w) = set_calls w (calls w ++ rqs)
    /\ Forall (fun rq => req_method rq = "GET") rqs.

(** The warning and the message of an update that was skipped. *)
Definition skipped_warning : string :=
  "The content of the config was not updated. "
  ^^ "In order to recreate the config use force: true.".

Definition skipped_msg : string := "Config already exists. Update skipped.".

(** What [_get_merged_data] builds when none of the keys it keeps is one of
    the two file entries: the plain values of the state manager under the
    keys kept, without the [None] ones, over the old stack. *)
Definition plain_value (v : StackDataBuilder.lazy) : pyval :=
  match v with
  | StackDataBuilder.Plain v => v
  | _ => PNone
  end.

Definition merged_plain (o : stack_objects) (only_keys : list string) : dict :=
  let kept :=
    StackDataBuilder._filter_keys [] only_keys
      (StackDataBuilder._get_lazy_data (state_manager o)) in
  let data :=
    filter (fun kv => negb (is_none (snd kv)))
           (map (fun kv => (fst kv, plain_value (snd kv))) kept) in
  dict_update
    (StackDataBuilder._filter_keys [] only_keys
       (Stack.to_dict (StackStateManager.old_stack (state_manager o))))
    data.

(** The keys of an update and of a redeploy of a repository stack. *)
Definition repository_update_keys : list string :=
  [ PF.STACK_ENV; PF.STACK_PRUNE; PF.STACK_AUTOUPDATE;
    PF.STACK_REPOSITORY_AUTHENTICATION; PF.STACK_REPOSITORY_PASSWORD;
    PF.STACK_REPOSITORY_REFERENCE_NAME; PF.STACK_REPOSITORY_USERNAME;
    PF.STACK_TLS_SKIP_VERIFY; PF.STACK_REPOSITORY_AUTHORIZATION_TYPE ].

Definition repository_redeploy_keys : list string :=
  repository_update_keys ++ [PF.STACK_PULL_IMAGES].

(** The stack a stack run works on: the one its state manager holds. *)
Definition current_stack (w : world stack_objects) : Stack.t :=
  StackStateManager.stack (state_manager (self w)).

(** The query of the stack requests: [_get_endpoint_params]. *)
Definition endpoint_params (w : world stack_objects) : dict :=
  [(PF.STACK_ENDPOINT_ID_QUERY,
    StackStateManager.endpoint_id (state_manager (self w)))].

(** The module object once a stack operation has taken [stack_data] into
    the state manager and reported a change with message [msg]. *)
Definition record_change (w : world stack_objects) (stack_data : pyval)
           (msg : string) : world stack_objects :=
  let o :=
    with_state_manager
      (self w)
      (StackStateManager.update_state (state_manager (self w)) stack_data) in
  set_self w (with_results o (dict_set (dict_set (results o) "changed" (PBool true))
                                       "msg" (PStr msg))).

(** The change-set [StackManager.needs_update] computes for a repository
    stack. *)
Definition repository_changes (w : world stack_objects) : dict :=
  IdempotencyManager.needs_update
    (Stack.to_dict (StackStateManager.old_stack (state_manager (self w))))
    (merged_plain (self w) repository_update_keys)
    (Some (StackConfig.skip_fields_from_changes (config (self w)))).

(* ===================================================================== *)
(** * Sample inputs, for the witnesses and counterexamples below *)
(* ===================================================================== *)

Module Samples.

Definition url : string := "https://portainer.example.com".

(** [PortainerClient.__init__] on the options of the unit tests *)
Definition client0 : PortainerClient :=
  mkClient url "secret-token" (PInt 30)
           [ ("X-API-Key", "secret-token");
             ("Content-Type", "application/json");
             ("Cache-Control", "no-cache");
             ("Pragma", "no-cache") ].

(** A platform around a remote side and a table of JSON documents; the
    other collaborators are stand-ins. *)
Definition platform_of (remote : list request -> request -> fetch_result)
           (loads : string -> option pyval) : platform :=
  mkPlatform remote
             (fun _ => "query")
             (fun _ => "json")
             loads
             (fun _ => ("form", "multipart/form-data; boundary=b"))
             (fun s => "b64:" ^^ s)
             (fun _ => FileNotFoundError)
             (fun s => Some s)
             (fun _ => "repr").

(** The module object at the start of a run. *)
Definition world0 {S : Type} (self : S) (params : dict) (check_mode : bool)
  : world S :=
  mkWorld self params check_mode false client0
          (BaseCRUD.PortainerCRUD_init params) [] [] [].

(** A remote side that answers every request the same way. *)
Definition always (r : fetch_result) : list request -> request -> fetch_result :=
  fun _ _ => r.






(** The stack of the unit test of [update_password], as the module holds
    it after the lookup, and the same stack with another password. *)
Definition webapp : Stack.t :=
  Stack.update_from_dict Stack.empty
    [ (PF.STACK_ID, PInt 5);
      (PF.STACK_NAME, PStr "webapp");
      (PF.STACK_ENDPOINT_ID, PInt 1);
      (PF.STACK_SWARM_ID, PStr "swarm123");
      (PF.STACK_REPOSITORY_URL, PStr "https://github.com/org/repo.git");
      (PF.STACK_REPOSITORY_USERNAME, PStr "deploy-user");
      (PF.STACK_REPOSITORY_REFERENCE_NAME, PStr "main");
      (PF.STACK_COMPOSE_FILE, PStr "docker-compose.yml");
      (PF.STACK_REPOSITORY_PASSWORD, PStr "old-secret") ].

Definition webapp' : Stack.t :=
  Stack.setattr webapp "rep_password" (PStr "new-secret").

(** The parameters of a stack run on the stack [webapp] of environment 1. *)
Definition stack_params (stack_type stack_source state : string)
           (swarm_id : pyval) (update_password : bool) : dict :=
  [ ("name", PStr "webapp");
    ("stack_id", PNone);
    ("stack_type", PStr stack_type);
    ("stack_source", PStr stack_source);
    ("state", PStr state);
    ("swarm_id", swarm_id);
    ("env", PNone);
    ("endpoint_id", PInt 1);
    ("prune", PNone);
    ("pull_images", PNone);
    ("additional_files", PNone);
    ("autoupdate", PNone);
    ("compose_file", PStr "docker-compose.yml");
    ("repository_authentication", PBool true);
    ("repository_password", PStr "new-secret");
    ("update_password", PBool update_password);
    ("refs_name", PStr "main");
    ("repository_url", PStr "https://github.com/org/repo.git");
    ("repository_username", PStr "deploy-user");
    ("tls_skip_verify", PNone);
    ("file", PNone) ].

(** The stack as the remote side lists it (the document [stacks]). *)
Definition existing_stack (swarm_id : pyval) : pyval :=
  PDict [ (PF.STACK_ID, PInt 5);
          (PF.STACK_NAME, PStr "webapp");
          (PF.STACK_ENDPOINT_ID, PInt 1);
          (PF.STACK_SWARM_ID, swarm_id);
          (PF.STACK_REPOSITORY_URL, PStr "https://github.com/org/repo.git");
          (PF.STACK_REPOSITORY_USERNAME, PStr "deploy-user");
          (PF.STACK_REPOSITORY_REFERENCE_NAME, PStr "main");
          (PF.STACK_COMPOSE_FILE, PStr "docker-compose.yml") ].

Definition loads_stacks (swarm_id : pyval) (body : string) : option pyval :=
  if String.eqb body "stacks" then Some (PList [existing_stack swarm_id])
  else if String.eqb body "stack" then Some (existing_stack swarm_id)
  else None.

(** The remote side of the stack runs: the list for a GET, the stack for
    any other request. *)
Definition stacks_remote (history : list request) (rq : request) : fetch_result :=
  if String.eqb (req_method rq) "GET" then mkFetch (Some "stacks") 200 "OK" None
  else mkFetch (Some "stack") 200 "OK" None.

Definition stacks_platform (swarm_id : pyval) : platform :=
  platform_of stacks_remote (loads_stacks swarm_id).

(** The objects [StackManager.for_stack] builds for the parameters. *)
Definition stack_objects_of (params : dict) : stack_objects :=
  match StackManager.for_stack params [("changed", PBool false)]
                               (dict_get params "stack_type")
                               (dict_get params "stack_source") with
  | Ok o => o
  | Raise _ =>
      mkStackObjects (StackStateManager.init params)
                     (StackConfig.cls [] [] [] JSON false [] []) PNone []
  end.

(** The module object of a stack run at its start. *)
Definition stack_world (params : dict) (check_mode : bool) : world stack_objects :=
  world0 (stack_objects_of params) params check_mode.

(** The same stack as the API lists it, its repository settings under
    [GitConfig], and as the hook of the stacks hands it on. *)
Definition listed_webapp : pyval :=
  PDict [ (PF.STACK_ID, PInt 5);
          (PF.STACK_NAME, PStr "webapp");
          (PF.STACK_ENDPOINT_ID, PInt 1);
          (PF.STACK_SWARM_ID, PStr "swarm123");
          (PF.STACK_GIT_CONFIGS,
           PDict [ ("URL", PStr "https://github.com/org/repo.git");
                   ("ReferenceName", PStr "main");
                   ("ConfigFilePath", PStr "docker-compose.yml");
                   ("Authentication",
                    PDict [ ("Username", PStr "deploy-user");
                            ("AuthorizationType", PInt 0) ]);
                   ("TLSSkipVerify", PBool false) ]) ].

Definition found_webapp : pyval :=
  match BaseCRUD.stack_process_single_item listed_webapp with
  | Some record => record
  | None => listed_webapp
  end.

Definition loads_listed (body : string) : option pyval :=
  if String.eqb body "stacks" then Some (PList [listed_webapp])
  else if String.eqb body "stack" then Some listed_webapp
  else None.

Definition listed_platform : platform := platform_of stacks_remote loads_listed.

(** The module object of a stack run once [run] has looked the stack up
    and found [record]. *)
Definition stack_world_holding (record : pyval) (params : dict)
           (check_mode : bool) : world stack_objects :=
  let w := stack_world params check_mode in
  let o := self w in
  let m := StackStateManager.update_state (state_manager o) record in
  let m :=
    match record with
    | PDict d => StackStateManager.set_old_stack m d
    | _ => m
    end in
  set_self w (with_state_manager o m).

(** The parameters of the config scenario: the config exists with another
    content, and [force] is not set. *)
Definition config_params : dict :=
  [ ("name", PStr "test_config");
    ("config_id", PNone);
    ("file", PNone);
    ("content", PStr "Config data updated");
    ("b64_encoded", PBool false);
    ("endpoint_id", PInt 1);
    ("force", PBool false);
    ("state", PStr "present") ].

Definition existing_config : dict :=
  [ (PF.CONFIG_ID, PInt 1);
    (PF.CONFIG_NAME, PStr "test_config");
    (PF.CONFIG_DATA, PStr "Config data") ].

Definition loads_configs (body : string) : option pyval :=
  if String.eqb body "configs" then Some (PList [PDict existing_config]) else None.

Definition configs_platform : platform :=
  platform_of (always (mkFetch (Some "configs") 200 "OK" None)) loads_configs.

Definition config_world : world ConfigManager.PortainerConfigManager :=
  world0 (ConfigManager.init config_params ConfigManager.main_results)
         config_params false.

(** An existing record, a desired one and the fields to skip, for
    [needs_update]. *)
Definition existing_data : dict :=
  [ ("Name", PStr "web"); ("Prune", PBool false); ("Env", PList []) ].

Definition desired_data : dict :=
  [ ("Name", PStr "web"); ("Prune", PBool true); ("Env", PNone);
    ("UpdateDate", PInt 5); ("PullImage", PBool true) ].

Definition skipped : option (list string) := Some ["UpdateDate"].

(** A remote side that is down: 500 for every request. *)
Definition server_error : fetch_result :=
  mkFetch None 500 "Internal Server Error" (Some (PStr "boom")).

(** 202 Accepted, with an empty JSON object as body. *)
Definition accepted : fetch_result :=
  mkFetch (Some "{}") 202 "OK (2 bytes)" None.

Definition loads_object (body : string) : option pyval :=
  if String.eqb body "{}" then Some (PDict []) else None.

End Samples.

(* ===================================================================== *)
(** * Properties *)
(* ===================================================================== *)

Unset Implicit Arguments.

(** ** Dictionaries *)

Section DictFacts.
Context {V : Type}.
Implicit Types (d : list (string * V)) (k : string) (v : V).

Lemma dict_contains_In d k :
  dict_contains d k = true <-> In k (dict_keys d).
Proof.
  induction d as [|[k' v'] r IH]; simpl.
  - split; [discriminate | contradiction].
  - destruct (String.eqb_spec k' k) as [->|Hne].
    + split; auto.
    + rewrite IH. split; [auto | intros [E|H]; [contradiction | exact H]].
Qed.

Lemma dict_contains_false d k :
  dict_contains d k = false <-> ~ In k (dict_keys d).
Proof.
  rewrite <- dict_contains_In. destruct (dict_contains d k).
  - split; [discriminate | intros H; exfalso; apply H; reflexivity].
  - split; [intros _ H; discriminate | reflexivity].
Qed.

Lemma dict_lookup_None d k :
  dict_lookup d k = None <-> ~ In k (dict_keys d).
Proof.
  induction d as [|[k' v'] r IH]; simpl.
  - split; auto.
  - destruct (String.eqb_spec k' k) as [->|Hne].
    + split; [discriminate | intros H; exfalso; auto].
    + rewrite IH. split; [intros H [E|H']; auto | auto].
Qed.

Lemma dict_lookup_In d k v :
  dict_lookup d k = Some v -> In (k, v) d.
Proof.
  induction d as [|[k' v'] r IH]; simpl; [discriminate|].
  destruct (String.eqb_spec k' k) as [->|Hne].
  - intros [= ->]. now left.
  - intros H. right. auto.
Qed.

Lemma In_dict_lookup d k v :
  NoDup (dict_keys d) -> In (k, v) d -> dict_lookup d k = Some v.
Proof.
  induction d as [|[k' v'] r IH]; simpl; [contradiction|].
  intros Hnd Hin. inversion Hnd as [|? ? Hk' Hr]; subst.
  destruct Hin as [[= -> ->]|Hin].
  - now rewrite String.eqb_refl.
  - destruct (String.eqb_spec k' k) as [->|Hne]; [|auto].
    exfalso. apply Hk'. change (In k (map fst r)).
    apply (in_map fst) in Hin. exact Hin.
Qed.

Lemma dict_lookup_set d k v k' :
  dict_lookup (dict_set d k v) k' =
  if String.eqb k k' then Some v else dict_lookup d k'.
Proof.
  induction d as [|[k0 v0] r IH]; simpl.
  - reflexivity.
  - destruct (String.eqb_spec k0 k) as [->|Hne]; simpl.
    + destruct (String.eqb_spec k k'); reflexivity.
    + rewrite IH. destruct (String.eqb_spec k0 k') as [->|Hne'].
      * destruct (String.eqb_spec k k'); [congruence | reflexivity].
      * reflexivity.
Qed.

Lemma dict_lookup_In_set d k v k' v' :
  In (k', v') (dict_set d k v) -> (k' = k /\ v' = v) \/ In (k', v') d.
Proof.
  induction d as [|[k0 v0] r IH]; simpl.
  - intros [[= <- <-]|[]]. now left.
  - destruct (String.eqb_spec k0 k) as [->|Hne]; simpl.
    + intros [[= <- <-]|H]; [now left | right; now right].
    + intros [H|H]; [right; now left|].
      destruct (IH H) as [E|E]; [now left | right; now right].
Qed.

Lemma dict_set_fresh d k v :
  ~ In k (dict_keys d) -> dict_set d k v = d ++ [(k, v)].
Proof.
  induction d as [|[k0 v0] r IH]; simpl; intros H.
  - reflexivity.
  - destruct (String.eqb_spec k0 k) as [->|Hne].
    + exfalso. auto.
    + rewrite IH by auto. reflexivity.
Qed.

Lemma dict_lookup_filter_keys (p : string -> bool) d k :
  dict_lookup (filter (fun kv => p (fst kv)) d) k =
  if p k then dict_lookup d k else None.
Proof.
  induction d as [|[k0 v0] r IH]; simpl.
  - now destruct (p k).
  - destruct (p k0) eqn:Hp; simpl.
    + destruct (String.eqb_spec k0 k) as [->|Hne].
      * now rewrite Hp.
      * exact IH.
    + destruct (String.eqb_spec k0 k) as [->|Hne].
      * rewrite IH, Hp. reflexivity.
      * exact IH.
Qed.

Lemma dict_lookup_filter (p : string * V -> bool) d k :
  NoDup (dict_keys d) ->
  dict_lookup (filter p d) k =
  match dict_lookup d k with
  | Some v => if p (k, v) then Some v else None
  | None => None
  end.
Proof.
  induction d as [|[k0 v0] r IH]; simpl; intros Hnd.
  - reflexivity.
  - inversion Hnd as [|? ? Hk0 Hr]; subst.
    destruct (String.eqb_spec k0 k) as [->|Hne].
    + destruct (p (k, v0)) eqn:Hp; simpl.
      * now rewrite String.eqb_refl.
      * rewrite IH by assumption.
        assert (dict_lookup r k = None) as -> by now apply dict_lookup_None.
        reflexivity.
    + destruct (p (k0, v0)); simpl.
      * destruct (String.eqb_spec k0 k); [contradiction | auto].
      * auto.
Qed.

End DictFacts.

Lemma str_in_In x l : str_in x l = true <-> In x l.
Proof.
  unfold str_in. rewrite existsb_exists. split.
  - intros [y [Hy E]]. apply String.eqb_eq in E. now subst.
  - intros H. exists x. split; [assumption | apply String.eqb_refl].
Qed.

Lemma py_eq_None_r v : py_eq v PNone = is_none v.
Proof. destruct v; try reflexivity; simpl; destruct l; reflexivity. Qed.

Lemma is_none_spec v : is_none v = true <-> v = PNone.
Proof. destruct v; simpl; split; intros; congruence. Qed.

Lemma is_none_false v : is_none v = false <-> v <> PNone.
Proof. destruct v; simpl; split; intros; congruence. Qed.

(** ** IdempotencyManager.needs_update *)

Module IdempotencyFacts.
Import IdempotencyManager.

Lemma needs_update_loop existing_data skip_fields new_data changes :
  NoDup (dict_keys new_data) ->
  (forall k, In k (dict_keys new_data) -> ~ In k (dict_keys changes)) ->
  fold_left (needs_update_step existing_data skip_fields) new_data changes =
  changes ++ filter (differs existing_data skip_fields) new_data.
Proof.
  revert changes.
  induction new_data as [|[k v] r IH]; simpl; intros changes Hnd Hfresh.
  - now rewrite app_nil_r.
  - inversion Hnd as [|? ? Hk Hr]; subst.
    unfold differs at 1. simpl.
    destruct (str_in k skip_fields); simpl.
    + apply IH; auto.
    + destruct (py_ne v (dict_get existing_data k)); simpl.
      * rewrite dict_set_fresh by auto.
        rewrite IH; [now rewrite <- app_assoc | assumption |].
        intros k' Hk' Hin. unfold dict_keys in Hin.
        rewrite map_app in Hin. apply in_app_or in Hin.
        destruct Hin as [Hin | [<- | []]].
        -- apply (Hfresh k'); auto.
        -- auto.
      * apply IH; auto.
Qed.

(** On a dictionary (no key twice), [needs_update] is a filter of
    [new_data], in the order of [new_data]. *)
Lemma needs_update_filter existing_data new_data skip_fields :
  NoDup (dict_keys new_data) ->
  needs_update existing_data new_data skip_fields =
  filter (fun kv => differs existing_data (or_empty skip_fields) kv
                    && negb (is_none (snd kv))) new_data.
Proof.
  intros Hnd. unfold needs_update.
  rewrite needs_update_loop by (simpl; auto). simpl.
  induction new_data as [|kv r IH]; simpl; [reflexivity|].
  inversion Hnd; subst.
  destruct (differs existing_data (or_empty skip_fields) kv); simpl.
  - destruct (is_none (snd kv)); simpl; now rewrite IH.
  - now rewrite IH.
Qed.

(** C2: the change-set of [needs_update existing desired skip_fields] holds
    exactly the keys of [desired] that are not skipped, whose desired value is
    not [None] and differs ([!=]) from [existing.get(key)], each with its
    desired value; a key absent from [existing] counts as differing; a key
    whose desired value is [None] is never in the change-set; and the
    change-set is empty exactly when no key of [desired] qualifies. *)
Theorem needs_update_exact (existing desired : dict)
        (skip_fields : option (list string)) :
  NoDup (dict_keys desired) ->
  let changes := needs_update existing desired skip_fields in
  (forall k v,
      dict_lookup changes k = Some v <->
      dict_lookup desired k = Some v
      /\ ~ In k (or_empty skip_fields)
      /\ v <> PNone
      /\ py_ne v (dict_get existing k) = true)
  /\ (forall k v,
         dict_lookup desired k = Some v -> ~ In k (or_empty skip_fields) ->
         v <> PNone -> dict_lookup existing k = None ->
         dict_lookup changes k = Some v)
  /\ (forall k, dict_lookup desired k = Some PNone -> dict_lookup changes k = None)
  /\ (changes = [] <->
      forall k v, dict_lookup desired k = Some v ->
                  In k (or_empty skip_fields) \/ v = PNone
                  \/ py_ne v (dict_get existing k) = false).
Proof.
  intros Hnd changes.
  assert (Hchar : forall k v,
             dict_lookup changes k = Some v <->
             dict_lookup desired k = Some v
             /\ ~ In k (or_empty skip_fields)
             /\ v <> PNone
             /\ py_ne v (dict_get existing k) = true).
  { intros k v. unfold changes. rewrite needs_update_filter by assumption.
    rewrite dict_lookup_filter by assumption.
    destruct (dict_lookup desired k) as [v'|] eqn:Hl.
    - unfold differs. simpl.
      destruct (str_in k (or_empty skip_fields)) eqn:Hs; simpl.
      + split; [discriminate|]. intros (_ & Hn & _). exfalso. apply Hn.
        now apply str_in_In.
      + assert (Hn : ~ In k (or_empty skip_fields)).
        { intros H. apply str_in_In in H. congruence. }
        destruct (py_ne v' (dict_get existing k)) eqn:Hd; simpl.
        * destruct (is_none v') eqn:Hv; simpl.
          -- apply is_none_spec in Hv. subst v'.
             split; [discriminate|]. intros ([= <-] & _ & H & _). congruence.
          -- apply is_none_false in Hv.
             split.
             ++ intros [= <-]. auto.
             ++ intros (E & _). exact E.
        * split; [discriminate|]. intros ([= <-] & _ & _ & H). congruence.
    - split; [discriminate | intros (H & _); discriminate]. }
  clearbody changes.
  split; [exact Hchar|]. split; [|split].
  - intros k v Hd Hs Hv He. apply Hchar. repeat split; auto.
    unfold dict_get. rewrite He. unfold py_ne. rewrite py_eq_None_r.
    apply is_none_false in Hv. now rewrite Hv.
  - intros k Hd. destruct (dict_lookup changes k) as [v|] eqn:Hc; [|reflexivity].
    apply Hchar in Hc. destruct Hc as (Hd' & _ & Hv & _).
    rewrite Hd in Hd'. congruence.
  - split.
    + intros He k v Hd.
      destruct (in_dec string_dec k (or_empty skip_fields)) as [|Hs]; [now left|].
      destruct v; try (destruct (py_ne _ (dict_get existing k)) eqn:Hp;
                       [|right; right; reflexivity];
                       assert (Hc : dict_lookup changes k = Some _)
                         by (apply Hchar; repeat split; eauto; discriminate);
                       rewrite He in Hc; discriminate).
      right; left; reflexivity.
    + intros Hall. destruct changes as [|[k v] r]; [reflexivity|].
      assert (Hl : dict_lookup ((k, v) :: r) k = Some v).
      { simpl. now rewrite String.eqb_refl. }
      apply Hchar in Hl.
      destruct Hl as (Hd & Hs & Hv & Hp).
      destruct (Hall k v Hd) as [H|[H|H]]; [contradiction | contradiction | congruence].
Qed.

(** A key that is skipped never enters the change-set. *)
Lemma skipped_key_not_in_loop (existing_data : dict) (skip_fields : list string)
      (new_data changes : dict) (k : string) (v : pyval) :
  str_in k skip_fields = true ->
  ~ In (k, v) changes ->
  ~ In (k, v)
      (fold_left (IdempotencyManager.needs_update_step existing_data skip_fields)
                 new_data changes).
Proof.
  intros Hs. revert changes.
  induction new_data as [|[k' v'] r IH]; intros changes Hc; simpl; [exact Hc|].
  apply IH.
  destruct (str_in k' skip_fields) eqn:Hs'; [exact Hc|].
  destruct (py_ne v' (dict_get existing_data k')); [|exact Hc].
  intros Hin. apply dict_lookup_In_set in Hin.
  destruct Hin as [[E _]|Hin]; [congruence | contradiction].
Qed.

End IdempotencyFacts.

(** ** PortainerClient._make_request *)

Module ClientFacts.
Import Client.

Section WithPlatform.
Variable pf : platform.
Variable S : Type.

Lemma set_self_id (w : world S) : set_self w (self w) = w.
Proof. now destruct w. Qed.

(** What a request does, whatever comes back: one entry more in the log,
    and either the decoded body or the typed error. *)
Lemma _make_request_eq (method : RequestMethod) (endpoint : string)
      (params data : option dict) (body_format : option BodyFormat) (w : world S) :
  _make_request pf method endpoint false params data body_format w =
  let r := answer pf w method endpoint params data body_format in
  let w' := world_after pf w method endpoint params data body_format in
  if status_not_ok (info_status r) then
    (Raise (PortainerApiError (info_msg r) (info_status r) (info_get_body r)
                              (request_url pf (client w) endpoint params)
                              (RequestMethod_value method)
                              (match data with None => [] | Some d => d end)),
     w')
  else (response_value pf r, w').
Proof.
  unfold _make_request, answer, world_after, sent_request, client_after, bind,
    get_client, do_fetch_url, ret, raise.
  destruct body_format as [[|]|]; simpl.
  - destruct w as [s p cm df c cr ca cl wa]; destruct c as [u t ti h]; simpl.
    match goal with |- context [status_not_ok ?x] => destruct (status_not_ok x) end;
      [reflexivity|].
    unfold read_response, response_value, ret, raise.
    match goal with |- context [resp ?x] => destruct (resp x) as [b|] end;
      [|reflexivity].
    destruct (String.eqb b EmptyString); [reflexivity|].
    destruct (json_loads pf b); reflexivity.
  - destruct (encode_multipart_formdata pf _) as [body ct] eqn:He.
    unfold bind, set_content_type, ret. simpl.
    destruct w as [s p cm df c cr ca cl wa]; destruct c as [u t ti h]; simpl.
    match goal with |- context [status_not_ok ?x] => destruct (status_not_ok x) end;
      [reflexivity|].
    unfold read_response, response_value, ret, raise.
    match goal with |- context [resp ?x] => destruct (resp x) as [b|] end;
      [|reflexivity].
    destruct (String.eqb b EmptyString); [reflexivity|].
    destruct (json_loads pf b); reflexivity.
  - destruct w as [s p cm df c cr ca cl wa]; destruct c as [u t ti h]; simpl.
    match goal with |- context [status_not_ok ?x] => destruct (status_not_ok x) end;
      [reflexivity|].
    unfold read_response, response_value, ret, raise.
    match goal with |- context [resp ?x] => destruct (resp x) as [b|] end;
      [|reflexivity].
    destruct (String.eqb b EmptyString); [reflexivity|].
    destruct (json_loads pf b); reflexivity.
Qed.

End WithPlatform.
End ClientFacts.

Module ClientClaims.
Import Client.

(** C6 (amended): a request is a success exactly when the status is 200, 201
    or 204: then the body is parsed as JSON and returned ([None] when there
    is no body); every other status, the other 2xx ones included, raises
    [PortainerApiError] with the status, the body of the answer, the URL
    asked for, the method and the payload. *)
Theorem make_request_classifies (pf : platform) (S : Type)
        (method : RequestMethod) (endpoint : string)
        (params data : option dict) (body_format : option BodyFormat)
        (w : world S) :
  let r := answer pf w method endpoint params data body_format in
  let w' := world_after pf w method endpoint params data body_format in
  _make_request pf method endpoint false params data body_format w =
  if Z.eqb (info_status r) 200 || Z.eqb (info_status r) 201
     || Z.eqb (info_status r) 204
  then (response_value pf r, w')
  else (Raise (PortainerApiError (info_msg r) (info_status r) (info_get_body r)
                                 (request_url pf (client w) endpoint params)
                                 (RequestMethod_value method)
                                 (match data with None => [] | Some d => d end)),
        w').
Proof.
  intros r w'. rewrite ClientFacts._make_request_eq.
  fold r w'. unfold status_not_ok. simpl. rewrite orb_false_r.
  rewrite <- orb_assoc.
  destruct (Z.eqb (info_status r) 200
            || (Z.eqb (info_status r) 201 || Z.eqb (info_status r) 204));
    reflexivity.
Qed.

(** C6 as stated fails: 202 is a 2xx status, and the request raises. *)
Lemma make_request_accepted_raises :
  let pf := Samples.platform_of (Samples.always Samples.accepted)
                                Samples.loads_object in
  let w := Samples.world0 tt [] false in
  200 <= info_status (answer pf w GET "/endpoints" None None None) < 300
  /\ fst (_make_request pf GET "/endpoints" false None None None w) =
     Raise (PortainerApiError "OK (2 bytes)" 202 (PStr EmptyString)
                              "https://portainer.example.com/api/endpoints"
                              "GET" []).
Proof. split; [simpl; lia | reflexivity]. Qed.

End ClientClaims.

(** ** The monad *)

Section MonadFacts.
Context {S : Type}.

Lemma unchanged_ret {A : Type} (a : A) : unchanged (@ret S A a).
Proof. intros w. reflexivity. Qed.

Lemma unchanged_raise {A : Type} (e : exn) : unchanged (@raise S A e).
Proof. intros w. reflexivity. Qed.

Lemma unchanged_lift {A : Type} (o : outcome A) : unchanged (@lift S A o).
Proof. intros w. destruct o; reflexivity. Qed.

Lemma unchanged_bind {A B : Type} (m : M S A) (f : A -> M S B) :
  unchanged m -> (forall a, unchanged (f a)) -> unchanged (bind m f).
Proof.
  intros Hm Hf w. unfold bind. specialize (Hm w).
  destruct (m w) as [[a|e] w1]; simpl in *; subst.
  - apply Hf.
  - reflexivity.
Qed.

Lemma unchanged_mapM {A B : Type} (f : A -> M S B) (l : list A) :
  (forall a, unchanged (f a)) -> unchanged (mapM f l).
Proof.
  intros Hf. induction l as [|x r IH]; simpl.
  - apply unchanged_ret.
  - apply unchanged_bind; [apply Hf|]. intros y.
    apply unchanged_bind; [exact IH|]. intros ys. apply unchanged_ret.
Qed.

Lemma unchanged_filterM {A : Type} (p : A -> M S bool) (l : list A) :
  (forall a, unchanged (p a)) -> unchanged (filterM p l).
Proof.
  intros Hp. induction l as [|x r IH]; simpl.
  - apply unchanged_ret.
  - apply unchanged_bind; [apply Hp|]. intros b.
    apply unchanged_bind; [exact IH|]. intros ys. apply unchanged_ret.
Qed.

Lemma bind_unchanged_snd {A B : Type} (m : M S A) (f : A -> M S B) w :
  (forall a, unchanged (f a)) -> snd (bind m f w) = snd (m w).
Proof.
  intros Hf. unfold bind. destruct (m w) as [[a|e] w1]; simpl.
  - apply Hf.
  - reflexivity.
Qed.

Lemma bind_congr {A B : Type} (m m' : M S A) (f : A -> M S B) w :
  m w = m' w -> bind m f w = bind m' f w.
Proof. unfold bind. now intros ->. Qed.

Lemma bind_ok {A B : Type} (m : M S A) (f : A -> M S B) w a w' :
  m w = (Ok a, w') -> bind m f w = f a w'.
Proof. unfold bind. now intros ->. Qed.

Lemma bind_bind_ok {A B C : Type} (m : M S A) (f : A -> M S B)
      (g : B -> M S C) w a w' :
  m w = (Ok a, w') -> bind (bind m f) g w = bind (f a) g w'.
Proof. unfold bind. now intros ->. Qed.

Lemma calls_bind {A B : Type} (m : M S A) (f : A -> M S B) w :
  (forall a w1, calls (snd (f a w1)) = calls w1) ->
  calls (snd (bind m f w)) = calls (snd (m w)).
Proof.
  intros Hf. unfold bind. destruct (m w) as [[a|e] w1]; simpl; [apply Hf|reflexivity].
Qed.

Lemma bind_get_self {B : Type} (f : S -> M S B) w :
  bind get_self f w = f (self w) w.
Proof. reflexivity. Qed.

Lemma bind_get_world {B : Type} (f : world S -> M S B) w :
  bind get_world f w = f w w.
Proof. reflexivity. Qed.

Lemma bind_ret_l {A B : Type} (a : A) (f : A -> M S B) w :
  bind (ret a) f w = f a w.
Proof. reflexivity. Qed.



End MonadFacts.

Lemma append_assoc (a b c : string) : (a ^^ b) ^^ c = a ^^ b ^^ c.
Proof. induction a as [|x a IH]; simpl; [reflexivity | now rewrite IH]. Qed.

(** ** portainer_crud.py *)

Module CRUDFacts.
Import BaseCRUD.

Lemma crud_class_eqb_eq a b : crud_class_eqb a b = true <-> a = b.
Proof. destruct a, b; simpl; split; intros; congruence. Qed.

Lemma crud_class_eqb_refl a : crud_class_eqb a a = true.
Proof. now destruct a. Qed.

Lemma update_method_of_cases cls c :
  update_method_of cls c = POST \/ update_method_of cls c = PUT.
Proof.
  destruct cls; simpl; auto. destruct (swarm_repository c); auto.
Qed.

Section WithPlatform.
Variable pf : platform.
Variable S : Type.

Lemma bind_get_crud {B : Type} cls (f : CRUD -> M S B) w :
  bind (get_crud cls) f w = f (crud w cls) w.
Proof. reflexivity. Qed.

Lemma unchanged_process_single_item cls item :
  cls <> EnvironmentCRUD -> unchanged (@_process_single_item pf S cls item).
Proof.
  intros Hc. destruct cls; simpl; try congruence;
    try apply unchanged_ret.
  destruct (stack_process_single_item item);
    [apply unchanged_ret | destruct item; apply unchanged_raise].
Qed.

Lemma unchanged_process_response_with (hook : pyval -> M S pyval) data :
  (forall item, unchanged (hook item)) ->
  unchanged (_process_response_with hook data).
Proof.
  intros Hh. unfold _process_response_with.
  destruct (negb (py_truthy data)); [apply unchanged_ret|].
  destruct data; try apply Hh.
  apply unchanged_bind; [now apply unchanged_mapM|].
  intros; apply unchanged_ret.
Qed.

Lemma unchanged_process_response cls data :
  cls <> EnvironmentCRUD -> unchanged (@_process_response pf S cls data).
Proof.
  intros Hc. apply unchanged_process_response_with.
  intros item. now apply unchanged_process_single_item.
Qed.

End WithPlatform.
End CRUDFacts.

Module CRUDRequests.
Import BaseCRUD.

Section WithPlatform.
Variable pf : platform.
Variable S : Type.

Lemma snd_make_request method endpoint params data body_format (w : world S) :
  snd (Client._make_request pf method endpoint false params data body_format w) =
  Client.world_after pf w method endpoint params data body_format.
Proof.
  rewrite ClientFacts._make_request_eq. simpl.
  destruct (Client.status_not_ok _); reflexivity.
Qed.

Lemma snd_request_then {B : Type} method endpoint params data body_format
      (f : pyval -> M S B) (w : world S) :
  (forall a, unchanged (f a)) ->
  snd (bind (Client._make_request pf method endpoint false params data body_format)
            f w) =
  Client.world_after pf w method endpoint params data body_format.
Proof.
  intros Hf. rewrite bind_unchanged_snd by assumption. apply snd_make_request.
Qed.

(** [list_items] sends one GET to the endpoint of the object. *)
Lemma list_items_sends cls params (w : world S) e :
  cls <> EnvironmentCRUD ->
  endpoint_of cls (crud w cls) = Ok e ->
  snd (list_items pf cls params w) =
  Client.world_after pf w GET e params None None.
Proof.
  intros Hc He. unfold list_items, list_items_with, endpoint.
  unfold bind at 1 2. unfold get_crud. simpl. rewrite He. simpl.
  apply snd_request_then. intros a.
  apply CRUDFacts.unchanged_process_response_with.
  intros item. now apply CRUDFacts.unchanged_process_single_item.
Qed.

(** [get_item_by_id] sends one GET to the endpoint of the item. *)
Lemma get_item_by_id_sends cls item_id (w : world S) e :
  cls <> EnvironmentCRUD ->
  endpoint_of cls (crud w cls) = Ok e ->
  is_none item_id = false ->
  snd (get_item_by_id pf cls item_id w) =
  Client.world_after pf w GET (e ^^ "/" ^^ py_str item_id) None None None.
Proof.
  intros Hc He Hid. unfold get_item_by_id, endpoint. rewrite Hid.
  unfold bind at 1 2. unfold get_crud. simpl. rewrite He. simpl.
  apply snd_request_then. intros a.
  now apply CRUDFacts.unchanged_process_response.
Qed.

(** [create_item] sends one POST to the create endpoint. *)
Lemma create_item_sends cls name item_data body_format params (w : world S) e :
  cls <> EnvironmentCRUD -> cls <> SwarmCRUD ->
  create_endpoint_of cls (crud w cls) = Ok e ->
  py_truthy name = true ->
  snd (create_item pf cls name item_data body_format params w) =
  Client.world_after pf w POST e params
    (Some (dict_update [(name_field (crud w cls), name)]
                       (match item_data with Some d => d | None => [] end)))
    body_format.
Proof.
  intros Hc Hs He Hn.
  assert (E : create_item pf cls name item_data body_format params w =
              base_create_item pf cls name item_data body_format params w)
    by (destruct cls; try reflexivity; congruence).
  rewrite E. unfold base_create_item, _get_create_endpoint. rewrite Hn. simpl.
  unfold bind at 1 2. unfold get_crud. simpl. rewrite He. simpl.
  unfold bind at 1. simpl.
  apply snd_request_then. intros a.
  now apply CRUDFacts.unchanged_process_response.
Qed.

(** [update_item] sends one request to the update endpoint, with the verb
    of [_update_method]. *)
Lemma update_item_sends cls item_id changes params (w : world S) e :
  cls <> EnvironmentCRUD -> cls <> SwarmCRUD ->
  update_endpoint_of cls (crud w cls) item_id = Ok e ->
  is_none item_id = false ->
  snd (update_item pf cls item_id changes params w) =
  Client.world_after pf w (update_method_of cls (crud w cls)) e params
                     (Some changes) None.
Proof.
  intros Hc Hs He Hid.
  assert (E : update_item pf cls item_id changes params w =
              (e <- _get_update_endpoint cls item_id ;;
               data <- _update_method pf cls e (Some changes) params ;;
               _process_response pf cls data) w).
  { destruct cls; try congruence; unfold update_item; rewrite Hid; reflexivity. }
  rewrite E. unfold _get_update_endpoint.
  unfold bind at 1 2. unfold get_crud. simpl. rewrite He. simpl.
  assert (Hu : _update_method pf cls e (Some changes) params w =
               Client._make_request pf (update_method_of cls (crud w cls)) e
                                    false params (Some changes) None w).
  { unfold _update_method, bind, get_crud. simpl.
    destruct (CRUDFacts.update_method_of_cases cls (crud w cls)) as [-> | ->];
      reflexivity. }
  erewrite bind_congr by exact Hu.
  apply snd_request_then. intros a.
  now apply CRUDFacts.unchanged_process_response.
Qed.

(** [delete_item_by_id] sends one DELETE to the endpoint of the item. *)
Lemma delete_item_by_id_sends cls item_id params (w : world S) e :
  cls <> SwarmCRUD ->
  delete_endpoint_of cls (crud w cls) item_id = Ok e ->
  is_none item_id = false ->
  snd (delete_item_by_id pf cls item_id params w) =
  Client.world_after pf w DELETE e params None None.
Proof.
  intros Hs He Hid.
  assert (E : delete_item_by_id pf cls item_id params w =
              (e <- _get_delete_endpoint cls item_id ;;
               Client.delete pf e params ;; ret tt) w).
  { destruct cls; try congruence; unfold delete_item_by_id; rewrite Hid;
      reflexivity. }
  rewrite E. unfold _get_delete_endpoint.
  unfold bind at 1 2. unfold get_crud. simpl. rewrite He. simpl.
  apply snd_request_then. intros a. apply unchanged_ret.
Qed.

End WithPlatform.
End CRUDRequests.

Module CRUDClaims.
Import BaseCRUD.

(** C3: for the stack adapter with stack type [t] and stack source [s], the
    create endpoint is [/stacks/create/t/s]; the update endpoint is
    [/stacks/{id}/git] with POST exactly when [t] is swarm and [s] is
    repository, and [/stacks/{id}] with PUT otherwise. *)
Theorem stack_endpoints (t s : string) (id : pyval) :
  let c := StackCRUD_init [("stack_type", PStr t); ("stack_source", PStr s)] in
  let git := String.eqb t "swarm" && String.eqb s "repository" in
  create_endpoint_of StackCRUD c = Ok ("/stacks/create/" ^^ t ^^ "/" ^^ s)
  /\ update_endpoint_of StackCRUD c id =
     Ok (if git then "/stacks/" ^^ py_str id ^^ "/git"
         else "/stacks/" ^^ py_str id)
  /\ update_method_of StackCRUD c = (if git then POST else PUT).
Proof.
  simpl. unfold update_endpoint_of, update_method_of, swarm_repository. simpl.
  destruct (String.eqb t "swarm"), (String.eqb s "repository"); simpl;
    repeat split; reflexivity.
Qed.

(** The four rows of the table of the stack adapter. *)
Corollary stack_endpoint_rows (id : Z) :
  let c t s := StackCRUD_init [("stack_type", PStr t); ("stack_source", PStr s)] in
  let row t s :=
    (create_endpoint_of StackCRUD (c t s),
     update_endpoint_of StackCRUD (c t s) (PInt id),
     update_method_of StackCRUD (c t s)) in
  row "standalone" "file" =
    (Ok "/stacks/create/standalone/file", Ok ("/stacks/" ^^ str_of_Z id), PUT)
  /\ row "standalone" "repository" =
    (Ok "/stacks/create/standalone/repository", Ok ("/stacks/" ^^ str_of_Z id), PUT)
  /\ row "swarm" "file" =
    (Ok "/stacks/create/swarm/file", Ok ("/stacks/" ^^ str_of_Z id), PUT)
  /\ row "swarm" "repository" =
    (Ok "/stacks/create/swarm/repository",
     Ok ("/stacks/" ^^ str_of_Z id ^^ "/git"), POST).
Proof. repeat split. Qed.

(** C4 as stated fails: the network adapter with environment 1 lists
    [/endpoints/1/docker/networks], which does not start with
    [/environments/1/proxy/]. *)
Lemma docker_endpoint_not_under_environments :
  let c := with_endpoint_id (PortainerCRUD_init [] DockerNetworkCRUD) (PInt 1) in
  endpoint_of DockerNetworkCRUD c = Ok "/endpoints/1/docker/networks"
  /\ starts_with "/environments/1/proxy/" "/endpoints/1/docker/networks" = false.
Proof. split; reflexivity. Qed.

Section WithPlatform.
Variable pf : platform.
Variable S : Type.

(** C4 (amended): for the network, config, secret and swarm adapters with
    selected environment [E], the paths of list, get, create, update and
    delete are the Docker subpath ([/networks], [/configs], [/secrets],
    [/swarm], then [/{id}], [/create], [/{id}/update], [/{id}]) prefixed by
    [/endpoints/{E}/docker], and these are the paths the requests of the
    adapter go to; the swarm adapter sends no request for create, update
    and delete: it answers the empty record, or nothing, and leaves the
    module object as it was. *)
Theorem docker_paths_prefixed (cls : crud_class) (params : dict) (E : Z)
        (id : pyval) :
  is_docker cls = true ->
  let c := with_endpoint_id (PortainerCRUD_init params cls) (PInt E) in
  let base := "/endpoints/" ^^ str_of_Z E ^^ "/docker" ^^ docker_subpath cls in
  (endpoint_of cls c = Ok base
   /\ delete_endpoint_of cls c id = Ok (base ^^ "/" ^^ py_str id)
   /\ create_endpoint_of cls c = Ok (base ^^ "/create")
   /\ update_endpoint_of cls c id = Ok (base ^^ "/" ^^ py_str id ^^ "/update")
   /\ update_method_of cls c = PUT)
  /\ forall w : world S,
      crud w cls = c ->
      (forall prm,
          snd (list_items pf cls prm w) =
          Client.world_after pf w GET base prm None None)
      /\ (is_none id = false ->
          snd (get_item_by_id pf cls id w) =
          Client.world_after pf w GET (base ^^ "/" ^^ py_str id) None None None)
      /\ (cls <> SwarmCRUD ->
          (forall name item_data body_format prm,
              py_truthy name = true ->
              snd (create_item pf cls name item_data body_format prm w) =
              Client.world_after pf w POST (base ^^ "/create") prm
                (Some (dict_update [("Name", name)]
                         (match item_data with Some d => d | None => [] end)))
                body_format)
          /\ (forall changes prm,
                 is_none id = false ->
                 snd (update_item pf cls id changes prm w) =
                 Client.world_after pf w PUT (base ^^ "/" ^^ py_str id ^^ "/update")
                                    prm (Some changes) None)
          /\ (forall prm,
                 is_none id = false ->
                 snd (delete_item_by_id pf cls id prm w) =
                 Client.world_after pf w DELETE (base ^^ "/" ^^ py_str id)
                                    prm None None))
      /\ (cls = SwarmCRUD ->
          (forall name item_data body_format prm,
              create_item pf cls name item_data body_format prm w
              = (Ok (PDict []), w))
          /\ (forall item_id changes prm,
                 update_item pf cls item_id changes prm w = (Ok (PDict []), w))
          /\ (forall item_id prm,
                 delete_item_by_id pf cls item_id prm w = (Ok tt, w))
          /\ (forall name, delete_item_by_name pf cls name w = (Ok tt, w))).
Proof.
  intros Hd c base.
  assert (Hpaths :
            endpoint_of cls c = Ok base
            /\ delete_endpoint_of cls c id = Ok (base ^^ "/" ^^ py_str id)
            /\ create_endpoint_of cls c = Ok (base ^^ "/create")
            /\ update_endpoint_of cls c id =
               Ok (base ^^ "/" ^^ py_str id ^^ "/update")
            /\ update_method_of cls c = PUT).
  { unfold delete_endpoint_of, create_endpoint_of, update_endpoint_of, endpoint_of.
    subst c base. destruct cls; try discriminate; simpl;
      rewrite ?append_assoc; simpl; rewrite ?append_assoc; simpl;
      repeat split; reflexivity. }
  split; [exact Hpaths|].
  destruct Hpaths as (He & Hde & Hce & Hue & Hm).
  assert (Hne : cls <> EnvironmentCRUD) by (intros ->; discriminate).
  assert (Hnf : name_field c = "Name")
    by (subst c; destruct cls; try discriminate; reflexivity).
  intros w Hw. rewrite <- Hw in He, Hde, Hce, Hue, Hm, Hnf.
  split; [|split; [|split; [intros Hs; split; [|split]|]]].
  - intros prm. now apply CRUDRequests.list_items_sends.
  - intros Hid. now apply CRUDRequests.get_item_by_id_sends.
  - intros name item_data body_format prm Hn.
    rewrite <- Hnf. now apply CRUDRequests.create_item_sends.
  - intros changes prm Hid. rewrite <- Hm.
    now apply CRUDRequests.update_item_sends.
  - intros prm Hid. now apply CRUDRequests.delete_item_by_id_sends.
  - intros ->. repeat split.
Qed.

(** C9: [with crud.using_endpoint(E): body] runs [body] with [E] as the
    selected environment of the adapter, and gives back what [body] gives
    back, a result or an exception; on exit the selected environment is the
    one from before entry, in both cases; every other attribute of the
    adapter, every other adapter and the rest of the module object are as
    [body] left them. *)
Theorem using_endpoint_scoped (A : Type) (cls : crud_class) (E : pyval)
        (body : M S A) (w : world S) :
  is_docker cls = true ->
  let w_in := with_crud w cls (with_endpoint_id (crud w cls) E) in
  let w_body := snd (body w_in) in
  let w_out := snd (using_endpoint cls E body w) in
  _endpoint_id (crud w_in cls) = E
  /\ (forall cls', cls' <> cls -> crud w_in cls' = crud w cls')
  /\ fst (using_endpoint cls E body w) = fst (body w_in)
  /\ _endpoint_id (crud w_out cls) = _endpoint_id (crud w cls)
  /\ crud w_out cls = with_endpoint_id (crud w_body cls) (_endpoint_id (crud w cls))
  /\ (forall cls', cls' <> cls -> crud w_out cls' = crud w_body cls')
  /\ (self w_out, params w_out, check_mode w_out, _diff w_out, client w_out,
      swarm_info_cache w_out, calls w_out, warnings w_out)
     = (self w_body, params w_body, check_mode w_body, _diff w_body,
        client w_body, swarm_info_cache w_body, calls w_body, warnings w_body).
Proof.
  intros Hd w_in w_body w_out.
  assert (Hrun : using_endpoint cls E body w =
                 (fst (body w_in),
                  with_crud w_body cls
                    (with_endpoint_id (crud w_body cls)
                                      (_endpoint_id (crud w cls))))).
  { unfold using_endpoint. rewrite Hd. simpl.
    unfold bind, get_crud, set_endpoint_id, try_finally. simpl.
    fold w_in. subst w_body. destruct (body w_in) as [r w1]. reflexivity. }
  subst w_out. rewrite Hrun. cbn [fst snd].
  assert (Heq : forall (v : world S) c, crud (with_crud v cls c) cls = c).
  { intros v c. unfold with_crud. simpl.
    now rewrite CRUDFacts.crud_class_eqb_refl. }
  assert (Hother : forall (v : world S) c cls',
             cls' <> cls -> crud (with_crud v cls c) cls' = crud v cls').
  { intros v c cls' Hne. unfold with_crud. simpl.
    destruct (crud_class_eqb cls' cls) eqn:Hc; [|reflexivity].
    apply CRUDFacts.crud_class_eqb_eq in Hc. contradiction. }
  split; [|split; [|split; [|split; [|split; [|split]]]]].
  - unfold w_in. now rewrite Heq.
  - intros cls' Hne. unfold w_in. now apply Hother.
  - reflexivity.
  - now rewrite Heq.
  - now rewrite Heq.
  - intros cls' Hne. now apply Hother.
  - reflexivity.
Qed.

End WithPlatform.
End CRUDClaims.

Module LookupClaims.
Import BaseCRUD.

Section WithPlatform.
Variable pf : platform.
Variable S : Type.










End WithPlatform.


End LookupClaims.

(** ** Stack.to_dict *)

Module StackFacts.

Lemma fold_left_ext_in {A B : Type} (f g : A -> B -> A) (l : list B) (a : A) :
  (forall x, In x l -> forall acc, f acc x = g acc x) ->
  fold_left f l a = fold_left g l a.
Proof.
  revert a. induction l as [|x r IH]; intros a H; simpl; [reflexivity|].
  rewrite (H x (or_introl eq_refl)). apply IH.
  intros y Hy. apply H. now right.
Qed.

(** What [to_dict] holds under a key, read off the mapping. *)
Lemma to_dict_lookup (s : Stack.t) (k0 : string) (l : list (string * string))
      (data : dict) :
  dict_lookup (fold_left (Stack.to_dict_step s) l data) k0 =
  fold_left
    (fun o kv =>
       if String.eqb (fst kv) k0 then
         if is_none (Stack.getattr s (snd kv)) then o
         else Some (if str_in (fst kv) Stack.private_fields then PStr "***"
                    else Stack.getattr s (snd kv))
       else o)
    l (dict_lookup data k0).
Proof.
  revert data. induction l as [|[k a] r IH]; intros data; simpl; [reflexivity|].
  rewrite IH. f_equal. cbv beta iota delta [Stack.to_dict_step fst snd].
  destruct (is_none (Stack.getattr s a)).
  - now destruct (String.eqb k k0).
  - match goal with
    | |- context [if ?b then dict_set _ _ _ else _] => destruct b
    end; now rewrite dict_lookup_set.
Qed.

Lemma to_dict_password (s : Stack.t) :
  dict_lookup (Stack.to_dict s) PF.STACK_REPOSITORY_PASSWORD =
  if is_none (Stack.rep_password s) then None else Some (PStr "***").
Proof.
  unfold Stack.to_dict. rewrite to_dict_lookup. cbn.
  now destruct (is_none (Stack.rep_password s)).
Qed.

Lemma to_dict_same (s1 s2 : Stack.t) :
  same_but_password s1 s2 -> Stack.to_dict s1 = Stack.to_dict s2.
Proof.
  intros [Hsame Hnone]. unfold Stack.to_dict.
  apply fold_left_ext_in. intros [k a] Hin data.
  unfold Stack.fields_mapping in Hin. simpl in Hin.
  repeat (destruct Hin as [[= <- <-]|Hin];
          [first [ cbv beta iota delta [Stack.to_dict_step];
                   rewrite Hsame by discriminate; reflexivity
                 | cbn; rewrite Hnone; reflexivity ] |]).
  contradiction.
Qed.

End StackFacts.

Module StackClaims.
Import StackFacts.

Lemma getattr_other_than_password (s : Stack.t) (p : pyval) (a : string) :
  a <> "rep_password" ->
  Stack.getattr (Stack.setattr s "rep_password" p) a = Stack.getattr s a.
Proof.
  intros Ha. unfold Stack.getattr. cbn.
  repeat match goal with
         | |- context [String.eqb a ?x] =>
             destruct (String.eqb_spec a x); [subst a|]
         end; try reflexivity; congruence.
Qed.

(** C10: when [rep_password] is not [None], [to_dict] holds ["***"] under
    the repository-password key, whatever the password; two stacks that
    differ only in a password that is not [None] have the same [to_dict],
    so the stack that [run] reports (then [to_dict] of the stack) and the
    before/after diff built from the [to_dict] of the old and the new stack
    are the same whatever the passwords. *)
Theorem to_dict_hides_password (pf : platform) (s1 s2 : Stack.t) :
  Stack.rep_password s1 <> PNone ->
  Stack.rep_password s2 <> PNone ->
  (forall a, a <> "rep_password" -> Stack.getattr s1 a = Stack.getattr s2 a) ->
  dict_lookup (Stack.to_dict s1) PF.STACK_REPOSITORY_PASSWORD = Some (PStr "***")
  /\ Stack.to_dict s1 = Stack.to_dict s2
  /\ (forall w : world stack_objects,
         StackStateManager.stack (state_manager (self w)) = s1 ->
         StackManager.reported_stack pf w = (Ok (Stack.to_dict s1), w))
  /\ (forall old1 old2 skip_fields,
         same_but_password old1 old2 ->
         IdempotencyManager.build_diff (Some (Stack.to_dict old1))
                                       (Some (Stack.to_dict s1)) skip_fields =
         IdempotencyManager.build_diff (Some (Stack.to_dict old2))
                                       (Some (Stack.to_dict s2)) skip_fields).
Proof.
  intros H1 H2 Hsame.
  apply is_none_false in H1. apply is_none_false in H2.
  assert (Hlook : dict_lookup (Stack.to_dict s1) PF.STACK_REPOSITORY_PASSWORD =
                  Some (PStr "***")).
  { rewrite to_dict_password. now rewrite H1. }
  assert (Heq : Stack.to_dict s1 = Stack.to_dict s2).
  { apply to_dict_same. split; [exact Hsame | congruence]. }
  split; [exact Hlook|]. split; [exact Heq|]. split.
  - intros w Hw. unfold StackManager.reported_stack, bind, get_self. simpl.
    rewrite Hw. destruct (Stack.to_dict s1) as [|kv r]; [discriminate|].
    reflexivity.
  - intros old1 old2 skip_fields Hold.
    now rewrite (to_dict_same _ _ Hold), Heq.
Qed.

End StackClaims.

(** ** Lookups only read *)

Section ReadsOnly.
Context {S : Type}.

Lemma set_calls_same (w : world S) : set_calls w (calls w ++ []) = w.
Proof. destruct w. unfold set_calls. simpl. now rewrite app_nil_r. Qed.

Lemma unchanged_reads_only {A : Type} (m : M S A) :
  unchanged m -> reads_only m.
Proof.
  intros H w. exists []. rewrite H, set_calls_same. split; [reflexivity|constructor].
Qed.

Lemma reads_only_bind {A B : Type} (m : M S A) (f : A -> M S B) :
  reads_only m -> (forall a, reads_only (f a)) -> reads_only (bind m f).
Proof.
  intros Hm Hf w. unfold bind. destruct (Hm w) as (r1 & E1 & G1).
  destruct (m w) as [[a|e] w1]; simpl in E1; subst w1.
  - destruct (Hf a (set_calls w (calls w ++ r1))) as (r2 & E2 & G2).
    exists (r1 ++ r2). rewrite E2. simpl. split.
    + unfold set_calls. simpl. now rewrite app_assoc.
    + apply Forall_app. now split.
  - exists r1. now split.
Qed.

Lemma reads_only_try_except {A : Type} (body : M S A)
      (handler : exn -> option (M S A)) :
  reads_only body ->
  (forall e h, handler e = Some h -> reads_only h) ->
  reads_only (try_except body handler).
Proof.
  intros Hb Hh w. unfold try_except. destruct (Hb w) as (r1 & E1 & G1).
  destruct (body w) as [[a|e] w1]; simpl in E1; subst w1.
  - exists r1. now split.
  - destruct (handler e) as [h|] eqn:He.
    + destruct (Hh e h He (set_calls w (calls w ++ r1))) as (r2 & E2 & G2).
      exists (r1 ++ r2). rewrite E2. simpl. split.
      * unfold set_calls. simpl. now rewrite app_assoc.
      * apply Forall_app. now split.
    + exists r1. now split.
Qed.

End ReadsOnly.

Module LookupFacts.
Import BaseCRUD.

Section WithPlatform.
Variable pf : platform.
Variable S : Type.

Lemma reads_only_get endpoint params : reads_only (@Client.get pf S endpoint params).
Proof.
  intros w. unfold Client.get. rewrite CRUDRequests.snd_make_request.
  exists [Client.sent_request pf (client w) GET endpoint params None None].
  split; [|repeat constructor].
  unfold Client.world_after, Client.client_after. destruct w. reflexivity.
Qed.

Lemma unchanged_endpoint cls : unchanged (@endpoint S cls).
Proof.
  unfold endpoint. apply unchanged_bind.
  - intros w. reflexivity.
  - intros c. apply unchanged_lift.
Qed.

Lemma reads_only_list_items cls params :
  cls <> EnvironmentCRUD -> reads_only (@list_items pf S cls params).
Proof.
  intros Hc. unfold list_items, list_items_with.
  apply reads_only_bind.
  - apply unchanged_reads_only, unchanged_endpoint.
  - intros e. apply reads_only_bind; [apply reads_only_get|].
    intros data. apply unchanged_reads_only.
    now apply CRUDFacts.unchanged_process_response.
Qed.

Lemma reads_only_get_item_by_id cls item_id :
  cls <> EnvironmentCRUD -> reads_only (@get_item_by_id pf S cls item_id).
Proof.
  intros Hc. unfold get_item_by_id.
  destruct (is_none item_id).
  - apply unchanged_reads_only, unchanged_raise.
  - apply reads_only_bind.
    + apply unchanged_reads_only, unchanged_endpoint.
    + intros e. apply reads_only_bind; [apply reads_only_get|].
      intros data. apply unchanged_reads_only.
      now apply CRUDFacts.unchanged_process_response.
Qed.

Lemma unchanged_filters_loop (filters : dict) (acc : M S (list pyval)) :
  unchanged acc ->
  unchanged
    (fold_left
       (fun acc kv =>
          items <- acc ;;
          filterM (fun item => lift (item_matches (fst kv) (snd kv) item)) items)
       filters acc).
Proof.
  revert acc. induction filters as [|kv r IH]; intros acc Hacc; simpl.
  - exact Hacc.
  - apply IH. apply unchanged_bind; [exact Hacc|].
    intros items. apply unchanged_filterM. intros item. apply unchanged_lift.
Qed.

Lemma unchanged_apply_filters filters items :
  unchanged (@apply_filters S filters items).
Proof.
  unfold apply_filters. destruct filters as [[|kv r]|]; try apply unchanged_ret.
  apply unchanged_filters_loop, unchanged_ret.
Qed.

Lemma reads_only_get_item_by_name cls name params filters :
  cls <> EnvironmentCRUD ->
  reads_only (@get_item_by_name pf S cls name params filters).
Proof.
  intros Hc. unfold get_item_by_name.
  destruct (negb (py_truthy name)).
  - apply unchanged_reads_only, unchanged_raise.
  - apply reads_only_bind; [now apply reads_only_list_items|].
    intros all_items. apply unchanged_reads_only.
    apply unchanged_bind; [intros w; reflexivity|]. intros c.
    apply unchanged_bind; [apply unchanged_lift|]. intros l.
    apply unchanged_bind.
    { apply unchanged_filterM. intros item. apply unchanged_lift. }
    intros items.
    apply unchanged_bind; [apply unchanged_apply_filters|]. intros items'.
    destruct items' as [|a [|b r]];
      try apply unchanged_raise; try apply unchanged_ret.
    apply unchanged_bind.
    { apply unchanged_mapM. intros g. apply unchanged_lift. }
    intros ids. apply unchanged_raise.
Qed.

Lemma reads_only_validate_single_item cls name operation params filters :
  cls <> EnvironmentCRUD ->
  reads_only (@validate_single_item pf S cls name operation params filters).
Proof.
  intros Hc. unfold validate_single_item.
  apply reads_only_bind.
  - apply unchanged_reads_only. intros w. reflexivity.
  - intros c. apply reads_only_try_except.
    + now apply reads_only_get_item_by_name.
    + intros e h He. apply unchanged_reads_only.
      destruct e; try discriminate; injection He as <-.
      * apply unchanged_ret.
      * apply unchanged_raise.
Qed.

End WithPlatform.
End LookupFacts.

(** ** PortainerConfigManager *)

Module ConfigClaims.
Import ConfigManager.

Section WithPlatform.
Variable pf : platform.

Lemma reads_only_get_config : reads_only (get_config pf).
Proof.
  unfold get_config. apply reads_only_bind.
  - apply unchanged_reads_only. intros w. reflexivity.
  - intros m. destruct (py_truthy (config_id m)).
    + apply LookupFacts.reads_only_get_item_by_id. discriminate.
    + apply LookupFacts.reads_only_validate_single_item. discriminate.
Qed.

(** [ensure_present] on an existing config whose content differs, without
    [force]: a warning, the message, and nothing else. *)
Lemma ensure_present_skips (w : world PortainerConfigManager) (d data : dict) :
  config (self w) = PDict d ->
  d <> [] ->
  _get_config_data_of pf (self w) = Ok data ->
  IdempotencyManager.needs_update d data None <> [] ->
  py_truthy (force (self w)) = false ->
  ensure_present pf w =
  (Ok tt,
   set_self (set_warnings w (warnings w ++ [skipped_warning]))
            (with_results (self w)
                          (dict_set (results (self w)) "msg" (PStr skipped_msg)))).
Proof.
  intros Hc Hd Hdata Hch Hf.
  unfold ensure_present, bind, get_self, get_world, _get_config_data.
  cbn -[_get_config_data_of IdempotencyManager.needs_update py_truthy].
  rewrite Hc. destruct d as [|kv r]; [congruence|].
  cbn -[_get_config_data_of IdempotencyManager.needs_update py_truthy].
  change (py_truthy (PDict (kv :: r))) with true.
  cbn -[_get_config_data_of IdempotencyManager.needs_update py_truthy].
  rewrite Hdata.
  cbn -[_get_config_data_of IdempotencyManager.needs_update py_truthy].
  destruct (IdempotencyManager.needs_update (kv :: r) data None) as [|c cs];
    [congruence|].
  rewrite Hf. reflexivity.
Qed.

(** C7: the config operation with target state present, on a config that
    exists, whose desired content differs from the existing record, and
    without [force], completes with [changed=false] and the message that the
    update was skipped; the requests of the whole operation are those of the
    lookup, all of them GET: no DELETE and no POST is sent. *)
Theorem present_without_force_skips_update (w w1 : world PortainerConfigManager)
        (d data : dict) :
  results (self w) = main_results ->
  state (self w) = PStr "present" ->
  get_config pf w = (Ok (PDict d), w1) ->
  d <> [] ->
  _get_config_data_of pf (self w) = Ok data ->
  IdempotencyManager.needs_update d data None <> [] ->
  py_truthy (force (self w)) = false ->
  exists w',
    __call__ pf w = (Ok tt, w')
    /\ dict_lookup (results (self w')) "changed" = Some (PBool false)
    /\ dict_lookup (results (self w')) "msg" = Some (PStr skipped_msg)
    /\ calls w' = calls w1
    /\ exists rqs,
        calls w' = calls w ++ rqs
        /\ Forall (fun rq => req_method rq = "GET") rqs.
Proof.
  intros Hres Hstate Hget Hd Hdata Hch Hf.
  destruct (reads_only_get_config w) as (rqs & Hw1 & Hgets).
  rewrite Hget in Hw1. simpl in Hw1.
  assert (Hself : self w1 = self w) by (rewrite Hw1; reflexivity).
  unfold __call__. unfold bind at 1. rewrite Hget.
  unfold bind at 1. unfold modify_self at 1.
  unfold bind at 1. unfold modify_self at 1.
  unfold bind at 1. unfold get_self at 1. simpl.
  rewrite Hself. rewrite Hstate.
  unfold bind at 1.
  rewrite (ensure_present_skips _ d data); simpl;
    [| reflexivity | exact Hd | exact Hdata | exact Hch | exact Hf].
  unfold bind at 1. unfold get_self at 1. simpl.
  destruct d as [|kv r]; [congruence|]. simpl.
  unfold bind at 1. unfold ret at 1.
  unfold bind at 1. unfold set_result at 1, modify_self at 1. simpl.
  unfold bind at 1. unfold get_world at 1. simpl.
  rewrite Hres.
  destruct (_diff w1).
  - unfold bind, get_self, set_result, modify_self. simpl.
    eexists. split; [reflexivity|]. simpl.
    repeat split; try reflexivity.
    exists rqs. rewrite Hw1. simpl. now split.
  - eexists. split; [reflexivity|]. simpl.
    repeat split; try reflexivity.
    exists rqs. rewrite Hw1. simpl. now split.
Qed.

End WithPlatform.
End ConfigClaims.

(** ** The stack orchestrator *)

Module StackRunFacts.
Import StackDataBuilder.

Lemma for_stack_repository (t : pyval) (c : StackConfig.t) :
  StackConfig.for_stack t (PStr "repository") = Ok c ->
  StackConfig.update_keys c = repository_update_keys
  /\ StackConfig.redeploy_keys c = repository_redeploy_keys
  /\ StackConfig.skip_fields_from_changes c =
     ["ResourceControl"; "UpdateDate"; "UpdatedBy"; PF.STACK_REPOSITORY_PASSWORD].
Proof.
  unfold StackConfig.for_stack.
  change (py_eq (PStr "repository") (PStr "file")) with false.
  change (py_eq (PStr "repository") (PStr "repository")) with true.
  cbv iota.
  destruct (py_eq t (PStr "swarm")); intros [= <-]; repeat split; reflexivity.
Qed.

Section WithPlatform.
Variable pf : platform.

Lemma Forall_filter_weak {A : Type} (P : A -> Prop) (p : A -> bool) (l : list A) :
  (forall x, In x l -> p x = true -> P x) -> Forall P (filter p l).
Proof.
  intros H. apply Forall_forall. intros x Hx.
  apply filter_In in Hx. destruct Hx. auto.
Qed.

Lemma mapM_force_plain (l : list (string * lazy)) (w : world stack_objects) :
  Forall (fun kv => exists v, snd kv = Plain v) l ->
  mapM (fun kv => v <- force pf (snd kv) ;; ret (fst kv, v)) l w =
  (Ok (map (fun kv => (fst kv, plain_value (snd kv))) l), w).
Proof.
  induction 1 as [|[k lv] r [v Hv] Hr IH]; simpl; [reflexivity|].
  simpl in Hv. subst lv. unfold bind at 1. simpl.
  unfold bind at 1. rewrite IH. reflexivity.
Qed.

(** With keys that leave the file entries out, [_get_merged_data] reads no
    file and changes nothing. *)
Lemma _get_merged_data_plain (only_keys : list string) (w : world stack_objects) :
  only_keys <> [] ->
  str_in PF.STACK_FILE only_keys = false ->
  str_in PF.STACK_FILE_CONTENT only_keys = false ->
  _get_merged_data pf None (Some only_keys) w =
  (Ok (merged_plain (self w) only_keys), w).
Proof.
  intros Hne Hf Hc. unfold _get_merged_data, merged_plain.
  unfold bind at 1. unfold get_self at 1. cbv beta iota.
  unfold bind at 1.
  rewrite mapM_force_plain.
  - reflexivity.
  - unfold _filter_keys. destruct only_keys as [|k0 ks]; [congruence|].
    apply Forall_filter_weak. intros [k lv] Hin Hp.
    apply filter_In in Hin. destruct Hin as [Hin _].
    unfold _get_lazy_data in Hin. cbn in Hin.
    repeat (destruct Hin as [[= <- <-]|Hin]; [eexists; reflexivity|]).
    unfold PF.STACK_FILE in Hf. unfold PF.STACK_FILE_CONTENT in Hc.
    destruct Hin as [[= <- <-]|Hin];
      [change (str_in "file" (k0 :: ks) = true) in Hp; congruence|].
    destruct Hin as [[= <- <-]|Hin];
      [change (str_in "StackFileContent" (k0 :: ks) = true) in Hp; congruence|].
    contradiction.
Qed.

Lemma get_update_data_repository (w : world stack_objects) (t : pyval) :
  StackConfig.for_stack t (PStr "repository") = Ok (config (self w)) ->
  get_update_data pf w = (Ok (merged_plain (self w) repository_update_keys), w).
Proof.
  intros Hc. apply for_stack_repository in Hc. destruct Hc as (Hu & _ & _).
  unfold get_update_data, _get_data_for_action.
  unfold bind at 1. unfold get_self at 1. cbv beta iota.
  unfold action_keys. rewrite Hu.
  change (list_set (IdempotencyManager.or_empty None ++ repository_update_keys))
    with repository_update_keys.
  apply _get_merged_data_plain; [discriminate | reflexivity | reflexivity].
Qed.

Lemma get_redeploy_data_repository (w : world stack_objects) (t : pyval) :
  StackConfig.for_stack t (PStr "repository") = Ok (config (self w)) ->
  get_redeploy_data pf w =
  (Ok (merged_plain (self w) repository_redeploy_keys), w).
Proof.
  intros Hc. apply for_stack_repository in Hc. destruct Hc as (_ & Hr & _).
  unfold get_redeploy_data, _get_data_for_action.
  unfold bind at 1. unfold get_self at 1. cbv beta iota.
  unfold action_keys. rewrite Hr.
  change (list_set (IdempotencyManager.or_empty None ++ repository_redeploy_keys))
    with repository_redeploy_keys.
  apply _get_merged_data_plain; [discriminate | reflexivity | reflexivity].
Qed.

End WithPlatform.
End StackRunFacts.

Module StackManagerFacts.
Import StackManager.

Section WithPlatform.
Variable pf : platform.

Lemma bind_get_state_manager {B : Type}
      (f : StackStateManager.t -> M stack_objects B) w :
  bind get_state_manager f w = f (state_manager (self w)) w.
Proof. reflexivity. Qed.

Lemma get_endpoint_params_eq (w : world stack_objects) :
  StackRepository._get_endpoint_params w = (Ok (endpoint_params w), w).
Proof. reflexivity. Qed.

Lemma needs_update_repository (w : world stack_objects) :
  let m := state_manager (self w) in
  StackStateManager.stack_source m = PStr "repository" ->
  py_truthy (StackStateManager.update_password m) = true ->
  StackConfig.for_stack (StackStateManager.stack_type m)
                        (StackStateManager.stack_source m)
  = Ok (config (self w)) ->
  needs_update pf w = (Ok (true, repository_changes w), w).
Proof.
  intros m Hsrc Hpw Hcfg. rewrite Hsrc in Hcfg.
  unfold needs_update.
  rewrite bind_get_self.
  erewrite bind_ok by (eapply StackRunFacts.get_update_data_repository; exact Hcfg).
  rewrite bind_get_self.
  fold m. rewrite Hsrc, Hpw. reflexivity.
Qed.

(** [update_stack] on a stack that exists: the update call, then the state
    manager takes the answer. *)
Lemma update_stack_repository (w : world stack_objects) (t : pyval) :
  py_truthy (Stack.id (current_stack w)) = true ->
  StackConfig.for_stack t (PStr "repository") = Ok (config (self w)) ->
  StackRepository.update_stack pf w =
  match BaseCRUD.update_item pf StackCRUD (Stack.id (current_stack w))
                             (merged_plain (self w) repository_update_keys)
                             (Some (endpoint_params w)) w with
  | (Ok stack_data, w2) => update_state stack_data w2
  | (Raise e, w2) => (Raise e, w2)
  end.
Proof.
  intros Hid Hcfg. unfold StackRepository.update_stack.
  rewrite bind_get_state_manager. fold (current_stack w). rewrite Hid.
  cbn [negb].
  erewrite bind_ok by (eapply StackRunFacts.get_update_data_repository; exact Hcfg).
  erewrite bind_ok by apply get_endpoint_params_eq.
  reflexivity.
Qed.

End WithPlatform.
End StackManagerFacts.

Module StackManagerClaims.
Import StackManager StackManagerFacts.

Section WithPlatform.
Variable pf : platform.

(** [ensure_present] on an existing repository stack with
    [update_password]: in check mode the change is recorded from the
    change-set; otherwise the update call is made and, if it answers, the
    change is recorded from the answer. *)
Lemma ensure_present_update_password (w : world stack_objects) :
  let m := state_manager (self w) in
  py_truthy (Stack.id (current_stack w)) = true ->
  StackStateManager.stack_source m = PStr "repository" ->
  py_truthy (StackStateManager.update_password m) = true ->
  StackConfig.for_stack (StackStateManager.stack_type m)
                        (StackStateManager.stack_source m)
  = Ok (config (self w)) ->
  ensure_present pf w =
  if check_mode w then
    (Ok tt, record_change w (PDict (repository_changes w)) "Stack updated.")
  else
    match BaseCRUD.update_item pf StackCRUD (Stack.id (current_stack w))
                               (merged_plain (self w) repository_update_keys)
                               (Some (endpoint_params w)) w with
    | (Ok stack_data, w2) => (Ok tt, record_change w2 stack_data "Stack updated.")
    | (Raise e, w2) => (Raise e, w2)
    end.
Proof.
  intros m Hid Hsrc Hpw Hcfg.
  unfold ensure_present.
  rewrite bind_get_self, bind_get_world.
  fold (current_stack w). rewrite Hid.
  erewrite bind_ok by (apply needs_update_repository; assumption).
  cbn [negb].
  destruct (check_mode w); cbn [negb].
  - reflexivity.
  - fold m in Hcfg. rewrite Hsrc in Hcfg.
    unfold bind at 1.
    erewrite update_stack_repository by eassumption.
    destruct (BaseCRUD.update_item pf StackCRUD (Stack.id (current_stack w))
                (merged_plain (self w) repository_update_keys)
                (Some (endpoint_params w)) w) as [[stack_data|e] w2];
      reflexivity.
Qed.

(** C8 (amended): for a repository-sourced stack with [update_password]
    and target state present on an existing stack, [needs_update] answers
    changed, whatever the change-set (which leaves the password out) holds.
    Outside check mode the update call is sent, to the update endpoint with
    the update verb of the stack adapter, and the operation reports
    [changed=true] when the call answers; in check mode the operation
    reports [changed=true] and sends no request. *)
Theorem update_password_forces_update (w : world stack_objects) :
  let m := state_manager (self w) in
  let id := Stack.id (current_stack w) in
  let data := merged_plain (self w) repository_update_keys in
  py_truthy id = true ->
  StackStateManager.stack_source m = PStr "repository" ->
  py_truthy (StackStateManager.update_password m) = true ->
  StackConfig.for_stack (StackStateManager.stack_type m)
                        (StackStateManager.stack_source m)
  = Ok (config (self w)) ->
  needs_update pf w = (Ok (true, repository_changes w), w)
  /\ ~ In PF.STACK_REPOSITORY_PASSWORD (dict_keys (repository_changes w))
  /\ (forall w',
         ensure_present pf w = (Ok tt, w') ->
         dict_lookup (results (self w')) "changed" = Some (PBool true)
         /\ dict_lookup (results (self w')) "msg" = Some (PStr "Stack updated."))
  /\ (check_mode w = true ->
      fst (ensure_present pf w) = Ok tt
      /\ calls (snd (ensure_present pf w)) = calls w)
  /\ (check_mode w = false ->
      exists e,
        BaseCRUD.update_endpoint_of StackCRUD (crud w StackCRUD) id = Ok e
        /\ calls (snd (ensure_present pf w)) =
           calls w
           ++ [Client.sent_request pf (client w)
                 (BaseCRUD.update_method_of StackCRUD (crud w StackCRUD)) e
                 (Some (endpoint_params w)) (Some data) None]
        /\ (fst (ensure_present pf w) = Ok tt <->
            exists stack_data,
              fst (BaseCRUD.update_item pf StackCRUD id data
                                        (Some (endpoint_params w)) w)
              = Ok stack_data)).
Proof.
  intros m id data Hid Hsrc Hpw Hcfg.
  pose proof (ensure_present_update_password w Hid Hsrc Hpw Hcfg) as Hrun.
  split; [now apply needs_update_repository|].
  split.
  { unfold repository_changes, IdempotencyManager.needs_update. intros Hin.
    unfold dict_keys in Hin. apply in_map_iff in Hin.
    destruct Hin as [[k v] [Hk Hin]]. simpl in Hk. subst k.
    apply filter_In in Hin. destruct Hin as [Hin _].
    revert Hin. apply IdempotencyFacts.skipped_key_not_in_loop; [|intros []].
    fold m in Hcfg. rewrite Hsrc in Hcfg.
    apply StackRunFacts.for_stack_repository in Hcfg.
    destruct Hcfg as (_ & _ & ->). reflexivity. }
  split; [|split].
  - intros w' Hw'. rewrite Hrun in Hw'.
    destruct (check_mode w).
    + injection Hw' as <-. split; reflexivity || (simpl; now rewrite ?dict_lookup_set).
    + fold id data in Hw'.
      destruct (BaseCRUD.update_item pf StackCRUD id data
                                     (Some (endpoint_params w)) w)
        as [[stack_data|e] w2]; [|discriminate].
      injection Hw' as <-. simpl. now rewrite !dict_lookup_set.
  - intros Hcm. rewrite Hrun, Hcm. split; reflexivity.
  - intros Hcm. rewrite Hrun, Hcm. fold id data.
    assert (He : exists e,
               BaseCRUD.update_endpoint_of StackCRUD (crud w StackCRUD) id = Ok e).
    { unfold BaseCRUD.update_endpoint_of. simpl.
      destruct (BaseCRUD.swarm_repository _); eexists; reflexivity. }
    destruct He as [e He]. exists e. split; [exact He|].
    assert (Hnone : is_none id = false).
    { destruct id; try reflexivity; discriminate. }
    assert (Hsend := CRUDRequests.update_item_sends pf stack_objects StackCRUD id
                       data (Some (endpoint_params w)) w e
                       ltac:(discriminate) ltac:(discriminate) He Hnone).
    destruct (BaseCRUD.update_item pf StackCRUD id data
                                   (Some (endpoint_params w)) w)
      as [[stack_data|x] w2]; simpl in Hsend; subst w2; simpl.
    + split; [reflexivity|]. split; [intros _; eexists; reflexivity | reflexivity].
    + split; [reflexivity|]. split; [discriminate | intros [sd H]; discriminate].
Qed.

End WithPlatform.
End StackManagerClaims.

Module RedeployClaims.
Import StackManager StackManagerFacts.

Section WithPlatform.
Variable pf : platform.

(** Redeploy is never a creation path: without a stack, the operation
    fails. *)
Lemma ensure_redeployed_missing (w : world stack_objects) :
  py_truthy (Stack.id (current_stack w)) = false ->
  ensure_redeployed pf w =
  (Raise (FailJson "Cannot redeploy an inexistent stack." []), w).
Proof.
  intros Hid. unfold ensure_redeployed.
  rewrite bind_get_self, bind_get_world.
  fold (current_stack w). rewrite Hid. reflexivity.
Qed.

(** A stack from a file is updated in place of a redeploy. *)
Lemma ensure_redeployed_file (w : world stack_objects) :
  py_truthy (Stack.id (current_stack w)) = true ->
  check_mode w = false ->
  py_eq (StackStateManager.stack_source (state_manager (self w)))
        (PStr "repository") = false ->
  ensure_redeployed pf w =
  (StackRepository.update_stack pf ;;
   set_result "changed" (PBool true) ;;
   set_result "msg" (PStr "Stack redeployed.")) w.
Proof.
  intros Hid Hcm Hsrc. unfold ensure_redeployed.
  rewrite bind_get_self, bind_get_world.
  fold (current_stack w). rewrite Hid, Hcm, Hsrc. reflexivity.
Qed.

(** [redeploy_stack] of a repository stack: the data of a redeploy, then
    [StackCRUD.redeploy]. *)
Lemma redeploy_stack_repository (w : world stack_objects) (t : pyval) :
  py_truthy (Stack.id (current_stack w)) = true ->
  StackConfig.for_stack t (PStr "repository") = Ok (config (self w)) ->
  StackRepository.redeploy_stack pf w =
  match BaseCRUD.redeploy pf (Stack.id (current_stack w))
                          (merged_plain (self w) repository_redeploy_keys)
                          (Some (endpoint_params w)) w with
  | (Ok stack_data, w2) => update_state stack_data w2
  | (Raise e, w2) => (Raise e, w2)
  end.
Proof.
  intros Hid Hcfg. unfold StackRepository.redeploy_stack.
  rewrite bind_get_state_manager. fold (current_stack w). rewrite Hid.
  cbn [negb].
  erewrite bind_ok
    by (eapply StackRunFacts.get_redeploy_data_repository; exact Hcfg).
  erewrite bind_ok by apply get_endpoint_params_eq.
  reflexivity.
Qed.

(** [StackCRUD.redeploy] of a stack that is not a swarm stack from a
    repository: no request, and [ValueError]. *)
Lemma redeploy_without_request (stack_id : pyval) (data : dict)
      (params : option dict) (w : world stack_objects) :
  BaseCRUD.swarm_repository (crud w StackCRUD) = false ->
  BaseCRUD.redeploy pf stack_id data params w =
  (Raise (ValueError "Unexpected response received"), w).
Proof.
  intros Hsr. unfold BaseCRUD.redeploy, bind, BaseCRUD.get_crud. simpl.
  unfold BaseCRUD.swarm_repository in Hsr.
  destruct (py_eq (stack_type (crud w StackCRUD)) (PStr "swarm")); [|reflexivity].
  destruct (py_eq (stack_source (crud w StackCRUD)) (PStr "repository"));
    [discriminate | reflexivity].
Qed.

(** The redeploy of a repository stack that is not a swarm stack: the
    operation raises [ValueError] and sends nothing. *)
Lemma ensure_redeployed_not_swarm (w : world stack_objects) :
  let m := state_manager (self w) in
  py_truthy (Stack.id (current_stack w)) = true ->
  check_mode w = false ->
  StackStateManager.stack_source m = PStr "repository" ->
  StackConfig.for_stack (StackStateManager.stack_type m)
                        (StackStateManager.stack_source m)
  = Ok (config (self w)) ->
  BaseCRUD.swarm_repository (crud w StackCRUD) = false ->
  ensure_redeployed pf w = (Raise (ValueError "Unexpected response received"), w).
Proof.
  intros m Hid Hcm Hsrc Hcfg Hsr. unfold ensure_redeployed.
  rewrite bind_get_self, bind_get_world.
  fold (current_stack w). fold m. rewrite Hid, Hcm, Hsrc.
  change (py_eq (PStr "repository") (PStr "repository")) with true.
  cbn [negb]. rewrite Hsrc in Hcfg. unfold bind at 1.
  erewrite redeploy_stack_repository by eassumption.
  rewrite redeploy_without_request by assumption. reflexivity.
Qed.

(** The redeploy of a swarm stack from a repository: one PUT to
    [/stacks/{id}/git/redeploy]. *)
Lemma ensure_redeployed_swarm_repository (w : world stack_objects) :
  let m := state_manager (self w) in
  let id := Stack.id (current_stack w) in
  py_truthy id = true ->
  check_mode w = false ->
  StackStateManager.stack_source m = PStr "repository" ->
  StackConfig.for_stack (StackStateManager.stack_type m)
                        (StackStateManager.stack_source m)
  = Ok (config (self w)) ->
  crud w StackCRUD =
  BaseCRUD.StackCRUD_init [("stack_type", PStr "swarm");
                           ("stack_source", PStr "repository")] ->
  calls (snd (ensure_redeployed pf w)) =
  calls w
  ++ [Client.sent_request pf (client w) PUT
        ("/stacks/" ^^ py_str id ^^ "/git/redeploy")
        (Some (endpoint_params w))
        (Some (merged_plain (self w) repository_redeploy_keys)) None].
Proof.
  intros m id Hid Hcm Hsrc Hcfg Hcrud. unfold ensure_redeployed.
  rewrite bind_get_self, bind_get_world.
  fold (current_stack w). fold m. fold id. rewrite Hid, Hcm, Hsrc.
  change (py_eq (PStr "repository") (PStr "repository")) with true.
  cbn [negb]. rewrite Hsrc in Hcfg.
  rewrite calls_bind by reflexivity.
  erewrite redeploy_stack_repository by eassumption. fold id.
  assert (Hre : calls (snd (BaseCRUD.redeploy pf id
                              (merged_plain (self w) repository_redeploy_keys)
                              (Some (endpoint_params w)) w)) =
                calls w
                ++ [Client.sent_request pf (client w) PUT
                      ("/stacks/" ^^ py_str id ^^ "/git/redeploy")
                      (Some (endpoint_params w))
                      (Some (merged_plain (self w) repository_redeploy_keys))
                      None]).
  { unfold BaseCRUD.redeploy. rewrite CRUDFacts.bind_get_crud. rewrite Hcrud.
    change (py_eq (stack_type _) (PStr "swarm")) with true.
    change (py_eq (stack_source _) (PStr "repository")) with true.
    cbv iota.
    erewrite bind_bind_ok
      by (unfold BaseCRUD.endpoint; rewrite CRUDFacts.bind_get_crud, Hcrud;
          reflexivity).
    unfold Client.put. rewrite CRUDRequests.snd_request_then; [reflexivity|].
    intros response. destruct response; try apply unchanged_raise.
    apply CRUDFacts.unchanged_process_response. discriminate. }
  destruct (BaseCRUD.redeploy pf id
              (merged_plain (self w) repository_redeploy_keys)
              (Some (endpoint_params w)) w) as [[stack_data|e] w2];
    exact Hre.
Qed.

End WithPlatform.

(** C5, where the code departs from it: the redeploy of the standalone stack
    [webapp], sourced from a repository, outside check mode.  The run looks
    the stack up, then raises [ValueError]; its one request is the GET of the
    lookup, and no update is sent. *)
Theorem redeploy_standalone_repository_raises :
  let pf := Samples.stacks_platform PNone in
  let w := Samples.stack_world
             (Samples.stack_params "standalone" "repository" "redeployed"
                                   PNone false) false in
  fst (run pf w) = Raise (ValueError "Unexpected response received")
  /\ map req_method (calls (snd (run pf w))) = ["GET"]
  /\ map req_url (calls (snd (run pf w))) =
     ["https://portainer.example.com/api/stacks"].
Proof. vm_compute. repeat split. Qed.

End RedeployClaims.

(** ** The properties at sample inputs *)

Module Witnesses.

Lemma NoDup_by_nodup (l : list string) : nodup string_dec l = l -> NoDup l.
Proof. intros <-. apply NoDup_nodup. Defined.

(** [needs_update_exact] at a sample: the change-set is the two fields
    that differ, the skipped field and the [None] field left out. *)
Lemma needs_update_exact_witness :
  NoDup (dict_keys Samples.desired_data)
  /\ IdempotencyManager.needs_update Samples.existing_data Samples.desired_data
                                     Samples.skipped
     = [("Prune", PBool true); ("PullImage", PBool true)]
  /\ (forall k v,
         dict_lookup (IdempotencyManager.needs_update
                        Samples.existing_data Samples.desired_data
                        Samples.skipped) k = Some v <->
         dict_lookup Samples.desired_data k = Some v
         /\ ~ In k (IdempotencyManager.or_empty Samples.skipped)
         /\ v <> PNone
         /\ py_ne v (dict_get Samples.existing_data k) = true).
Proof.
  assert (H : NoDup (dict_keys Samples.desired_data))
    by (apply NoDup_by_nodup; reflexivity).
  split; [exact H|]. split; [reflexivity|].
  exact (proj1 (IdempotencyFacts.needs_update_exact
                  Samples.existing_data Samples.desired_data Samples.skipped H)).
Defined.


(** [docker_paths_prefixed] for the network adapter and environment 1:
    the paths, the requests that list, get, create, update and delete send,
    and the swarm adapter, which sends none for create, update and
    delete. *)
Lemma docker_paths_prefixed_witness :
  let pf := Samples.platform_of (Samples.always Samples.accepted)
                                Samples.loads_object in
  let params := [("endpoint_id", PInt 1)] in
  let w := Samples.world0 tt params false in
  let c := BaseCRUD.with_endpoint_id
             (BaseCRUD.PortainerCRUD_init params DockerNetworkCRUD) (PInt 1) in
  let sent (w' : world unit) :=
    map (fun rq => (req_method rq, req_url rq)) (calls w') in
  BaseCRUD.is_docker DockerNetworkCRUD = true
  /\ BaseCRUD.endpoint_of DockerNetworkCRUD c = Ok "/endpoints/1/docker/networks"
  /\ BaseCRUD.delete_endpoint_of DockerNetworkCRUD c (PStr "abc")
     = Ok "/endpoints/1/docker/networks/abc"
  /\ BaseCRUD.create_endpoint_of DockerNetworkCRUD c
     = Ok "/endpoints/1/docker/networks/create"
  /\ BaseCRUD.update_endpoint_of DockerNetworkCRUD c (PStr "abc")
     = Ok "/endpoints/1/docker/networks/abc/update"
  /\ crud w DockerNetworkCRUD = c
  /\ sent (snd (BaseCRUD.list_items pf DockerNetworkCRUD None w))
     = [("GET", "https://portainer.example.com/api/endpoints/1/docker/networks")]
  /\ sent (snd (BaseCRUD.get_item_by_id pf DockerNetworkCRUD (PStr "abc") w))
     = [("GET",
         "https://portainer.example.com/api/endpoints/1/docker/networks/abc")]
  /\ sent (snd (BaseCRUD.create_item pf DockerNetworkCRUD (PStr "backend")
                                     None None None w))
     = [("POST",
         "https://portainer.example.com/api/endpoints/1/docker/networks/create")]
  /\ sent (snd (BaseCRUD.update_item pf DockerNetworkCRUD (PStr "abc") [] None w))
     = [("PUT",
         "https://portainer.example.com/api/endpoints/1/docker/networks/abc/update")]
  /\ sent (snd (BaseCRUD.delete_item_by_id pf DockerNetworkCRUD (PStr "abc")
                                           None w))
     = [("DELETE",
         "https://portainer.example.com/api/endpoints/1/docker/networks/abc")]
  /\ BaseCRUD.is_docker SwarmCRUD = true
  /\ BaseCRUD.create_item pf SwarmCRUD (PStr "swarm") None None None w
     = (Ok (PDict []), w)
  /\ BaseCRUD.update_item pf SwarmCRUD (PStr "abc") [] None w = (Ok (PDict []), w)
  /\ BaseCRUD.delete_item_by_id pf SwarmCRUD (PStr "abc") None w = (Ok tt, w)
  /\ BaseCRUD.delete_item_by_name pf SwarmCRUD (PStr "swarm") w = (Ok tt, w).
Proof.
  intros pf params w c sent.
  destruct (CRUDClaims.docker_paths_prefixed
              pf unit DockerNetworkCRUD params 1 (PStr "abc") eq_refl)
    as [(H1 & H2 & H3 & H4 & _) Hnet].
  destruct (Hnet w eq_refl) as (Hlist & Hget & Hmut & _).
  destruct (Hmut ltac:(discriminate)) as (Hcreate & Hupdate & Hdelete).
  destruct (CRUDClaims.docker_paths_prefixed
              pf unit SwarmCRUD params 1 (PStr "abc") eq_refl)
    as [_ Hswarm].
  destruct (Hswarm w eq_refl) as (_ & _ & _ & Hnone).
  destruct (Hnone eq_refl) as (Screate & Supdate & Sdelete & Sname).
  split; [reflexivity|].
  split; [exact H1|]. split; [exact H2|]. split; [exact H3|]. split; [exact H4|].
  split; [reflexivity|].
  split; [rewrite Hlist; reflexivity|].
  split; [rewrite (Hget eq_refl); reflexivity|].
  split; [rewrite (Hcreate (PStr "backend") None None None eq_refl); reflexivity|].
  split; [rewrite (Hupdate [] None eq_refl); reflexivity|].
  split; [rewrite (Hdelete None eq_refl); reflexivity|].
  split; [reflexivity|].
  split; [apply Screate|]. split; [apply Supdate|]. split; [apply Sdelete|].
  apply Sname.
Defined.

(** [using_endpoint_scoped] around a swarm inspection that fails: the
    request went to environment 2, the exception came through, and the
    adapter is back on environment 1. *)
Lemma using_endpoint_scoped_witness :
  let pf := Samples.platform_of (Samples.always Samples.server_error)
                                Samples.loads_object in
  let w := Samples.world0 tt [("endpoint_id", PInt 1)] false in
  let run :=
    BaseCRUD.using_endpoint SwarmCRUD (PInt 2) (@BaseCRUD.inspect_swarm pf unit) w in
  BaseCRUD.is_docker SwarmCRUD = true
  /\ fst run =
     Raise (PortainerApiError "Internal Server Error" 500 (PStr "boom")
              "https://portainer.example.com/api/endpoints/2/docker/swarm"
              "GET" [])
  /\ _endpoint_id (crud (snd run) SwarmCRUD) = PInt 1
  /\ _endpoint_id (crud (snd run) SwarmCRUD) = _endpoint_id (crud w SwarmCRUD).
Proof.
  intros pf w run. split; [reflexivity|].
  destruct (CRUDClaims.using_endpoint_scoped
              unit pyval SwarmCRUD (PInt 2) (@BaseCRUD.inspect_swarm pf unit) w
              eq_refl)
    as (_ & _ & Hfst & Hid & _).
  split; [exact Hfst|]. split; exact Hid.
Defined.

(** [to_dict_hides_password] on the stack [webapp] and its twin with
    another password. *)
Lemma to_dict_hides_password_witness :
  Stack.rep_password Samples.webapp = PStr "old-secret"
  /\ Stack.rep_password Samples.webapp' = PStr "new-secret"
  /\ dict_lookup (Stack.to_dict Samples.webapp) PF.STACK_REPOSITORY_PASSWORD
     = Some (PStr "***")
  /\ Stack.to_dict Samples.webapp = Stack.to_dict Samples.webapp'.
Proof.
  split; [reflexivity|]. split; [reflexivity|].
  destruct (StackClaims.to_dict_hides_password
              (Samples.stacks_platform PNone) Samples.webapp Samples.webapp')
    as (H1 & H2 & _).
  - discriminate.
  - discriminate.
  - intros a Ha. symmetry.
    apply StackClaims.getattr_other_than_password. exact Ha.
  - split; assumption.
Defined.

(** [present_without_force_skips_update] on the config [test_config]. *)
Lemma present_without_force_skips_update_witness :
  let pf := Samples.configs_platform in
  let w := Samples.config_world in
  exists w',
    ConfigManager.__call__ pf w = (Ok tt, w')
    /\ dict_lookup (ConfigManager.results (self w')) "changed" = Some (PBool false)
    /\ dict_lookup (ConfigManager.results (self w')) "msg" = Some (PStr skipped_msg)
    /\ calls w' = calls (snd (ConfigManager.get_config pf w))
    /\ exists rqs,
        calls w' = calls w ++ rqs
        /\ Forall (fun rq => req_method rq = "GET") rqs.
Proof.
  intros pf w.
  apply (ConfigClaims.present_without_force_skips_update
           pf w (snd (ConfigManager.get_config pf w)) Samples.existing_config
           [ (PF.CONFIG_NAME, PStr "test_config");
             (PF.CONFIG_DATA, PStr "b64:Config data updated") ]).
  - reflexivity.
  - reflexivity.
  - reflexivity.
  - discriminate.
  - reflexivity.
  - discriminate.
  - reflexivity.
Defined.

(** [update_password_forces_update] on the swarm stack [webapp] as the API
    lists it, outside check mode: every field asked for is as the stack has
    it, so the change-set is empty, and yet the update is posted and the
    change reported; with [update_password] off, the same stack is left
    alone. *)
Lemma update_password_forces_update_witness :
  let pf := Samples.listed_platform in
  let params update_password :=
    Samples.stack_params "swarm" "repository" "present" (PStr "swarm123")
                         update_password in
  let w := Samples.stack_world_holding Samples.found_webapp (params true) false in
  let w_off :=
    Samples.stack_world_holding Samples.found_webapp (params false) false in
  snd (StackRepository.get_stack pf (Samples.stack_world (params true) false))
    = set_calls (Samples.stack_world (params true) false)
                (calls (snd (StackRepository.get_stack
                               pf (Samples.stack_world (params true) false))))
  /\ fst (StackRepository.get_stack pf (Samples.stack_world (params true) false))
     = Ok Samples.found_webapp
  /\ repository_changes w = []
  /\ StackManager.needs_update pf w = (Ok (true, []), w)
  /\ dict_lookup (results (self (snd (StackManager.ensure_present pf w))))
                 "changed" = Some (PBool true)
  /\ dict_lookup (results (self (snd (StackManager.ensure_present pf w))))
                 "msg" = Some (PStr "Stack updated.")
  /\ map req_method (calls (snd (StackManager.ensure_present pf w))) = ["POST"]
  /\ map req_url (calls (snd (StackManager.ensure_present pf w))) =
     ["https://portainer.example.com/api/stacks/5/git?query"]
  /\ StackManager.needs_update pf w_off = (Ok (false, []), w_off)
  /\ calls (snd (StackManager.ensure_present pf w_off)) = []
  /\ dict_lookup (results (self (snd (StackManager.ensure_present pf w_off))))
                 "changed" = Some (PBool false)
  /\ dict_lookup (results (self (snd (StackManager.ensure_present pf w_off))))
                 "msg"
     = Some (PStr "Stack already exists with correct configuration.").
Proof.
  intros pf params w w_off.
  destruct (StackManagerClaims.update_password_forces_update pf w)
    as (H1 & _ & H3 & _ & H5); try reflexivity.
  split; [reflexivity|]. split; [reflexivity|]. split; [reflexivity|].
  split; [exact H1|].
  destruct (H3 (snd (StackManager.ensure_present pf w)) eq_refl) as [Hc Hm].
  split; [exact Hc|]. split; [exact Hm|].
  destruct (H5 eq_refl) as (e & He & Hcalls & _).
  rewrite Hcalls. injection He as <-.
  split; [reflexivity|]. split; [reflexivity|].
  repeat split; reflexivity.
Defined.

End Witnesses.

Module Counterexamples.

(** C8 as stated fails in check mode: the same operation reports
    [changed=true], and the only request of the run is the GET of the
    lookup; no update call is sent. *)
Lemma update_password_check_mode_sends_no_update :
  let pf := Samples.stacks_platform (PStr "swarm123") in
  let w := Samples.stack_world
             (Samples.stack_params "swarm" "repository" "present"
                                   (PStr "swarm123") true) true in
  fst (StackManager.run pf w) = Ok tt
  /\ dict_lookup (results (self (snd (StackManager.run pf w)))) "changed"
     = Some (PBool true)
  /\ map req_method (calls (snd (StackManager.run pf w))) = ["GET"].
Proof. vm_compute. repeat split. Qed.

End Counterexamples.
